(** * Browser daemon: tab registry and command dispatch

    A shallow embedding of [browser_daemon.py] (class [BrowserDaemon]) and of
    the part of [browser_automation.py] it drives (class [BrowserAutomation]).

    - Python values that travel through the JSON command and result files are
      values of [json].
    - The browser engine (playwright), the file system and the clock are
      outside the repository: every call into them is a [Call], answered by an
      environment [Env] that owns an arbitrary [World] state and may answer any
      call with a value or with an exception.
    - Methods are computations in a state-and-exception monad [M] over the
      daemon object, the world, and the chronological log of the calls made.
      A raised exception keeps the mutations made before it, as in Python.
    - An exception is the text [str(e)] gives; the exceptions [except
      Exception] lets through ([KeyboardInterrupt], [SystemExit]) come with
      signals and are not modelled, nor is [signal_handler].
    - Output on stdout ([print]) is not modelled.
    - [run] loops until told to stop: [Daemon.loop] takes the number of
      rounds to model as fuel.
    - [send_command.py], the client of the daemon's command and result
      files, is [Client]; its waiting loop takes fuel as well, and its
      readings of the clock go through [Clock]. *)

From Stdlib Require Import ZArith QArith List String Ascii Bool Lia DecimalString.
Import ListNotations.
Local Close Scope Q_scope.
Local Open Scope Z_scope.
Local Open Scope list_scope.
Local Open Scope string_scope.

Set Implicit Arguments.
Set Warnings "-register-all".

(** ** Python values *)

(** A Python [float]: a finite one is carried by its exact rational value,
    which is what Python's mixed [int]/[float] comparisons compare. *)
Inductive pyfloat : Type :=
| Finite (q : Q)
| PosInf
| NegInf
| NaN.

(** What [json.load] produces: [None], [bool], [int], [float], [str], [list]
    and [dict] (a dict as an association list, looked up first match). *)
Inductive json : Type :=
| JNull
| JBool (b : bool)
| JInt (z : Z)
| JFloat (f : pyfloat)
| JStr (s : string)
| JArr (l : list json)
| JObj (kv : list (string * json)).

(** An exception as the daemon observes it: the text of [str(e)]. *)
Definition exc : Type := string.

Module Py.

Definition type_name (v : json) : string :=
  match v with
  | JNull => "NoneType"
  | JBool _ => "bool"
  | JInt _ => "int"
  | JFloat _ => "float"
  | JStr _ => "str"
  | JArr _ => "list"
  | JObj _ => "dict"
  end.

Definition dquote : string := String (ascii_of_nat 34) "".

Definition str_of_Z (z : Z) : string := NilZero.string_of_int (Z.to_int z).

Definition int_of_bool (b : bool) : Z := if b then 1 else 0.

(** [bool(v)] *)
Definition truthy (v : json) : bool :=
  match v with
  | JNull => false
  | JBool b => b
  | JInt z => negb (z =? 0)%Z
  | JFloat (Finite q) => negb (Qeq_bool q (inject_Z 0))
  | JFloat _ => true
  | JStr s => negb (s =? "")%string
  | JArr l => match l with [] => false | _ => true end
  | JObj kv => match kv with [] => false | _ => true end
  end.

Definition attribute_error (v : json) (attr : string) : exc :=
  "'" ++ type_name v ++ "' object has no attribute '" ++ attr ++ "'".

Fixpoint assoc (k : string) (kv : list (string * json)) : option json :=
  match kv with
  | [] => None
  | (k', v) :: rest => if (k =? k')%string then Some v else assoc k rest
  end.

(** [obj.get(key, default)]; only a dict has the method. *)
Definition get (obj : json) (key : string) (default : json) : exc + json :=
  match obj with
  | JObj kv => inr (match assoc key kv with Some v => v | None => default end)
  | _ => inl (attribute_error obj "get")
  end.

(** [n <= v] for an int [n] *)
Definition int_le (n : Z) (v : json) : exc + bool :=
  match v with
  | JInt z => inr (n <=? z)%Z
  | JBool b => inr (n <=? int_of_bool b)%Z
  | JFloat (Finite q) => inr (Qle_bool (inject_Z n) q)
  | JFloat PosInf => inr true
  | JFloat _ => inr false
  | _ => inl ("'<=' not supported between instances of 'int' and '"
                ++ type_name v ++ "'")
  end.

(** [v < n] for an int [n] *)
Definition lt_int (v : json) (n : Z) : exc + bool :=
  match v with
  | JInt z => inr (z <? n)%Z
  | JBool b => inr (int_of_bool b <? n)%Z
  | JFloat (Finite q) => inr (negb (Qle_bool (inject_Z n) q))
  | JFloat NegInf => inr true
  | JFloat _ => inr false
  | _ => inl ("'<' not supported between instances of '"
                ++ type_name v ++ "' and 'int'")
  end.

(** [n == v] for an int [n] *)
Definition int_eq (n : Z) (v : json) : bool :=
  match v with
  | JInt z => (n =? z)%Z
  | JBool b => (n =? int_of_bool b)%Z
  | JFloat (Finite q) => Qeq_bool (inject_Z n) q
  | _ => false
  end.

(** [v == s] for a str [s] *)
Definition eq_str (v : json) (s : string) : bool :=
  match v with
  | JStr s' => (s' =? s)%string
  | _ => false
  end.

(** [v + 1].  Float addition is given without rounding; the daemon never
    reaches it (subscripting a list with a float raises first). *)
Definition succ (v : json) : exc + json :=
  match v with
  | JInt z => inr (JInt (z + 1))
  | JBool b => inr (JInt (int_of_bool b + 1))
  | JFloat (Finite q) => inr (JFloat (Finite (q + inject_Z 1)%Q))
  | JFloat f => inr (JFloat f)
  | JStr _ => inl ("can only concatenate str (not " ++ dquote ++ "int" ++ dquote ++ ") to str")
  | _ => inl ("unsupported operand type(s) for +: '"
                ++ type_name v ++ "' and 'int'")
  end.

(** The position [lst[v]] denotes in a list of length [len]: negative ints
    count from the end. *)
Definition index (len : nat) (v : json) : exc + nat :=
  let of_int (z : Z) : exc + nat :=
    if ((0 <=? z) && (z <? Z.of_nat len))%Z then inr (Z.to_nat z)
    else if ((- Z.of_nat len <=? z) && (z <? 0))%Z then inr (Z.to_nat (z + Z.of_nat len))
    else inl "list index out of range" in
  match v with
  | JInt z => of_int z
  | JBool b => of_int (int_of_bool b)
  | _ => inl ("list indices must be integers or slices, not " ++ type_name v)
  end.

End Py.

(** ** The world outside the repository *)

(** A playwright [Page] object. *)
Definition handle : Type := nat.

(** The calls the two classes make into playwright, the file system and the
    clock, with the arguments the source passes. *)
Inductive Call : Type :=
| SyncPlaywrightStart                                   (* sync_playwright().start() *)
| ChromiumLaunch (headless : bool)                      (* playwright.chromium.launch(headless=..) *)
| BrowserNewContext                                     (* browser.new_context() *)
| ContextNewPage                                        (* context.new_page() *)
| ContextClose                                          (* context.close() *)
| PlaywrightStop                                        (* playwright.stop() *)
| PageGoto (p : handle) (url : string) (wait_until : option string)
| PageTitle (p : handle)
| PageUrl (p : handle)
| PageScreenshot (p : handle) (path : json) (full_page : bool)
| PageClick (p : handle) (selector : json)
| PageFill (p : handle) (selector text : json)
| PageWaitForSelector (p : handle) (selector : json) (timeout : Z)
| PageEvaluate (p : handle) (script : json)
| PageBringToFront (p : handle)
| PathExists (file : string)                            (* os.path.exists *)
| ReadJson (file : string)                              (* open(.., 'r'); json.load *)
| WriteJson (file : string) (content : json)            (* open(.., 'w'); json.dump *)
| Remove (file : string)                                (* os.remove *)
| Sleep (milliseconds : Z).                             (* time.sleep *)

(** What a call returns when it does not raise. *)
Definition Ret (c : Call) : Type :=
  match c with
  | ContextNewPage => handle
  | PageTitle _ | PageUrl _ => string
  | PageEvaluate _ _ => json
  | PathExists _ => bool
  | ReadJson _ => json
  | _ => unit
  end.

(** The environment: a state of its own, an answer to every call, and
    CPython's [str()] of floats, lists and dicts (used in messages only). *)
Class Env : Type := {
  World : Type;
  respond : forall c : Call, World -> (exc + Ret c) * World;
  py_repr : json -> string
}.

(** ** The objects *)

(** [BrowserAutomation]: [playwright] and [browser] are [None] until set;
    [context] is an attribute that does not exist before [start_browser]
    assigns it; [page] is [None] or a page. *)
Record BrowserAutomation : Type := mkAutomation {
  headless : bool;
  playwright : bool;
  browser : bool;
  context : bool;
  page : option handle
}.

(** One entry of [BrowserDaemon.pages]; the initial tab has no ['purpose']. *)
Record Tab : Type := mkTab {
  tab_page : option handle;
  tab_title : string;
  tab_url : string;
  tab_index : Z;
  tab_purpose : option json
}.

Record BrowserDaemon : Type := mkDaemon {
  automation : option BrowserAutomation;
  command_file : string;
  result_file : string;
  running : bool;
  pages : list Tab;
  current_page_index : json
}.

Definition set_page (p : option handle) (a : BrowserAutomation) : BrowserAutomation :=
  mkAutomation (headless a) (playwright a) (browser a) (context a) p.
Definition set_playwright (a : BrowserAutomation) : BrowserAutomation :=
  mkAutomation (headless a) true (browser a) (context a) (page a).
Definition set_browser (a : BrowserAutomation) : BrowserAutomation :=
  mkAutomation (headless a) (playwright a) true (context a) (page a).
Definition set_context (a : BrowserAutomation) : BrowserAutomation :=
  mkAutomation (headless a) (playwright a) (browser a) true (page a).

Definition set_title (t : string) (tab : Tab) : Tab :=
  mkTab (tab_page tab) t (tab_url tab) (tab_index tab) (tab_purpose tab).
Definition set_url (u : string) (tab : Tab) : Tab :=
  mkTab (tab_page tab) (tab_title tab) u (tab_index tab) (tab_purpose tab).

Definition set_automation (a : option BrowserAutomation) (d : BrowserDaemon) : BrowserDaemon :=
  mkDaemon a (command_file d) (result_file d) (running d) (pages d) (current_page_index d).
Definition set_running (r : bool) (d : BrowserDaemon) : BrowserDaemon :=
  mkDaemon (automation d) (command_file d) (result_file d) r (pages d) (current_page_index d).
Definition set_pages (l : list Tab) (d : BrowserDaemon) : BrowserDaemon :=
  mkDaemon (automation d) (command_file d) (result_file d) (running d) l (current_page_index d).
Definition set_current_page_index (i : json) (d : BrowserDaemon) : BrowserDaemon :=
  mkDaemon (automation d) (command_file d) (result_file d) (running d) (pages d) i.

(** In-place mutation of the dict at position [i] of a list. *)
Fixpoint alter (f : Tab -> Tab) (i : nat) (l : list Tab) : list Tab :=
  match l, i with
  | [], _ => []
  | x :: rest, O => f x :: rest
  | x :: rest, S j => x :: alter f j rest
  end.

(** [tab.get('purpose', 'general')] *)
Definition purpose_of (tab : Tab) : json :=
  match tab_purpose tab with
  | Some v => v
  | None => JStr "general"
  end.

(** [lst[v]]: the position denoted and the dict found there. *)
Definition getitem (l : list Tab) (v : json) : exc + (nat * Tab) :=
  match Py.index (List.length l) v with
  | inr pos =>
      match nth_error l pos with
      | Some tab => inr (pos, tab)
      | None => inl "list index out of range"
      end
  | inl e => inl e
  end.

(** ** The monad *)

Section Model.
Context {E : Env}.

(** [str(v)], as f-strings format a value. *)
Definition py_str (v : json) : string :=
  match v with
  | JNull => "None"
  | JBool true => "True"
  | JBool false => "False"
  | JInt z => Py.str_of_Z z
  | JStr s => s
  | _ => py_repr v
  end.

Record St : Type := mkSt {
  daemon : BrowserDaemon;
  world : World;
  calls : list Call
}.

Definition M (A : Type) : Type := St -> (exc + A) * St.

Definition ret {A} (a : A) : M A := fun s => (inr a, s).

Definition raise {A} (e : exc) : M A := fun s => (inl e, s).

Definition bind {A B} (m : M A) (k : A -> M B) : M B :=
  fun s => match m s with
           | (inr a, s') => k a s'
           | (inl e, s') => (inl e, s')
           end.

(** [try: m  except Exception as e: h e] *)
Definition try_except {A} (m : M A) (h : exc -> M A) : M A :=
  fun s => match m s with
           | (inr a, s') => (inr a, s')
           | (inl e, s') => h e s'
           end.

Definition lift {A} (x : exc + A) : M A := fun s => (x, s).

Definition self : M BrowserDaemon := fun s => (inr (daemon s), s).

Definition update (f : BrowserDaemon -> BrowserDaemon) : M unit :=
  fun s => (inr tt, mkSt (f (daemon s)) (world s) (calls s)).

(** Make a call: log it and let the environment answer. *)
Definition call (c : Call) : M (Ret c) :=
  fun s => let (r, w) := respond c (world s) in
           (r, mkSt (daemon s) w (calls s ++ [c])%list).

(** The calls that return a value, at their return types. *)
Definition context_new_page : M handle := call ContextNewPage.
Definition page_title (p : handle) : M string := call (PageTitle p).
Definition page_url (p : handle) : M string := call (PageUrl p).
Definition page_evaluate (p : handle) (script : json) : M json := call (PageEvaluate p script).
Definition path_exists (file : string) : M bool := call (PathExists file).
Definition read_json (file : string) : M json := call (ReadJson file).

End Model.

Declare Scope monad_scope.
Delimit Scope monad_scope with monad.
Notation "x <- m ;; k" := (bind m (fun x => k))
  (at level 61, m at next level, right associativity) : monad_scope.
Notation "' pat <- m ;; k" := (bind m (fun x => match x with pat => k end))
  (at level 61, pat pattern, m at next level, right associativity) : monad_scope.
Notation "m ;; k" := (bind m (fun _ => k))
  (at level 61, right associativity) : monad_scope.
Local Open Scope monad_scope.

(** ** class BrowserAutomation (browser_automation.py) *)

(** What a [BrowserAutomation] method returns when its page call raised [e]. *)
Definition failed (e : exc) : json :=
  JObj [("success", JBool false); ("error", JStr e)].

Module Automation.
Section Methods.
Context {E : Env}.

(** The object the daemon holds in [self.automation], about to be asked for
    attribute [attr]. *)
Definition this (attr : string) : M BrowserAutomation :=
  d <- self ;;
  match automation d with
  | Some a => ret a
  | None => raise (Py.attribute_error JNull attr)
  end.

Definition assign (f : BrowserAutomation -> BrowserAutomation) : M unit :=
  update (fun d => set_automation (option_map f (automation d)) d).

(** [self.page.<method>] *)
Definition page_method (method : string) : M handle :=
  a <- this "page" ;;
  match page a with
  | Some p => ret p
  | None => raise (Py.attribute_error JNull method)
  end.

(** [self.context.<method>] *)
Definition context_method (method : string) : M unit :=
  a <- this "context" ;;
  if context a then ret tt
  else raise "'BrowserAutomation' object has no attribute 'context'".

Definition new (headless : bool) : BrowserAutomation :=
  mkAutomation headless false false false None.

Definition start_browser : M unit :=
  call SyncPlaywrightStart ;;
  assign set_playwright ;;
  a <- this "headless" ;;
  call (ChromiumLaunch (headless a)) ;;
  assign set_browser ;;
  call BrowserNewContext ;;
  assign set_context ;;
  p <- context_new_page ;;
  assign (set_page (Some p)).

Definition close_browser : M unit :=
  a <- this "browser" ;;
  (if browser a
   then context_method "close" ;; call ContextClose
   else ret tt) ;;
  (if playwright a
   then call PlaywrightStop
   else ret tt).

(** [except Exception as e: return {"success": False, "error": str(e)}] *)
Definition failure (e : exc) : M json :=
  ret (failed e).

Definition navigate_to (url : string) : M json :=
  try_except
    (p <- page_method "goto" ;;
     call (PageGoto p url (Some "networkidle")) ;;
     p' <- page_method "title" ;;
     t <- page_title p' ;;
     ret (JObj [("success", JBool true); ("url", JStr url); ("title", JStr t)]))
    failure.

Definition take_screenshot (filename : json) : M json :=
  try_except
    (p <- page_method "screenshot" ;;
     call (PageScreenshot p filename true) ;;
     ret (JObj [("success", JBool true); ("filename", filename)]))
    failure.

Definition click_element (selector : json) : M json :=
  try_except
    (p <- page_method "click" ;;
     call (PageClick p selector) ;;
     ret (JObj [("success", JBool true); ("selector", selector)]))
    failure.

Definition fill_form (selector text : json) : M json :=
  try_except
    (p <- page_method "fill" ;;
     call (PageFill p selector text) ;;
     ret (JObj [("success", JBool true); ("selector", selector)]))
    failure.

Definition wait_for_element (selector : json) : M json :=
  try_except
    (p <- page_method "wait_for_selector" ;;
     call (PageWaitForSelector p selector 30000) ;;
     ret (JObj [("success", JBool true); ("selector", selector)]))
    failure.

Definition execute_javascript (script : json) : M json :=
  try_except
    (p <- page_method "evaluate" ;;
     result <- page_evaluate p script ;;
     ret (JObj [("success", JBool true); ("result", result)]))
    failure.

End Methods.
End Automation.

(** ** class BrowserDaemon (browser_daemon.py) *)

Module Daemon.
Section Methods.
Context {E : Env}.

Definition success (message : string) (data : json) : json :=
  JObj [("status", JStr "success"); ("message", JStr message); ("data", data)].

Definition error (message : string) : json :=
  JObj [("status", JStr "error"); ("message", JStr message)].

Definition write_result (result : json) : M unit :=
  d <- self ;;
  try_except (call (WriteJson (result_file d) result)) (fun _ => ret tt).

Definition start_browser : M unit :=
  try_except
    (update (set_automation (Some (Automation.new false))) ;;
     Automation.start_browser ;;
     a <- Automation.this "page" ;;
     update (fun d => set_pages (pages d ++ [mkTab (page a) "New Tab" "about:blank" 0 None])%list d) ;;
     write_result (JObj [("status", JStr "started"); ("message", JStr "Browser daemon ready")]))
    (fun e => write_result (error e)).

(** [__init__] *)
Definition init : M unit :=
  update (fun _ => mkDaemon None "browser_command.json" "browser_result.json" true [] (JInt 0)) ;;
  start_browser.

(** Lines 75-76 and 127-128:
    [if not url.startswith(('http://', 'https://')): url = 'https://' + url] *)
Definition normalize_url (url : json) : exc + string :=
  match url with
  | JStr s => if String.prefix "http://" s || String.prefix "https://" s
              then inr s
              else inr ("https://" ++ s)
  | _ => inl (Py.attribute_error url "startswith")
  end.

(** [tab['page'].<method>] *)
Definition tab_page_method (tab : Tab) (method : string) : M handle :=
  match tab_page tab with
  | Some p => ret p
  | None => raise (Py.attribute_error JNull method)
  end.

Definition mutate_tab (pos : nat) (f : Tab -> Tab) : M unit :=
  update (fun d => set_pages (alter f pos (pages d)) d).

(** [tab['title'] = tab['page'].title(); tab['url'] = tab['page'].url]
    for the dict at position [pos]. *)
Definition refresh (pos : nat) (tab : Tab) : M (string * string) :=
  p <- tab_page_method tab "title" ;;
  t <- page_title p ;;
  mutate_tab pos (set_title t) ;;
  p' <- tab_page_method tab "url" ;;
  u <- page_url p' ;;
  mutate_tab pos (set_url u) ;;
  ret (t, u).

Definition tab_entry (i : nat) (title url : string) (purpose active : json) : json :=
  JObj [("index", JInt (Z.of_nat i)); ("title", JStr title); ("url", JStr url);
        ("purpose", purpose); ("active", active)].

(** The body of [for i, tab in enumerate(self.pages)]: the entry appended
    to [tabs_info]. *)
Definition list_tabs_entry (i : nat) (tab : Tab) : M json :=
  try_except
    ('(t, u) <- refresh i tab ;;
     d <- self ;;
     ret (tab_entry i t u (purpose_of tab)
            (JBool (Py.int_eq (Z.of_nat i) (current_page_index d)))))
    (fun _ => ret (tab_entry i "Closed Tab" "about:blank" (purpose_of tab) (JBool false))).

(** The loop over the tabs that remain, the first of them at position [i]. *)
Fixpoint list_tabs_loop (i : nat) (tabs : list Tab) : M (list json) :=
  match tabs with
  | [] => ret []
  | tab :: rest =>
      info <- list_tabs_entry i tab ;;
      infos <- list_tabs_loop (S i) rest ;;
      ret (info :: infos)
  end.

Definition navigate (args : json) : M json :=
  url <- lift (Py.get args "url" JNull) ;;
  url <- lift (normalize_url url) ;;
  Automation.this "navigate_to" ;;
  result <- Automation.navigate_to url ;;
  ret (success ("Navigated to " ++ url) result).

Definition click (args : json) : M json :=
  selector <- lift (Py.get args "selector" JNull) ;;
  Automation.this "click_element" ;;
  result <- Automation.click_element selector ;;
  ret (success ("Clicked " ++ py_str selector) result).

Definition fill (args : json) : M json :=
  selector <- lift (Py.get args "selector" JNull) ;;
  text <- lift (Py.get args "text" JNull) ;;
  Automation.this "fill_form" ;;
  result <- Automation.fill_form selector text ;;
  ret (success ("Filled " ++ py_str selector ++ " with '" ++ py_str text ++ "'") result).

Definition screenshot (args : json) : M json :=
  filename <- lift (Py.get args "filename" (JStr "screenshot.png")) ;;
  Automation.this "take_screenshot" ;;
  result <- Automation.take_screenshot filename ;;
  ret (success ("Screenshot saved as " ++ py_str filename) result).

Definition title : M json :=
  p <- Automation.page_method "title" ;;
  t <- page_title p ;;
  ret (success ("Page title: " ++ t) (JStr t)).

Definition wait (args : json) : M json :=
  selector <- lift (Py.get args "selector" JNull) ;;
  Automation.this "wait_for_element" ;;
  result <- Automation.wait_for_element selector ;;
  ret (success ("Waited for " ++ py_str selector) result).

Definition js (args : json) : M json :=
  script <- lift (Py.get args "script" JNull) ;;
  Automation.this "execute_javascript" ;;
  result <- Automation.execute_javascript script ;;
  ret (success "JavaScript executed" result).

Definition new_tab (args : json) : M json :=
  Automation.context_method "new_page" ;;
  new_page <- context_new_page ;;
  d <- self ;;
  let index := List.length (pages d) in
  purpose <- lift (Py.get args "purpose" (JStr "general")) ;;
  let tab_info := mkTab (Some new_page) "New Tab" "about:blank"
                    (Z.of_nat index) (Some purpose) in
  update (set_pages (pages d ++ [tab_info])%list) ;;
  d <- self ;;
  update (set_current_page_index (JInt (Z.of_nat (List.length (pages d)) - 1))) ;;
  Automation.assign (set_page (Some new_page)) ;;
  given <- lift (Py.get args "url" JNull) ;;
  (if Py.truthy given then
     url <- lift (Py.get args "url" JNull) ;;
     url <- lift (normalize_url url) ;;
     call (PageGoto new_page url None) ;;
     mutate_tab index (set_url url) ;;
     t <- page_title new_page ;;
     mutate_tab index (set_title t)
   else ret tt) ;;
  d <- self ;;
  let tab_info := nth index (pages d) tab_info in
  ret (success ("New tab opened (Tab " ++ Py.str_of_Z (tab_index tab_info + 1) ++ ")")
         (JObj [("tab_index", JInt (tab_index tab_info));
                ("purpose", purpose_of tab_info);
                ("url", JStr (tab_url tab_info))])).

Definition switch_tab (args : json) : M json :=
  tab_index <- lift (Py.get args "index" (JInt 0)) ;;
  d <- self ;;
  lower <- lift (Py.int_le 0 tab_index) ;;
  in_range <- (if lower : bool
               then lift (Py.lt_int tab_index (Z.of_nat (List.length (pages d))))
               else ret false) ;;
  if in_range : bool then
    update (set_current_page_index tab_index) ;;
    '(_, tab) <- lift (getitem (pages d) tab_index) ;;
    Automation.assign (set_page (tab_page tab)) ;;
    '(_, current_tab) <- lift (getitem (pages d) tab_index) ;;
    p <- Automation.page_method "bring_to_front" ;;
    call (PageBringToFront p) ;;
    next <- lift (Py.succ tab_index) ;;
    ret (success ("Switched to Tab " ++ py_str next)
           (JObj [("tab_index", tab_index);
                  ("title", JStr (tab_title current_tab));
                  ("url", JStr (tab_url current_tab));
                  ("purpose", purpose_of current_tab)]))
  else
    ret (error ("Tab index " ++ py_str tab_index ++ " not found")).

Definition list_tabs : M json :=
  d <- self ;;
  tabs_info <- list_tabs_loop 0 (pages d) ;;
  d <- self ;;
  ret (success ("Found " ++ Py.str_of_Z (Z.of_nat (List.length tabs_info)) ++ " tabs")
         (JObj [("tabs", JArr tabs_info);
                ("current_tab", current_page_index d)])).

Definition current_tab : M json :=
  d <- self ;;
  match pages d with
  | [] => ret (error "No tabs available")
  | _ :: _ =>
      '(pos, current_tab) <- lift (getitem (pages d) (current_page_index d)) ;;
      try_except (refresh pos current_tab ;; ret tt) (fun _ => ret tt) ;;
      d <- self ;;
      let current_tab := nth pos (pages d) current_tab in
      ret (success "Current tab info"
             (JObj [("tab_index", current_page_index d);
                    ("title", JStr (tab_title current_tab));
                    ("url", JStr (tab_url current_tab));
                    ("purpose", purpose_of current_tab)]))
  end.

Definition stop : M json :=
  update (set_running false) ;;
  ret (JObj [("status", JStr "success"); ("message", JStr "Stopping daemon")]).

(** The [try] block of [execute_command]. *)
Definition dispatch (command_data : json) : M json :=
  command_type <- lift (Py.get command_data "type" JNull) ;;
  args <- lift (Py.get command_data "args" (JObj [])) ;;
  if Py.eq_str command_type "navigate" then navigate args
  else if Py.eq_str command_type "click" then click args
  else if Py.eq_str command_type "fill" then fill args
  else if Py.eq_str command_type "screenshot" then screenshot args
  else if Py.eq_str command_type "title" then title
  else if Py.eq_str command_type "wait" then wait args
  else if Py.eq_str command_type "js" then js args
  else if Py.eq_str command_type "new_tab" then new_tab args
  else if Py.eq_str command_type "switch_tab" then switch_tab args
  else if Py.eq_str command_type "list_tabs" then list_tabs
  else if Py.eq_str command_type "current_tab" then current_tab
  else if Py.eq_str command_type "stop" then stop
  else ret (error ("Unknown command: " ++ py_str command_type)).

Definition execute_command (command_data : json) : M json :=
  d <- self ;;
  match automation d with
  | None => ret (error "Browser not started")
  | Some _ => try_except (dispatch command_data) (fun e => ret (error e))
  end.

(** One pass through the body of [while self.running]'s [try] block;
    [true] when it leaves by [break]. *)
Definition poll : M bool :=
  d <- self ;;
  found <- path_exists (command_file d) ;;
  if found : bool then
    command_data <- read_json (command_file d) ;;
    result <- execute_command command_data ;;
    write_result result ;;
    call (Remove (command_file d)) ;;
    lift (Py.get command_data "type" JNull) ;;
    lift (Py.get result "message" JNull) ;;
    command_type <- lift (Py.get command_data "type" JNull) ;;
    if Py.eq_str command_type "stop" then ret true
    else call (Sleep 100) ;; ret false
  else
    call (Sleep 100) ;; ret false.

(** [while self.running: try: ... except Exception: time.sleep(1)], for at
    most [fuel] tests of the loop condition; [true] when the loop has ended,
    [false] when it is still going after [fuel] rounds. *)
Fixpoint loop (fuel : nat) : M bool :=
  match fuel with
  | O => ret false
  | S fuel' =>
      d <- self ;;
      if running d then
        broke <- try_except poll (fun _ => call (Sleep 1000) ;; ret false) ;;
        if broke : bool then ret true else loop fuel'
      else ret true
  end.

Definition run (fuel : nat) : M bool :=
  ended <- loop fuel ;;
  if ended : bool then
    d <- self ;;
    match automation d with
    | Some _ => Automation.close_browser
    | None => ret tt
    end ;;
    ret true
  else ret false.

(** [daemon = BrowserDaemon(); daemon.run()] *)
Definition main (fuel : nat) : M bool :=
  init ;;
  run fuel.

End Methods.
End Daemon.

(** The state a process starts in, in world [w]. *)
Definition boot {E : Env} (w : World) : St :=
  mkSt (mkDaemon None "browser_command.json" "browser_result.json" true [] (JInt 0)) w [].

(** ** Reading a Result *)

Definition field (key : string) (result : json) : option json :=
  match result with
  | JObj kv => Py.assoc key kv
  | _ => None
  end.

Definition status (result : json) : option json := field "status" result.
Definition data (result : json) : option json := field "data" result.

(** A Result has status "success" or "error". *)
Definition is_result (result : json) : Prop :=
  status result = Some (JStr "success") \/ status result = Some (JStr "error").

(** [args.get(key, default)] for the dict [kv]. *)
Definition argument (kv : list (string * json)) (key : string) (default : json) : json :=
  match Py.assoc key kv with
  | Some v => v
  | None => default
  end.

(** A command as [send_command] writes it: [{"type": .., "args": {..}}]. *)
Definition command (command_type : string) (args : list (string * json)) : json :=
  JObj [("type", JStr command_type); ("args", JObj args)].

(** ** A scripted environment

    The world is the list of answers still to be given; each call takes the
    next one.  An answer of the wrong shape for the call, or a call after the
    script has ended, raises. *)

Inductive Answer : Type :=
| Raises (e : exc)
| Done
| Page (p : handle)
| Text (s : string)
| Flag (b : bool)
| Value (v : json).

Definition answer (c : Call) (a : Answer) : exc + Ret c :=
  match c return exc + Ret c with
  | ContextNewPage => match a with Page p => inr p | Raises e => inl e | _ => inl "script" end
  | PageTitle _ => match a with Text s => inr s | Raises e => inl e | _ => inl "script" end
  | PageUrl _ => match a with Text s => inr s | Raises e => inl e | _ => inl "script" end
  | PageEvaluate _ _ => match a with Value v => inr v | Raises e => inl e | _ => inl "script" end
  | PathExists _ => match a with Flag b => inr b | Raises e => inl e | _ => inl "script" end
  | ReadJson _ => match a with Value v => inr v | Raises e => inl e | _ => inl "script" end
  | _ => match a with Done => inr tt | Raises e => inl e | _ => inl "script" end
  end.

Definition scripted : Env := {|
  World := list Answer;
  respond := fun c w =>
    match w with
    | a :: rest => (answer c a, rest)
    | [] => (inl "script ended", [])
    end;
  py_repr := fun _ => "<repr>"
|}.

(** A browser that starts: playwright, chromium, context, page 7, and the
    write of the startup Result. *)
Definition starts : list Answer := [Done; Done; Done; Page 7%nat; Done].

(** The daemon after [__init__] in a scripted world that [starts] and then
    answers with [script]. *)
Definition started (script : list Answer) : St :=
  snd (@Daemon.init scripted (@boot scripted (starts ++ script)%list)).

(** The started daemon after [new_tab] with purpose "search" and url
    "bing.com": page 8 is created, the navigation succeeds and the title read
    back is "Bing".  [script] answers the calls made afterwards. *)
Definition two_tabs (script : list Answer) : St :=
  snd (@Daemon.execute_command scripted
         (command "new_tab" [("purpose", JStr "search"); ("url", JStr "bing.com")])
         (started ([Page 8%nat; Done; Text "Bing"] ++ script)%list)).

(** A machine without the browser binary: playwright starts, the launch
    raises, the error Result is written; then a client has left a
    [current_tab] command in the command file. *)
Definition no_browser : list Answer :=
  [Done; Raises "Executable doesn't exist"; Done;
   Flag true; Value (command "current_tab" []); Done; Done; Done].

(** ** Registry vocabulary *)

Definition tab_count (d : BrowserDaemon) : nat := List.length (pages d).

(** [0 <= v < n] for a Python number [v]. *)
Definition within (v : json) (n : nat) : Prop :=
  match v with
  | JInt z => 0 <= z < Z.of_nat n
  | JBool b => 0 <= Py.int_of_bool b < Z.of_nat n
  | JFloat (Finite q) => (inject_Z 0 <= q)%Q /\ (q < inject_Z (Z.of_nat n))%Q
  | _ => False
  end.

(** [0 <= current_index < length(tabs)] whenever the registry is non-empty. *)
Definition index_invariant (d : BrowserDaemon) : Prop :=
  pages d <> [] -> within (current_page_index d) (tab_count d).

(** Every tab's stored ['index'] is its position in the list. *)
Definition position_invariant (d : BrowserDaemon) : Prop :=
  forall i tab, nth_error (pages d) i = Some tab -> tab_index tab = Z.of_nat i.

(** What identifies a tab: everything but the cached title and url. *)
Definition identity (tab : Tab) : option handle * Z * option json :=
  (tab_page tab, tab_index tab, tab_purpose tab).

(** The tabs of [d] are still there in [d'], in the same order, followed by
    the tabs added since. *)
Definition append_only (d d' : BrowserDaemon) : Prop :=
  exists added, map identity (pages d') = (map identity (pages d) ++ added)%list.

(** The integer a Python [int] is; [bool] is a subclass of [int] ([True] is
    1), every other value is no integer. *)
Definition as_int (v : json) : option Z :=
  match v with
  | JInt z => Some z
  | JBool b => Some (Py.int_of_bool b)
  | _ => None
  end.

(** The invariant on the current index, as the spec has it: whenever the
    registry is non-empty, [current_page_index] is an integer and
    [0 <= current_page_index < len(pages)]. *)
Definition current_invariant (d : BrowserDaemon) : Prop :=
  pages d <> [] ->
  exists i, as_int (current_page_index d) = Some i /\ 0 <= i < Z.of_nat (tab_count d).

(** The value the [switch_tab] case reads as its index, for a command that
    reaches that case: [args.get('index', 0)]. *)
Definition switch_index (command_data : json) : option json :=
  match Py.get command_data "type" JNull, Py.get command_data "args" (JObj []) with
  | inr command_type, inr args =>
      if Py.eq_str command_type "switch_tab"
      then match Py.get args "index" (JInt 0) with
           | inr v => Some v
           | inl _ => None
           end
      else None
  | _, _ => None
  end.

(** The command is not a [switch_tab] whose index is a float. *)
Definition integer_index (command_data : json) : Prop :=
  forall f, switch_index command_data <> Some (JFloat f).

(** ** Outcomes and relations the statements use *)

Section Vocabulary.
Context {E : Env}.

(** The four ways the refresh inside [try: .. except: pass] can go. *)
Inductive refreshed (pos : nat) (tab : Tab) (s : St) : St -> Prop :=
| refreshed_no_page :
    tab_page tab = None ->
    refreshed pos tab s s
| refreshed_title_raises p e w :
    tab_page tab = Some p ->
    respond (PageTitle p) (world s) = (inl e, w) ->
    refreshed pos tab s (mkSt (daemon s) w (calls s ++ [PageTitle p]))
| refreshed_url_raises p t w e w' :
    tab_page tab = Some p ->
    respond (PageTitle p) (world s) = (inr t, w) ->
    respond (PageUrl p) w = (inl e, w') ->
    refreshed pos tab s
      (mkSt (set_pages (alter (set_title t) pos (pages (daemon s))) (daemon s)) w'
         ((calls s ++ [PageTitle p]) ++ [PageUrl p]))
| refreshed_both p t w u w' :
    tab_page tab = Some p ->
    respond (PageTitle p) (world s) = (inr t, w) ->
    respond (PageUrl p) w = (inr u, w') ->
    refreshed pos tab s
      (mkSt (set_pages (alter (set_url u) pos (alter (set_title t) pos (pages (daemon s))))
               (daemon s)) w'
         ((calls s ++ [PageTitle p]) ++ [PageUrl p])).

(** What [current_tab] returns for daemon [d] whose current tab dict is [tab]. *)
Definition current_tab_result (d : BrowserDaemon) (tab : Tab) : json :=
  Daemon.success "Current tab info"
    (JObj [("tab_index", current_page_index d);
           ("title", JStr (tab_title tab));
           ("url", JStr (tab_url tab));
           ("purpose", purpose_of tab)]).

(** [args.get('purpose', 'general')] *)
Definition purpose_arg (kv : list (string * json)) : json :=
  match Py.assoc "purpose" kv with
  | Some v => v
  | None => JStr "general"
  end.

(** [args.get('url')] *)
Definition url_arg (kv : list (string * json)) : json :=
  match Py.assoc "url" kv with
  | Some v => v
  | None => JNull
  end.

(** The dict [new_tab] appends for page [p]. *)
Definition fresh_tab (d : BrowserDaemon) (kv : list (string * json)) (p : handle) : Tab :=
  mkTab (Some p) "New Tab" "about:blank" (Z.of_nat (tab_count d)) (Some (purpose_arg kv)).

(** The daemon once [tab] is appended, current, and its page the
    automation page. *)
Definition registered (d : BrowserDaemon) (a : BrowserAutomation) (p : handle) (tab : Tab)
  : BrowserDaemon :=
  set_automation (Some (set_page (Some p) a))
    (set_current_page_index (JInt (Z.of_nat (tab_count d)))
       (set_pages (pages d ++ [tab])%list d)).

(** What [new_tab] returns for the dict [tab] it appended. *)
Definition new_tab_result (tab : Tab) : json :=
  Daemon.success ("New tab opened (Tab " ++ Py.str_of_Z (tab_index tab + 1) ++ ")")
    (JObj [("tab_index", JInt (tab_index tab));
           ("purpose", purpose_of tab);
           ("url", JStr (tab_url tab))]).

(** The ways [new_tab] can go once the context has created page [p] in
    world [w]: the outcome of the [try] block and the state it leaves. *)
Inductive opened (kv : list (string * json)) (p : handle) (w : World) (a : BrowserAutomation)
          (s : St) : exc + json -> St -> Prop :=
| opened_blank :
    Py.truthy (url_arg kv) = false ->
    opened kv p w a s
      (inr (new_tab_result (fresh_tab (daemon s) kv p)))
      (mkSt (registered (daemon s) a p (fresh_tab (daemon s) kv p)) w
         (calls s ++ [ContextNewPage]))
| opened_bad_url e :
    Py.truthy (url_arg kv) = true ->
    Daemon.normalize_url (url_arg kv) = inl e ->
    opened kv p w a s (inl e)
      (mkSt (registered (daemon s) a p (fresh_tab (daemon s) kv p)) w
         (calls s ++ [ContextNewPage]))
| opened_goto_raises url e w' :
    Py.truthy (url_arg kv) = true ->
    Daemon.normalize_url (url_arg kv) = inr url ->
    respond (PageGoto p url None) w = (inl e, w') ->
    opened kv p w a s (inl e)
      (mkSt (registered (daemon s) a p (fresh_tab (daemon s) kv p)) w'
         ((calls s ++ [ContextNewPage]) ++ [PageGoto p url None]))
| opened_title_raises url w' e w'' :
    Py.truthy (url_arg kv) = true ->
    Daemon.normalize_url (url_arg kv) = inr url ->
    respond (PageGoto p url None) w = (inr tt, w') ->
    respond (PageTitle p) w' = (inl e, w'') ->
    opened kv p w a s (inl e)
      (mkSt (registered (daemon s) a p (set_url url (fresh_tab (daemon s) kv p))) w''
         (((calls s ++ [ContextNewPage]) ++ [PageGoto p url None]) ++ [PageTitle p]))
| opened_navigated url w' t w'' :
    Py.truthy (url_arg kv) = true ->
    Daemon.normalize_url (url_arg kv) = inr url ->
    respond (PageGoto p url None) w = (inr tt, w') ->
    respond (PageTitle p) w' = (inr t, w'') ->
    opened kv p w a s
      (inr (new_tab_result (set_title t (set_url url (fresh_tab (daemon s) kv p)))))
      (mkSt (registered (daemon s) a p
               (set_title t (set_url url (fresh_tab (daemon s) kv p)))) w''
         (((calls s ++ [ContextNewPage]) ++ [PageGoto p url None]) ++ [PageTitle p])).

(** Every run of [m] takes the state from [s] to some [s'] with [R s s']. *)
Definition keeps (R : St -> St -> Prop) {A} (m : M A) : Prop :=
  forall s, R s (snd (m s)).

(** The registry is what it was, up to cached titles and urls. *)
Definition same_registry (d d' : BrowserDaemon) : Prop :=
  map identity (pages d') = map identity (pages d)
  /\ current_page_index d' = current_page_index d.

(** The same, between two states. *)
Definition same (s s' : St) : Prop := same_registry (daemon s) (daemon s').

(** What one command may do to the registry. *)
Inductive registry_step (d d' : BrowserDaemon) : Prop :=
| step_same :
    same_registry d d' ->
    registry_step d d'
| step_switch :
    map identity (pages d') = map identity (pages d) ->
    within (current_page_index d') (tab_count d) ->
    registry_step d d'
| step_append tab :
    map identity (pages d') = (map identity (pages d) ++ [identity tab])%list ->
    tab_index tab = Z.of_nat (tab_count d) ->
    current_page_index d' = JInt (Z.of_nat (tab_count d)) ->
    registry_step d d'.

(** The log of [s'] is the log of [s] with more calls after it. *)
Definition grows (s s' : St) : Prop := exists l, calls s' = (calls s ++ l)%list.

(** The state in which [__init__] calls [self.automation.start_browser()]. *)
Definition constructing (w : World) : St :=
  mkSt (mkDaemon (Some (Automation.new false)) "browser_command.json"
          "browser_result.json" true [] (JInt 0)) w [].

(** Whenever [m] returns, what it returns satisfies [P]. *)
Definition answers {A} (P : A -> Prop) (m : M A) : Prop :=
  forall s a s', m s = (inr a, s') -> P a.

(** A daemon that has its automation object still has it afterwards. *)
Definition constructed (s s' : St) : Prop :=
  automation (daemon s) <> None -> automation (daemon s') <> None.

(** The states a daemon process can be in between two commands: after
    [__init__], after a command, and after the world has moved on its own. *)
Inductive reachable : St -> Prop :=
| reachable_init s :
    reachable (snd (Daemon.init s))
| reachable_command command_data s :
    reachable s ->
    reachable (snd (Daemon.execute_command command_data s))
| reachable_world s w l :
    reachable s ->
    reachable (mkSt (daemon s) w l).

End Vocabulary.

(** ** Further vocabulary *)

(** The command types [execute_command] has a case for, in the order of its
    [if]/[elif] chain. *)
Definition known_commands : list string :=
  ["navigate"; "click"; "fill"; "screenshot"; "title"; "wait"; "js";
   "new_tab"; "switch_tab"; "list_tabs"; "current_tab"; "stop"].

(** The calls the daemon loop makes by itself when it has no command to
    run: looking for the command file, trying to read it, sleeping. *)
Definition idle_call (c : Call) : Prop :=
  match c with
  | PathExists _ | ReadJson _ | Sleep _ => True
  | _ => False
  end.

(** The daemon object is what it was. *)
Definition untouched {E : Env} (s s' : St) : Prop := daemon s' = daemon s.

(** The cases of [execute_command] that assign to an attribute of the
    daemon, to the automation object, or to a tab dict. *)
Definition stateful_commands : list string :=
  ["new_tab"; "switch_tab"; "list_tabs"; "current_tab"; "stop"].

(** What a [BrowserAutomation] method hands back: a dict whose ["success"]
    is [True], or the dict [failed e] made from an exception. *)
Definition outcome (r : json) : Prop :=
  field "success" r = Some (JBool true) \/ exists e, r = failed e.

(** [m] never raises, returns an [outcome], and leaves the daemon alone. *)
Definition contained {E : Env} (m : M json) : Prop :=
  forall s, exists r, fst (m s) = inr r /\ outcome r /\ daemon (snd (m s)) = daemon s.

(** What [switch_tab] returns for index [v] and the tab dict [tab] found
    there, and the daemon it leaves. *)
Definition switch_tab_result {E : Env} (v next : json) (tab : Tab) : json :=
  Daemon.success ("Switched to Tab " ++ py_str next)
    (JObj [("tab_index", v);
           ("title", JStr (tab_title tab));
           ("url", JStr (tab_url tab));
           ("purpose", purpose_of tab)]).

Definition switched (d : BrowserDaemon) (a : BrowserAutomation) (v : json) (tab : Tab)
  : BrowserDaemon :=
  set_automation (Some (set_page (tab_page tab) a)) (set_current_page_index v d).


(** One pass through the body of [while self.running], its handler
    included: [try: <poll> except Exception: time.sleep(1)]. *)
Definition round {E : Env} : M bool :=
  try_except Daemon.poll (fun _ => call (Sleep 1000) ;; ret false).

(** A disk whose command file exists and cannot be parsed; no browser. *)
Definition corrupt : Env := {|
  World := unit;
  respond := fun c w =>
    (match c return exc + Ret c with
     | PathExists _ => inr true
     | ReadJson _ => inl "Expecting value: line 1 column 1 (char 0)"
     | Sleep _ => inr tt
     | _ => inl "no browser"
     end, w);
  py_repr := fun _ => "<repr>"
|}.

(** What a [BrowserAutomation] method returns when [self.page] is [None]. *)
Definition no_page (method : string) : json :=
  failed (Py.attribute_error JNull method).

(** ** send_command.py

    The client is another process; it shares the file system with the
    daemon and nothing else.  A state [St] of this model carries the
    daemon's object next to the world, and the client never looks at it. *)

(** [time.time()] and the test [time.time() - start_time > timeout].  What
    Python's floats make of the subtraction is left to the environment:
    [exceeds now start timeout] is the outcome of the test on two readings. *)
Class Clock (E : Env) : Type := {
  Time : Type;
  time_time : World -> Time;
  exceeds : Time -> Time -> Z -> bool
}.

Module Client.
Section Methods.
Context {E : Env} {C : Clock E}.

Definition command_file : string := "browser_command.json".
Definition result_file : string := "browser_result.json".

Definition now : M Time := fun s => (inr (time_time (world s)), s).

Definition timeout : Z := 30.

Definition timed_out : json :=
  JObj [("status", JStr "error"); ("message", JStr "Command timeout")].

(** Lines 16-32: remove the old result file, write the command file, read
    the clock. *)
Definition submit (command_type : string) (args : list (string * json)) : M Time :=
  found <- path_exists result_file ;;
  (if found : bool then call (Remove result_file) else ret tt) ;;
  call (WriteJson command_file (command command_type args)) ;;
  now.

(** Lines 34-43: [while not os.path.exists(result_file)], for at most [fuel]
    tests of its condition, and the read after it; [None] when the loop is
    still waiting after [fuel] tests. *)
Fixpoint wait_for_result (fuel : nat) (start_time : Time) : M (option json) :=
  match fuel with
  | O => ret None
  | S fuel' =>
      found <- path_exists result_file ;;
      if found : bool then
        result <- read_json result_file ;;
        ret (Some result)
      else
        t <- now ;;
        if exceeds t start_time timeout then ret (Some timed_out)
        else call (Sleep 100) ;; wait_for_result fuel' start_time
  end.


End Methods.
End Client.

(** ** A file system that works

    An environment on top of another one: the JSON files live in an
    association list (a write shadows, a remove deletes), reading gives back
    what was written, [os.remove] and [open] raise on a missing file, sleeping
    does nothing, and every other call goes to the environment below. *)

Record Disk (E0 : Env) : Type := mkDisk {
  files : list (string * json);
  below : @World E0
}.

Arguments mkDisk {E0} files below.
Arguments files {E0} d.
Arguments below {E0} d.

Fixpoint remove_key (k : string) (kv : list (string * json)) : list (string * json) :=
  match kv with
  | [] => []
  | (k', v) :: rest =>
      if (k =? k')%string then remove_key k rest else (k', v) :: remove_key k rest
  end.

Definition present (k : string) (kv : list (string * json)) : bool :=
  match Py.assoc k kv with
  | Some _ => true
  | None => false
  end.

Definition no_such_file (file : string) : exc :=
  "[Errno 2] No such file or directory: '" ++ file ++ "'".

Definition to_below {E0 : Env} (c : Call) (w : Disk E0) : (exc + Ret c) * Disk E0 :=
  let (r, i) := @respond E0 c (below w) in (r, mkDisk (files w) i).

Definition with_files (E0 : Env) : Env := {|
  World := Disk E0;
  respond := fun c =>
    match c return Disk E0 -> (exc + Ret c) * Disk E0 with
    | PathExists f => fun w => (inr (present f (files w)), w)
    | ReadJson f => fun w =>
        (match Py.assoc f (files w) with
         | Some v => inr v
         | None => inl (no_such_file f)
         end, w)
    | WriteJson f v => fun w => (inr tt, mkDisk ((f, v) :: files w) (below w))
    | Remove f => fun w =>
        if present f (files w)
        then (inr tt, mkDisk (remove_key f (files w)) (below w))
        else (inl (no_such_file f), w)
    | Sleep _ => fun w => (inr tt, w)
    | SyncPlaywrightStart => to_below SyncPlaywrightStart
    | ChromiumLaunch h => to_below (ChromiumLaunch h)
    | BrowserNewContext => to_below BrowserNewContext
    | ContextNewPage => to_below ContextNewPage
    | ContextClose => to_below ContextClose
    | PlaywrightStop => to_below PlaywrightStop
    | PageGoto p u wu => to_below (PageGoto p u wu)
    | PageTitle p => to_below (PageTitle p)
    | PageUrl p => to_below (PageUrl p)
    | PageScreenshot p path fp => to_below (PageScreenshot p path fp)
    | PageClick p sel => to_below (PageClick p sel)
    | PageFill p sel text => to_below (PageFill p sel text)
    | PageWaitForSelector p sel t => to_below (PageWaitForSelector p sel t)
    | PageEvaluate p script => to_below (PageEvaluate p script)
    | PageBringToFront p => to_below (PageBringToFront p)
    end;
  py_repr := @py_repr E0
|}.

(** A clock on which the timeout has always passed. *)
Definition late (E : Env) : Clock E := {|
  Time := unit;
  time_time := fun _ => tt;
  exceeds := fun _ _ _ => true
|}.

(** A command keeps the files and the two file names. *)
Definition disk_frame {E0 : Env} (s s' : @St (with_files E0)) : Prop :=
  files (world s') = files (world s)
  /\ command_file (daemon s') = command_file (daemon s)
  /\ result_file (daemon s') = result_file (daemon s).

(** * Proofs *)

Section Basics.
Context {E : Env}.

Lemma bind_inr {A B} (m : M A) (k : A -> M B) s a s' :
  m s = (inr a, s') -> bind m k s = k a s'.
Proof. intros H. unfold bind. rewrite H. reflexivity. Qed.

Lemma try_except_inr {A} (m : M A) h s a s' :
  m s = (inr a, s') -> try_except m h s = (inr a, s').
Proof. intros H. unfold try_except. rewrite H. reflexivity. Qed.

Lemma call_eq (c : Call) s :
  call c s = (fst (respond c (world s)),
              mkSt (daemon s) (snd (respond c (world s))) (calls s ++ [c])%list).
Proof. unfold call. destruct (respond c (world s)). reflexivity. Qed.

(** With the browser object in place, [execute_command] is the [try] block
    under its handler. *)
Lemma execute_command_started command_data s a :
  automation (daemon s) = Some a ->
  Daemon.execute_command command_data s =
  try_except (Daemon.dispatch command_data) (fun e => ret (Daemon.error e)) s.
Proof.
  intros H. unfold Daemon.execute_command, bind, self. simpl. rewrite H. reflexivity.
Qed.

Lemma execute_command_not_started command_data s :
  automation (daemon s) = None ->
  Daemon.execute_command command_data s = (inr (Daemon.error "Browser not started"), s).
Proof.
  intros H. unfold Daemon.execute_command, bind, self. simpl. rewrite H. reflexivity.
Qed.

Lemma dispatch_switch_tab args :
  Daemon.dispatch (command "switch_tab" args) = Daemon.switch_tab (JObj args).
Proof. reflexivity. Qed.

Lemma dispatch_current_tab args :
  Daemon.dispatch (command "current_tab" args) = Daemon.current_tab.
Proof. reflexivity. Qed.

Lemma dispatch_list_tabs args :
  Daemon.dispatch (command "list_tabs" args) = Daemon.list_tabs.
Proof. reflexivity. Qed.

Lemma dispatch_new_tab args :
  Daemon.dispatch (command "new_tab" args) = Daemon.new_tab (JObj args).
Proof. reflexivity. Qed.

Lemma dispatch_navigate args :
  Daemon.dispatch (command "navigate" args) = Daemon.navigate (JObj args).
Proof. reflexivity. Qed.

Lemma dispatch_title args :
  Daemon.dispatch (command "title" args) = Daemon.title.
Proof. reflexivity. Qed.

End Basics.

Section SwitchTab.
Context {E : Env}.

(** The guard [0 <= tab_index < len(self.pages)] holds exactly for the
    numbers [within] the registry. *)
Lemma guard_within (v : json) (n : nat) :
  (Py.int_le 0 v = inr true /\ Py.lt_int v (Z.of_nat n) = inr true) <-> within v n.
Proof.
  destruct v as [ | b | z | [q | | | ] | s | l | kv]; simpl;
    try (split; [intros [H1 H2]; discriminate | intros []]).
  - split.
    + intros [H1 H2]. injection H1 as H1. injection H2 as H2. lia.
    + intros H. split; f_equal; lia.
  - split.
    + intros [H1 H2]. injection H1 as H1. injection H2 as H2. lia.
    + intros H. split; f_equal; lia.
  - split.
    + intros [H1 H2]. injection H1 as H1. injection H2 as H2.
      apply Qle_bool_iff in H1. split; [exact H1 | ].
      apply Qnot_le_lt. intros H. apply Qle_bool_iff in H.
      rewrite H in H2. discriminate.
    + intros [H1 H2]. split; f_equal.
      * apply Qle_bool_iff. exact H1.
      * apply negb_true_iff. apply not_true_is_false.
        intros H. apply Qle_bool_iff in H. apply Qlt_not_le in H2. contradiction.
Qed.

(** What [switch_tab] does when the guard does not let the index in:
    nothing, whether the comparison is false or raises. *)
Lemma switch_tab_rejects (args : json) (v : json) (s : St) :
  Py.get args "index" (JInt 0) = inr v ->
  ~ within v (tab_count (daemon s)) ->
  exists e, try_except (Daemon.switch_tab args) (fun e => ret (Daemon.error e)) s
            = (inr (Daemon.error e), s).
Proof.
  intros Hget Hout.
  unfold try_except, Daemon.switch_tab, bind, lift, self. rewrite Hget. simpl.
  destruct (Py.int_le 0 v) as [e | lower] eqn:Hle.
  - exists e. reflexivity.
  - destruct lower.
    + destruct (Py.lt_int v (Z.of_nat (List.length (pages (daemon s))))) as [e | upper] eqn:Hlt.
      * exists e. reflexivity.
      * destruct upper.
        -- exfalso. apply Hout. apply guard_within. split; assumption.
        -- eexists. reflexivity.
    + eexists. reflexivity.
Qed.

End SwitchTab.

(** C6: [switch_tab] with an index outside [[0, tab_count)] returns a Result
    with status "error" and changes nothing: the state after the command is
    the state before it, so [current_page_index] is what it was.  The index
    [v] is the command's ['index'] argument (0 when absent); for an integer
    [JInt i], [within (JInt i) n] is [0 <= i < n].  The statement also covers
    the values the guard cannot compare (a string, [None]). *)
Theorem switch_tab_out_of_range {E : Env} (args : list (string * json)) (v : json) (s : St) :
  Py.get (JObj args) "index" (JInt 0) = inr v ->
  ~ within v (tab_count (daemon s)) ->
  exists r, Daemon.execute_command (command "switch_tab" args) s = (inr r, s)
            /\ status r = Some (JStr "error")
            /\ current_page_index (daemon (snd (Daemon.execute_command
                 (command "switch_tab" args) s))) = current_page_index (daemon s).
Proof.
  intros Hget Hout.
  destruct (automation (daemon s)) as [a | ] eqn:Ha.
  - rewrite (execute_command_started _ _ Ha), dispatch_switch_tab.
    destruct (switch_tab_rejects _ s Hget Hout) as [e He].
    rewrite He. exists (Daemon.error e). repeat split.
  - rewrite (execute_command_not_started _ _ Ha).
    eexists. repeat split.
Qed.

Lemma switch_tab_out_of_range_witness :
  exists r, @Daemon.execute_command scripted (command "switch_tab" [("index", JInt 5)])
              (started []) = (inr r, started [])
            /\ status r = Some (JStr "error").
Proof.
  destruct (@switch_tab_out_of_range scripted [("index", JInt 5)] (JInt 5) (started []))
    as [r [H1 [H2 _]]].
  - reflexivity.
  - simpl. lia.
  - exists r. split; assumption.
Defined.

Section Refresh.
Context {E : Env}.

Lemma alter_nth_same f pos l tab :
  nth_error l pos = Some tab -> nth_error (alter f pos l) pos = Some (f tab).
Proof.
  revert pos. induction l as [ | x l IH]; intros [ | pos]; simpl; intros H;
    try discriminate.
  - injection H as ->. reflexivity.
  - apply IH. exact H.
Qed.

Lemma alter_identity f pos l :
  (forall tab, identity (f tab) = identity tab) ->
  map identity (alter f pos l) = map identity l.
Proof.
  intros Hf. revert pos. induction l as [ | x l IH]; intros [ | pos]; simpl; auto.
  - rewrite Hf. reflexivity.
  - rewrite IH. reflexivity.
Qed.

Lemma nth_of_nth_error (l : list Tab) pos tab default :
  nth_error l pos = Some tab -> nth pos l default = tab.
Proof. intros H. apply nth_error_nth. exact H. Qed.

(** [lst[i]] for an integer inside the list. *)
Lemma getitem_valid (l : list Tab) (i : Z) :
  0 <= i < Z.of_nat (List.length l) ->
  exists tab, getitem l (JInt i) = inr (Z.to_nat i, tab)
              /\ nth_error l (Z.to_nat i) = Some tab.
Proof.
  intros Hi. unfold getitem, Py.index.
  replace ((0 <=? i)%Z && (i <? Z.of_nat (List.length l))%Z) with true
    by (symmetry; apply andb_true_iff; split; lia).
  destruct (nth_error l (Z.to_nat i)) as [tab | ] eqn:Hnth.
  - exists tab. split; reflexivity.
  - apply nth_error_None in Hnth. lia.
Qed.

(** A position found by subscripting is a position of the list. *)
Lemma getitem_nth (l : list Tab) (v : json) pos tab :
  getitem l v = inr (pos, tab) -> nth_error l pos = Some tab.
Proof.
  unfold getitem. destruct (Py.index (List.length l) v) as [e | p]; [discriminate | ].
  destruct (nth_error l p) as [t | ] eqn:Hnth; [ | discriminate].
  intros H. injection H as <- <-. exact Hnth.
Qed.

Lemma refresh_pass pos tab s :
  exists s', try_except (Daemon.refresh pos tab ;; ret tt) (fun _ => ret tt) s = (inr tt, s')
             /\ refreshed pos tab s s'.
Proof.
  unfold try_except, Daemon.refresh, Daemon.tab_page_method, Daemon.mutate_tab,
    page_title, page_url, bind, update.
  destruct (tab_page tab) as [p | ] eqn:Hp.
  - unfold ret at 1. rewrite call_eq.
    destruct (respond (PageTitle p) (world s)) as [[e | t] w] eqn:Ht; simpl.
    + eexists. split; [reflexivity | ]. eapply refreshed_title_raises; eassumption.
    + rewrite call_eq. simpl.
      destruct (respond (PageUrl p) w) as [[e | u] w'] eqn:Hu; simpl.
      * eexists. split; [reflexivity | ]. eapply refreshed_url_raises; eassumption.
      * eexists. split; [reflexivity | ]. eapply refreshed_both; eassumption.
  - simpl. eexists. split; [reflexivity | ]. apply refreshed_no_page. exact Hp.
Qed.

End Refresh.

Section CurrentTab.
Context {E : Env}.

(** A refresh touches cached titles and urls only. *)
Lemma refreshed_frame pos tab s s' :
  refreshed pos tab s s' ->
  automation (daemon s') = automation (daemon s)
  /\ current_page_index (daemon s') = current_page_index (daemon s)
  /\ running (daemon s') = running (daemon s)
  /\ map identity (pages (daemon s')) = map identity (pages (daemon s)).
Proof.
  intros H. destruct H; simpl; repeat split; auto.
  - apply alter_identity. intros x. reflexivity.
  - rewrite !alter_identity; auto.
Qed.

Lemma current_tab_nonempty s pos tab :
  pages (daemon s) <> [] ->
  getitem (pages (daemon s)) (current_page_index (daemon s)) = inr (pos, tab) ->
  exists s', refreshed pos tab s s'
             /\ Daemon.current_tab s
                = (inr (current_tab_result (daemon s') (nth pos (pages (daemon s')) tab)), s').
Proof.
  intros Hne Hget.
  destruct (refresh_pass pos tab s) as [s' [Hrun Hs']].
  exists s'. split; [exact Hs' | ].
  unfold Daemon.current_tab, bind at 1, self.
  destruct (pages (daemon s)) as [ | x l] eqn:Hpages; [contradiction | ].
  unfold bind at 1, lift. rewrite Hget.
  erewrite bind_inr by exact Hrun.
  reflexivity.
Qed.

Lemma current_tab_empty s :
  pages (daemon s) = [] ->
  Daemon.current_tab s = (inr (Daemon.error "No tabs available"), s).
Proof.
  intros Hnil. unfold Daemon.current_tab, bind, self. rewrite Hnil. reflexivity.
Qed.

End CurrentTab.

(** C3 (as amended): on an empty registry [current_tab] returns the error
    Result "No tabs available"; on a non-empty one whose current tab's
    refresh fails it never raises and returns status "success" with what the
    tab dict then holds, without any sentinel: the cached title and url when
    [title()] raises, the fresh title and the cached url when [url] raises. *)
Theorem current_tab_refresh_failure {E : Env} (args : list (string * json)) (s : St) :
  automation (daemon s) <> None ->
  (pages (daemon s) = [] ->
   Daemon.execute_command (command "current_tab" args) s
   = (inr (Daemon.error "No tabs available"), s))
  /\ (forall pos tab p e w,
        getitem (pages (daemon s)) (current_page_index (daemon s)) = inr (pos, tab) ->
        tab_page tab = Some p ->
        respond (PageTitle p) (world s) = (inl e, w) ->
        fst (Daemon.execute_command (command "current_tab" args) s)
        = inr (current_tab_result (daemon s) tab))
  /\ (forall pos tab p t w e w',
        getitem (pages (daemon s)) (current_page_index (daemon s)) = inr (pos, tab) ->
        tab_page tab = Some p ->
        respond (PageTitle p) (world s) = (inr t, w) ->
        respond (PageUrl p) w = (inl e, w') ->
        fst (Daemon.execute_command (command "current_tab" args) s)
        = inr (current_tab_result (daemon s) (set_title t tab))).
Proof.
  intros Ha. destruct (automation (daemon s)) as [a | ] eqn:Hauto; [clear Ha | contradiction].
  rewrite (execute_command_started _ _ Hauto), dispatch_current_tab.
  split; [ | split].
  - intros Hnil. erewrite try_except_inr by (apply current_tab_empty; exact Hnil).
    reflexivity.
  - intros pos tab p e w Hget Hp Ht.
    assert (Hne : pages (daemon s) <> []).
    { apply getitem_nth in Hget. intros Hnil. rewrite Hnil in Hget.
      destruct pos; discriminate. }
    destruct (current_tab_nonempty s Hne Hget) as [s' [Hs' Hrun]].
    erewrite try_except_inr by exact Hrun. simpl.
    destruct Hs' as [Hnone | p' e' w1 Hp' Ht' | p' t' w1 e' w2 Hp' Ht' Hu' | p' t' w1 u' w2 Hp' Ht' Hu'];
      try congruence; rewrite Hp in Hp'; injection Hp' as <-; try congruence.
    simpl. erewrite nth_of_nth_error by (eapply getitem_nth; exact Hget). reflexivity.
  - intros pos tab p t w e w' Hget Hp Ht Hu.
    assert (Hne : pages (daemon s) <> []).
    { apply getitem_nth in Hget. intros Hnil. rewrite Hnil in Hget.
      destruct pos; discriminate. }
    destruct (current_tab_nonempty s Hne Hget) as [s' [Hs' Hrun]].
    erewrite try_except_inr by exact Hrun. simpl.
    destruct Hs' as [Hnone | p' e' w1 Hp' Ht' | p' t' w1 e' w2 Hp' Ht' Hu' | p' t' w1 u' w2 Hp' Ht' Hu'];
      try congruence; rewrite Hp in Hp'; injection Hp' as <-; try congruence.
    rewrite Ht in Ht'. injection Ht' as <- <-. simpl.
    erewrite nth_of_nth_error
      by (apply alter_nth_same; eapply getitem_nth; exact Hget).
    reflexivity.
Qed.

Section SwitchTabValid.
Context {E : Env}.

(** [switch_tab] with an integer inside the registry: whatever
    [bring_to_front] does, the daemon ends with that index current and that
    tab's page as the automation page. *)
Lemma switch_tab_selects (args : json) (i : Z) (s : St) (a : BrowserAutomation) :
  automation (daemon s) = Some a ->
  Py.get args "index" (JInt 0) = inr (JInt i) ->
  0 <= i < Z.of_nat (tab_count (daemon s)) ->
  exists tab r s',
    nth_error (pages (daemon s)) (Z.to_nat i) = Some tab
    /\ try_except (Daemon.switch_tab args) (fun e => ret (Daemon.error e)) s = (inr r, s')
    /\ daemon s' = set_automation (Some (set_page (tab_page tab) a))
                     (set_current_page_index (JInt i) (daemon s)).
Proof.
  intros Ha Hget Hi. unfold tab_count in Hi.
  destruct (getitem_valid (pages (daemon s)) Hi) as [tab [Hitem Hnth]].
  exists tab.
  unfold try_except, Daemon.switch_tab, bind, lift, self. rewrite Hget. simpl.
  replace (0 <=? i)%Z with true by (symmetry; apply Z.leb_le; lia).
  replace (i <? Z.of_nat (List.length (pages (daemon s))))%Z with true
    by (symmetry; apply Z.ltb_lt; lia).
  rewrite Hitem. simpl. rewrite Ha. simpl.
  unfold Automation.page_method, Automation.this, bind, self. simpl.
  destruct (tab_page tab) as [p | ] eqn:Hp.
  - unfold ret at 1 2. rewrite call_eq. simpl.
    destruct (respond (PageBringToFront p) (world s)) as [[e | []] w]; simpl.
    + do 2 eexists. split; [exact Hnth | ]. split; reflexivity.
    + do 2 eexists. split; [exact Hnth | ]. split; reflexivity.
  - simpl. do 2 eexists. split; [exact Hnth | ]. split; reflexivity.
Qed.

End SwitchTabValid.

(** C7: for a valid tab index [i], [switch_tab(i)] followed by [current_tab()]
    yields a [current_tab] Result whose data has [tab_index] equal to [i]
    (also when bringing the tab to the front, or refreshing it, fails). *)
Theorem switch_then_current {E : Env} (i : Z) (args : list (string * json)) (s : St) :
  automation (daemon s) <> None ->
  0 <= i < Z.of_nat (tab_count (daemon s)) ->
  exists r d,
    fst (Daemon.execute_command (command "current_tab" args)
           (snd (Daemon.execute_command (command "switch_tab" [("index", JInt i)]) s)))
    = inr r
    /\ status r = Some (JStr "success")
    /\ data r = Some d
    /\ field "tab_index" d = Some (JInt i).
Proof.
  intros Ha Hi. destruct (automation (daemon s)) as [a | ] eqn:Hauto; [clear Ha | contradiction].
  rewrite (execute_command_started _ _ Hauto), dispatch_switch_tab.
  destruct (@switch_tab_selects _ (JObj [("index", JInt i)]) i s a Hauto eq_refl Hi)
    as [tab [r1 [s1 [Hnth [Hrun Hd]]]]].
  rewrite Hrun. simpl.
  assert (Hauto1 : automation (daemon s1) = Some (set_page (tab_page tab) a))
    by (rewrite Hd; reflexivity).
  assert (Hpages : pages (daemon s1) = pages (daemon s)) by (rewrite Hd; reflexivity).
  assert (Hcur : current_page_index (daemon s1) = JInt i) by (rewrite Hd; reflexivity).
  rewrite (execute_command_started _ _ Hauto1), dispatch_current_tab.
  assert (Hitem : getitem (pages (daemon s1)) (current_page_index (daemon s1))
                  = inr (Z.to_nat i, tab)).
  { rewrite Hpages, Hcur. destruct (getitem_valid (pages (daemon s)) Hi) as [tab' [H1 H2]].
    rewrite H1. congruence. }
  assert (Hne : pages (daemon s1) <> []).
  { rewrite Hpages. intros Hnil. rewrite Hnil in Hnth. destruct (Z.to_nat i); discriminate. }
  destruct (current_tab_nonempty s1 Hne Hitem) as [s2 [Hs2 Hrun2]].
  erewrite try_except_inr by exact Hrun2. simpl.
  destruct (refreshed_frame Hs2) as [_ [Hcur2 _]].
  eexists. eexists. split; [reflexivity | ]. split; [reflexivity | ].
  split; [reflexivity | ]. simpl. rewrite Hcur2, Hcur. reflexivity.
Qed.

Lemma switch_then_current_witness :
  exists r d,
    fst (@Daemon.execute_command scripted (command "current_tab" [])
           (snd (Daemon.execute_command (command "switch_tab" [("index", JInt 0)])
                   (two_tabs [Done; Text "Example Domain"; Text "https://example.com/"]))))
    = inr r
    /\ status r = Some (JStr "success")
    /\ data r = Some d
    /\ field "tab_index" d = Some (JInt 0).
Proof.
  apply (@switch_then_current scripted 0 []
           (two_tabs [Done; Text "Example Domain"; Text "https://example.com/"])).
  - simpl. discriminate.
  - simpl. lia.
Defined.

(** C3, counterexample: the second tab was opened on bing.com and its page
    then closed, so [title()] raises.  [current_tab] answers with the cached
    title and url, where the claim expects "Closed Tab" and "about:blank". *)
Lemma current_tab_keeps_cache :
  fst (@Daemon.execute_command scripted (command "current_tab" [])
         (two_tabs [Raises "Target page, context or browser has been closed"]))
  = inr (Daemon.success "Current tab info"
           (JObj [("tab_index", JInt 1);
                  ("title", JStr "Bing");
                  ("url", JStr "https://bing.com");
                  ("purpose", JStr "search")]))
  /\ JStr "Bing" <> JStr "Closed Tab"
  /\ JStr "https://bing.com" <> JStr "about:blank".
Proof.
  split; [reflexivity | ]. split; discriminate.
Qed.

Lemma current_tab_refresh_failure_witness :
  fst (@Daemon.execute_command scripted (command "current_tab" [])
         (two_tabs [Raises "Target page, context or browser has been closed"]))
  = inr (current_tab_result
           (daemon (two_tabs [Raises "Target page, context or browser has been closed"]))
           (mkTab (Some 8%nat) "Bing" "https://bing.com" 1 (Some (JStr "search")))).
Proof.
  assert (Ha : automation (daemon (two_tabs
                 [Raises "Target page, context or browser has been closed"])) <> None)
    by (simpl; discriminate).
  destruct (@current_tab_refresh_failure scripted []
              (two_tabs [Raises "Target page, context or browser has been closed"]) Ha)
    as [_ [H _]].
  eapply (H 1%nat _ 8%nat); reflexivity.
Defined.

(** Run the monad's plumbing. *)
Ltac exec :=
  cbv beta iota zeta delta [bind ret lift self update raise try_except]; simpl.

Section NewTab.
Context {E : Env}.

Lemma alter_last f (l : list Tab) x :
  alter f (List.length l) (l ++ [x])%list = (l ++ [f x])%list.
Proof. induction l as [ | y l IH]; simpl; [reflexivity | rewrite IH; reflexivity]. Qed.

Lemma nth_snoc (l : list Tab) x default :
  nth (List.length l) (l ++ [x])%list default = x.
Proof. induction l as [ | y l IH]; simpl; [reflexivity | exact IH]. Qed.

Lemma length_snoc_pred (l : list Tab) x :
  Z.of_nat (List.length (l ++ [x])%list) - 1 = Z.of_nat (List.length l).
Proof. rewrite length_app. simpl. lia. Qed.

Lemma new_tab_opened (kv : list (string * json)) (s : St) a p w :
  automation (daemon s) = Some a ->
  context a = true ->
  respond ContextNewPage (world s) = (inr p, w) ->
  exists out s', Daemon.new_tab (JObj kv) s = (out, s') /\ opened kv p w a s out s'.
Proof.
  intros Ha Hctx Hnew.
  unfold Daemon.new_tab, Automation.context_method, Automation.this, Automation.assign,
    Daemon.mutate_tab, context_new_page, page_title.
  exec. rewrite Ha. exec. rewrite Hctx. exec.
  rewrite call_eq, Hnew. exec. rewrite Ha. exec. rewrite length_snoc_pred.
  fold (url_arg kv). fold (purpose_arg kv).
  fold (tab_count (daemon s)). fold (fresh_tab (daemon s) kv p).
  destruct (Py.truthy (url_arg kv)) eqn:Htruthy.
  - destruct (Daemon.normalize_url (url_arg kv)) as [e | url] eqn:Hurl.
    + do 2 eexists. split; [reflexivity | ]. exact (@opened_bad_url E kv p w a s _ Htruthy Hurl).
    + rewrite call_eq. simpl.
      destruct (respond (PageGoto p url None) w) as [[e | []] w'] eqn:Hgoto; simpl.
      * do 2 eexists. split; [reflexivity | ]. exact (@opened_goto_raises E kv p w a s _ _ _ Htruthy Hurl Hgoto).
      * rewrite call_eq. simpl.
        destruct (respond (PageTitle p) w') as [[e | t] w''] eqn:Htitle; simpl.
        -- unfold tab_count. rewrite alter_last.
           do 2 eexists. split; [reflexivity | ]. exact (@opened_title_raises E kv p w a s _ _ _ _ Htruthy Hurl Hgoto Htitle).
        -- unfold tab_count. rewrite !alter_last. rewrite !nth_snoc.
           do 2 eexists. split; [reflexivity | ]. exact (@opened_navigated E kv p w a s _ _ _ _ Htruthy Hurl Hgoto Htitle).
  - simpl. unfold tab_count. rewrite !nth_snoc.
    do 2 eexists. split; [reflexivity | ]. exact (@opened_blank E kv p w a s Htruthy).
Qed.

End NewTab.

Section NewTabFacts.
Context {E : Env}.

(** Whatever happens after the page is created, the tab is registered. *)
Lemma opened_registry kv p w a s out s' :
  opened kv p w a s out s' ->
  exists tab,
    daemon s' = registered (daemon s) a p tab
    /\ identity tab = identity (fresh_tab (daemon s) kv p).
Proof.
  intros H. destruct H; eexists; split; reflexivity.
Qed.

Lemma registered_count d a p tab :
  tab_count (registered d a p tab) = S (tab_count d).
Proof. unfold tab_count. simpl. rewrite length_app. simpl. lia. Qed.

Lemma registered_nth d a p tab :
  nth_error (pages (registered d a p tab)) (tab_count d) = Some tab.
Proof.
  unfold tab_count. simpl. rewrite nth_error_app2 by lia.
  rewrite Nat.sub_diag. reflexivity.
Qed.

End NewTabFacts.

(** C4 (as amended): for a daemon that holds its automation object and a
    [new_tab] command whose ['args'] is an object.  When the browser context
    creates the new page, [new_tab] increases the number of tabs by exactly
    1 and makes the new tab (the one holding that page, stored index = the
    former number of tabs) the current tab; when no url is given, or the
    navigation and the title read after it succeed, it returns status
    "success" with [tab_index] equal to the number of tabs before the
    insertion, and in every other case (a url that is not a string, a
    navigation or a title read that raises) the tab stays added and the
    Result is an error.  When [context.new_page()] raises, or the automation
    object has no context, no tab is added, the daemon object is unchanged
    and the Result is an error. *)
Theorem new_tab_appends {E : Env} (args : list (string * json)) (s : St) a :
  automation (daemon s) = Some a ->
  let before := tab_count (daemon s) in
  let out := Daemon.execute_command (command "new_tab" args) s in
  (context a = false ->
   out = (inr (Daemon.error "'BrowserAutomation' object has no attribute 'context'"), s))
  /\ (context a = true ->
      forall e w,
        respond ContextNewPage (world s) = (inl e, w) ->
        out = (inr (Daemon.error e), mkSt (daemon s) w (calls s ++ [ContextNewPage])))
  /\ (context a = true ->
      forall p w,
        respond ContextNewPage (world s) = (inr p, w) ->
        let navigated :=
          Py.truthy (url_arg args) = false
          \/ (exists url w' t w'',
                Daemon.normalize_url (url_arg args) = inr url
                /\ respond (PageGoto p url None) w = (inr tt, w')
                /\ respond (PageTitle p) w' = (inr t, w'')) in
        tab_count (daemon (snd out)) = S before
        /\ current_page_index (daemon (snd out)) = JInt (Z.of_nat before)
        /\ (exists tab, nth_error (pages (daemon (snd out))) before = Some tab
                        /\ tab_page tab = Some p
                        /\ tab_index tab = Z.of_nat before)
        /\ option_map page (automation (daemon (snd out))) = Some (Some p)
        /\ (navigated ->
            exists r d, fst out = inr r
                        /\ status r = Some (JStr "success")
                        /\ data r = Some d
                        /\ field "tab_index" d = Some (JInt (Z.of_nat before)))
        /\ (~ navigated -> exists e, fst out = inr (Daemon.error e))).
Proof.
  intros Ha before out. subst before out.
  rewrite (execute_command_started _ _ Ha), dispatch_new_tab.
  split; [ | split].
  - intros Hctx.
    unfold try_except, Daemon.new_tab, Automation.context_method, Automation.this.
    exec. rewrite Ha. exec. rewrite Hctx. reflexivity.
  - intros Hctx e w Hnew.
    unfold try_except, Daemon.new_tab, Automation.context_method, Automation.this,
      context_new_page.
    exec. rewrite Ha. exec. rewrite Hctx. exec. rewrite call_eq, Hnew. reflexivity.
  - intros Hctx p w Hnew navigated. subst navigated.
    destruct (new_tab_opened args s Ha Hctx Hnew) as [res [s' [Hrun Hop]]].
    destruct (opened_registry Hop) as [tab [Hd Hid]].
    assert (Hstate : daemon (snd (try_except (Daemon.new_tab (JObj args))
                                    (fun e => ret (Daemon.error e)) s)) = daemon s').
    { unfold try_except. rewrite Hrun. destruct res; reflexivity. }
    rewrite Hstate, Hd.
    split; [apply registered_count | ].
    split; [reflexivity | ].
    split.
    { exists tab. split; [apply registered_nth | ].
      unfold identity in Hid. simpl in Hid. injection Hid as H1 H2 H3. split; assumption. }
    split; [reflexivity | ].
    split.
    + intros Hnav. unfold try_except. rewrite Hrun.
      destruct Hop as [Hblank | e Ht He | url e w' Ht Hu Hg | url w' e w'' Ht Hu Hg Hti
                      | url w' t w'' Ht Hu Hg Hti].
      * do 2 eexists. repeat split.
      * exfalso. destruct Hnav as [Hf | [url [w' [t [w'' [Hu _]]]]]]; congruence.
      * exfalso. destruct Hnav as [Hf | [url' [w1 [t [w'' [Hu' [Hg' _]]]]]]]; [congruence | ].
        rewrite Hu in Hu'. injection Hu' as <-. rewrite Hg in Hg'.
        apply (f_equal fst) in Hg'. discriminate.
      * exfalso. destruct Hnav as [Hf | [url' [w2 [t [w3 [Hu' [Hg' Hti']]]]]]]; [congruence | ].
        rewrite Hu in Hu'. injection Hu' as <-. rewrite Hg in Hg'.
        apply (f_equal snd) in Hg'. simpl in Hg'. subst w2.
        rewrite Hti in Hti'. apply (f_equal fst) in Hti'. discriminate.
      * do 2 eexists. repeat split.
    + intros Hnot. unfold try_except. rewrite Hrun.
      destruct Hop as [Hblank | e Ht He | url e w' Ht Hu Hg | url w' e w'' Ht Hu Hg Hti
                      | url w' t w'' Ht Hu Hg Hti].
      * exfalso. apply Hnot. left. exact Hblank.
      * eexists. reflexivity.
      * eexists. reflexivity.
      * eexists. reflexivity.
      * exfalso. apply Hnot. right. exists url, w', t, w''. repeat split; assumption.
Qed.

(** C10: when [new_tab] is given a url and the navigation raises, the command
    returns an error Result carrying the failure's message, and the registry
    keeps the mutation: the new tab is appended (one more tab) and
    [current_page_index] is its position. *)
Theorem new_tab_navigation_failure {E : Env}
        (args : list (string * json)) (s : St) a p w url e w' :
  automation (daemon s) = Some a ->
  context a = true ->
  respond ContextNewPage (world s) = (inr p, w) ->
  Py.truthy (url_arg args) = true ->
  Daemon.normalize_url (url_arg args) = inr url ->
  respond (PageGoto p url None) w = (inl e, w') ->
  let out := Daemon.execute_command (command "new_tab" args) s in
  fst out = inr (Daemon.error e)
  /\ pages (daemon (snd out)) = (pages (daemon s) ++ [fresh_tab (daemon s) args p])%list
  /\ tab_count (daemon (snd out)) = S (tab_count (daemon s))
  /\ current_page_index (daemon (snd out)) = JInt (Z.of_nat (tab_count (daemon s))).
Proof.
  intros Ha Hctx Hnew Ht Hu Hg out. subst out.
  rewrite (execute_command_started _ _ Ha), dispatch_new_tab.
  destruct (new_tab_opened args s Ha Hctx Hnew) as [res [s' [Hrun Hop]]].
  unfold try_except. rewrite Hrun.
  destruct Hop as [Hblank | e1 Ht1 He1 | url1 e1 w1 Ht1 Hu1 Hg1 | url1 w1 e1 w2 Ht1 Hu1 Hg1 Hti1
                  | url1 w1 t1 w2 Ht1 Hu1 Hg1 Hti1]; try congruence.
  - rewrite Hu in Hu1. injection Hu1 as <-. rewrite Hg in Hg1.
    pose proof (f_equal fst Hg1) as He. simpl in He. injection He as <-.
    simpl. split; [reflexivity | ]. split; [reflexivity | ].
    split; [ | reflexivity].
    apply (registered_count (daemon s) a p (fresh_tab (daemon s) args p)).
  - rewrite Hu in Hu1. injection Hu1 as <-. rewrite Hg in Hg1.
    apply (f_equal fst) in Hg1. discriminate.
  - rewrite Hu in Hu1. injection Hu1 as <-. rewrite Hg in Hg1.
    apply (f_equal fst) in Hg1. discriminate.
Qed.

(** C4, counterexample: on the started daemon (one tab), first a [new_tab]
    for which the context fails to create the page, then one whose
    navigation fails.  The first leaves one tab and returns "error"; the
    second adds the tab and returns "error" too. *)
Lemma new_tab_can_fail :
  (let out := @Daemon.execute_command scripted (command "new_tab" [])
                (started [Raises "Target page, context or browser has been closed"]) in
   fst out = inr (Daemon.error "Target page, context or browser has been closed")
   /\ tab_count (daemon (snd out)) = 1%nat
   /\ current_page_index (daemon (snd out)) = JInt 0)
  /\
  (let out := @Daemon.execute_command scripted (command "new_tab" [("url", JStr "no.such.host")])
                (started [Page 8%nat; Raises "net::ERR_NAME_NOT_RESOLVED"]) in
   fst out = inr (Daemon.error "net::ERR_NAME_NOT_RESOLVED")
   /\ status (Daemon.error "net::ERR_NAME_NOT_RESOLVED") <> Some (JStr "success")
   /\ tab_count (daemon (snd out)) = 2%nat).
Proof.
  split; [repeat split | ].
  split; [reflexivity | ]. split; [discriminate | reflexivity].
Qed.

Lemma new_tab_appends_witness :
  let out := @Daemon.execute_command scripted
               (command "new_tab" [("purpose", JStr "search"); ("url", JStr "bing.com")])
               (started [Page 8%nat; Done; Text "Bing"]) in
  tab_count (daemon (snd out)) = 2%nat
  /\ current_page_index (daemon (snd out)) = JInt 1
  /\ exists r d, fst out = inr r
                 /\ status r = Some (JStr "success")
                 /\ data r = Some d
                 /\ field "tab_index" d = Some (JInt 1).
Proof.
  destruct (@new_tab_appends scripted
              [("purpose", JStr "search"); ("url", JStr "bing.com")]
              (started [Page 8%nat; Done; Text "Bing"])
              (mkAutomation false true true true (Some 7%nat)) eq_refl) as [_ [_ H]].
  destruct (H eq_refl 8%nat [Done; Text "Bing"] eq_refl) as [H1 [H2 [_ [_ [H5 _]]]]].
  split; [exact H1 | ]. split; [exact H2 | ].
  apply H5. right. exists "https://bing.com", [Text "Bing"], "Bing", [].
  repeat split.
Defined.

Lemma new_tab_navigation_failure_witness :
  let out := @Daemon.execute_command scripted (command "new_tab" [("url", JStr "no.such.host")])
               (started [Page 8%nat; Raises "net::ERR_NAME_NOT_RESOLVED"]) in
  fst out = inr (Daemon.error "net::ERR_NAME_NOT_RESOLVED")
  /\ tab_count (daemon (snd out)) = 2%nat
  /\ current_page_index (daemon (snd out)) = JInt 1.
Proof.
  destruct (@new_tab_navigation_failure scripted [("url", JStr "no.such.host")]
              (started [Page 8%nat; Raises "net::ERR_NAME_NOT_RESOLVED"])
              (mkAutomation false true true true (Some 7%nat)) 8%nat
              [Raises "net::ERR_NAME_NOT_RESOLVED"] "https://no.such.host"
              "net::ERR_NAME_NOT_RESOLVED" []
              eq_refl eq_refl eq_refl eq_refl eq_refl eq_refl) as [H1 [_ [H3 H4]]].
  split; [exact H1 | ]. split; [exact H3 | exact H4].
Defined.

Section Navigate.
Context {E : Env}.

Lemma get_url_arg (kv : list (string * json)) :
  Py.get (JObj kv) "url" JNull = inr (url_arg kv).
Proof. reflexivity. Qed.

(** The calls [navigate] makes on the current page [p]. *)
Lemma navigate_calls (kv : list (string * json)) (s : St) a p target :
  automation (daemon s) = Some a ->
  page a = Some p ->
  Daemon.normalize_url (url_arg kv) = inr target ->
  exists rest,
    calls (snd (try_except (Daemon.navigate (JObj kv)) (fun e => ret (Daemon.error e)) s))
    = (calls s ++ PageGoto p target (Some "networkidle") :: rest)%list
    /\ (rest = [] \/ rest = [PageTitle p]).
Proof.
  intros Ha Hp Hu.
  unfold Daemon.navigate. rewrite get_url_arg.
  unfold Automation.navigate_to, Automation.page_method, Automation.this,
    Automation.failure, page_title.
  exec. rewrite Hu. exec. repeat (first [rewrite Ha | rewrite Hp]; exec).
  rewrite call_eq. simpl.
  destruct (respond (PageGoto p target (Some "networkidle")) (world s)) as [[e | []] w];
    simpl.
  - exists []. split; [reflexivity | left; reflexivity].
  - rewrite Ha. simpl. rewrite Hp. simpl. rewrite call_eq. simpl.
    destruct (respond (PageTitle p) w) as [[e | t] w']; simpl;
      (exists [PageTitle p]; split; [rewrite <- app_assoc; reflexivity | right; reflexivity]).
Qed.

(** The calls [new_tab] makes once the context has created page [p]. *)
Lemma opened_calls kv p w a s out s' :
  opened kv p w a s out s' ->
  (Py.truthy (url_arg kv) = false /\ calls s' = (calls s ++ [ContextNewPage])%list)
  \/ (Py.truthy (url_arg kv) = true /\
      (forall target, Daemon.normalize_url (url_arg kv) = inr target ->
         exists rest, calls s' = (calls s ++ ContextNewPage :: PageGoto p target None :: rest)%list
                      /\ (rest = [] \/ rest = [PageTitle p]))).
Proof.
  intros H. destruct H as [Hblank | e Ht He | url e w' Ht Hu Hg | url w' e w'' Ht Hu Hg Hti
                          | url w' t w'' Ht Hu Hg Hti]; simpl.
  - left. split; [assumption | reflexivity].
  - right. split; [assumption | ]. intros target Htarget. congruence.
  - right. split; [assumption | ]. intros target Htarget.
    rewrite Hu in Htarget. injection Htarget as <-.
    exists []. split; [rewrite <- app_assoc; reflexivity | left; reflexivity].
  - right. split; [assumption | ]. intros target Htarget.
    rewrite Hu in Htarget. injection Htarget as <-.
    exists [PageTitle p]. split; [rewrite <- !app_assoc; reflexivity | right; reflexivity].
  - right. split; [assumption | ]. intros target Htarget.
    rewrite Hu in Htarget. injection Htarget as <-.
    exists [PageTitle p]. split; [rewrite <- !app_assoc; reflexivity | right; reflexivity].
Qed.

End Navigate.

(** C5 (as amended): the navigation target is the url itself when it begins
    with "http://" or "https://", and "https://" followed by the url
    otherwise ("example.com" gives "https://example.com"); [navigate] passes
    that target to [goto] on the current page for every url string, and
    [new_tab] passes it to [goto] on the new page for every non-empty url
    string.  With an empty (or otherwise falsy) url, [new_tab] makes no
    navigation at all. *)
Theorem url_normalization {E : Env} :
  (forall u, Daemon.normalize_url (JStr u)
             = inr (if String.prefix "http://" u || String.prefix "https://" u
                    then u else "https://" ++ u))
  /\ Daemon.normalize_url (JStr "example.com") = inr "https://example.com"
  /\ (forall args s a p u target,
        automation (daemon s) = Some a ->
        page a = Some p ->
        url_arg args = JStr u ->
        Daemon.normalize_url (JStr u) = inr target ->
        exists rest,
          calls (snd (Daemon.execute_command (command "navigate" args) s))
          = (calls s ++ PageGoto p target (Some "networkidle") :: rest)%list
          /\ (rest = [] \/ rest = [PageTitle p]))
  /\ (forall args s a p w u target,
        automation (daemon s) = Some a ->
        context a = true ->
        respond ContextNewPage (world s) = (inr p, w) ->
        url_arg args = JStr u ->
        u <> "" ->
        Daemon.normalize_url (JStr u) = inr target ->
        exists rest,
          calls (snd (Daemon.execute_command (command "new_tab" args) s))
          = (calls s ++ ContextNewPage :: PageGoto p target None :: rest)%list
          /\ (rest = [] \/ rest = [PageTitle p]))
  /\ (forall args s a p w,
        automation (daemon s) = Some a ->
        context a = true ->
        respond ContextNewPage (world s) = (inr p, w) ->
        Py.truthy (url_arg args) = false ->
        calls (snd (Daemon.execute_command (command "new_tab" args) s))
        = (calls s ++ [ContextNewPage])%list).
Proof.
  split; [ | split; [ | split; [ | split]]].
  - intros u. unfold Daemon.normalize_url.
    destruct (String.prefix "http://" u || String.prefix "https://" u); reflexivity.
  - reflexivity.
  - intros args s a p u target Ha Hp Hu Htarget.
    rewrite (execute_command_started _ _ Ha), dispatch_navigate.
    apply (navigate_calls args s Ha Hp). rewrite Hu. exact Htarget.
  - intros args s a p w u target Ha Hctx Hnew Hu Hne Htarget.
    rewrite (execute_command_started _ _ Ha), dispatch_new_tab.
    destruct (new_tab_opened args s Ha Hctx Hnew) as [res [s' [Hrun Hop]]].
    assert (Hcalls : calls (snd (try_except (Daemon.new_tab (JObj args))
                                   (fun e => ret (Daemon.error e)) s)) = calls s').
    { unfold try_except. rewrite Hrun. destruct res; reflexivity. }
    rewrite Hcalls.
    destruct (opened_calls Hop) as [[Hfalse _] | [_ H]].
    + rewrite Hu in Hfalse. simpl in Hfalse.
      apply negb_false_iff in Hfalse. apply String.eqb_eq in Hfalse. contradiction.
    + apply H. rewrite Hu. exact Htarget.
  - intros args s a p w Ha Hctx Hnew Hfalse.
    rewrite (execute_command_started _ _ Ha), dispatch_new_tab.
    destruct (new_tab_opened args s Ha Hctx Hnew) as [res [s' [Hrun Hop]]].
    assert (Hcalls : calls (snd (try_except (Daemon.new_tab (JObj args))
                                   (fun e => ret (Daemon.error e)) s)) = calls s').
    { unfold try_except. rewrite Hrun. destruct res; reflexivity. }
    rewrite Hcalls.
    destruct (opened_calls Hop) as [[_ H] | [Htrue _]]; [exact H | congruence].
Qed.

Lemma url_normalization_witness :
  exists rest,
    calls (snd (@Daemon.execute_command scripted (command "navigate" [("url", JStr "example.com")])
                  (started [Done; Text "Example Domain"])))
    = (calls (started [Done; Text "Example Domain"])
         ++ PageGoto 7%nat "https://example.com" (Some "networkidle") :: rest)%list
    /\ (rest = [] \/ rest = [PageTitle 7%nat]).
Proof.
  destruct (@url_normalization scripted) as [_ [_ [H _]]].
  apply (H [("url", JStr "example.com")] (started [Done; Text "Example Domain"])
           (mkAutomation false true true true (Some 7%nat)) 7%nat "example.com");
    reflexivity.
Defined.

(** C5, counterexample: [new_tab] with the url argument "" (which does not
    begin with a scheme marker) calls [new_page] and nothing else: no
    navigation is made, to "https://" or to anything, and the tab stays on
    "about:blank". *)
Lemma new_tab_empty_url_not_navigated :
  let out := @Daemon.execute_command scripted (command "new_tab" [("url", JStr "")])
               (started [Page 8%nat]) in
  calls (snd out) = (calls (started [Page 8%nat]) ++ [ContextNewPage])%list
  /\ ~ In (PageGoto 8%nat "https://" None) (calls (snd out))
  /\ fst out = inr (Daemon.success "New tab opened (Tab 2)"
                      (JObj [("tab_index", JInt 1);
                             ("purpose", JStr "general");
                             ("url", JStr "about:blank")])).
Proof.
  split; [reflexivity | ]. split; [ | reflexivity].
  simpl. intros H. repeat (destruct H as [H | H]; [discriminate | ]). exact H.
Qed.

Section ListTabs.
Context {E : Env}.

(** One pass through the loop body never raises; it answers with the
    sentinel entry exactly when the refresh raises. *)
Lemma list_tabs_entry_total (i : nat) (tab : Tab) (s : St) :
  exists info s',
    Daemon.list_tabs_entry i tab s = (inr info, s')
    /\ automation (daemon s') = automation (daemon s)
    /\ current_page_index (daemon s') = current_page_index (daemon s)
    /\ (forall e, fst (Daemon.refresh i tab s) = inl e ->
          info = Daemon.tab_entry i "Closed Tab" "about:blank" (purpose_of tab) (JBool false)).
Proof.
  unfold Daemon.list_tabs_entry, Daemon.refresh, Daemon.tab_page_method,
    Daemon.mutate_tab, page_title, page_url.
  exec.
  destruct (tab_page tab) as [p | ].
  - rewrite call_eq. simpl.
    destruct (respond (PageTitle p) (world s)) as [[e | t] w]; simpl.
    + do 2 eexists. repeat split.
    + rewrite call_eq. simpl.
      destruct (respond (PageUrl p) w) as [[e | u] w']; simpl.
      * do 2 eexists. repeat split.
      * do 2 eexists. split; [reflexivity | ]. split; [reflexivity | ].
        split; [reflexivity | ]. intros e He. discriminate.
  - simpl. do 2 eexists. repeat split.
Qed.

Lemma list_tabs_loop_cons i tab rest s info s1 infos s2 :
  Daemon.list_tabs_entry i tab s = (inr info, s1) ->
  Daemon.list_tabs_loop (S i) rest s1 = (inr infos, s2) ->
  Daemon.list_tabs_loop i (tab :: rest) s = (inr (info :: infos), s2).
Proof.
  intros H1 H2. simpl.
  erewrite bind_inr by exact H1. erewrite bind_inr by exact H2. reflexivity.
Qed.

(** The loop never raises, returns one entry per tab, and the entry of a
    tab whose refresh raises, in the state the loop reaches it in, is the
    sentinel entry. *)
Lemma list_tabs_loop_total (tabs : list Tab) :
  forall (i : nat) (s : St),
  exists infos s',
    Daemon.list_tabs_loop i tabs s = (inr infos, s')
    /\ automation (daemon s') = automation (daemon s)
    /\ current_page_index (daemon s') = current_page_index (daemon s)
    /\ List.length infos = List.length tabs
    /\ (forall k tab e,
          nth_error tabs k = Some tab ->
          fst (Daemon.refresh (i + k) tab
                 (snd (Daemon.list_tabs_loop i (firstn k tabs) s))) = inl e ->
          nth_error infos k
          = Some (Daemon.tab_entry (i + k) "Closed Tab" "about:blank" (purpose_of tab)
                    (JBool false))).
Proof.
  induction tabs as [ | tab rest IH]; intros i s.
  - exists [], s. repeat split. intros [ | k] tab e H; discriminate.
  - destruct (list_tabs_entry_total i tab s) as [info [s1 [H1 [Ha1 [Hc1 Hdead]]]]].
    destruct (IH (S i) s1) as [infos [s2 [H2 [Ha2 [Hc2 [Hlen Hrest]]]]]].
    exists (info :: infos), s2.
    split; [eapply list_tabs_loop_cons; eassumption | ].
    split; [congruence | ]. split; [congruence | ].
    split; [simpl; congruence | ].
    intros [ | k] tab' e Hnth Hfail.
    + simpl in Hnth. injection Hnth as <-. simpl in Hfail.
      rewrite Nat.add_0_r in *. simpl. f_equal. eapply Hdead. exact Hfail.
    + simpl in Hnth. simpl.
      replace (i + S k)%nat with (S i + k)%nat in * by lia.
      apply (Hrest k tab' e Hnth).
      simpl firstn in Hfail.
      assert (Hstate : snd (Daemon.list_tabs_loop i (tab :: firstn k rest) s)
                       = snd (Daemon.list_tabs_loop (S i) (firstn k rest) s1)).
      { simpl. erewrite bind_inr by exact H1.
        unfold bind. destruct (Daemon.list_tabs_loop (S i) (firstn k rest) s1) as [[e' | l] s3];
          reflexivity. }
      rewrite Hstate in Hfail. exact Hfail.
Qed.

End ListTabs.

(** C8: [list_tabs] is total: in every state of a constructed daemon,
    whatever the page handles do, it returns a success Result and does not
    raise; the list has one entry per tab, and each tab whose refresh fails
    (when the loop reaches it) appears with title "Closed Tab", url
    "about:blank" and active false. *)
Theorem list_tabs_total {E : Env} (args : list (string * json)) (s : St) :
  automation (daemon s) <> None ->
  exists infos,
    fst (Daemon.execute_command (command "list_tabs" args) s)
    = inr (Daemon.success
             ("Found " ++ Py.str_of_Z (Z.of_nat (List.length infos)) ++ " tabs")
             (JObj [("tabs", JArr infos);
                    ("current_tab", current_page_index (daemon s))]))
    /\ List.length infos = tab_count (daemon s)
    /\ (forall k tab e,
          nth_error (pages (daemon s)) k = Some tab ->
          fst (Daemon.refresh k tab
                 (snd (Daemon.list_tabs_loop 0 (firstn k (pages (daemon s))) s))) = inl e ->
          nth_error infos k
          = Some (JObj [("index", JInt (Z.of_nat k));
                        ("title", JStr "Closed Tab");
                        ("url", JStr "about:blank");
                        ("purpose", purpose_of tab);
                        ("active", JBool false)])).
Proof.
  intros Ha. destruct (automation (daemon s)) as [a | ] eqn:Hauto; [clear Ha | contradiction].
  rewrite (execute_command_started _ _ Hauto), dispatch_list_tabs.
  destruct (list_tabs_loop_total (pages (daemon s)) 0 s)
    as [infos [s' [Hrun [_ [Hcur [Hlen Hdead]]]]]].
  exists infos. split; [ | split; [exact Hlen | exact Hdead]].
  unfold try_except, Daemon.list_tabs, bind at 1, self.
  erewrite bind_inr by exact Hrun.
  exec. rewrite Hcur. reflexivity.
Qed.

(** ** What a computation may do to the state *)

Section Keeps.
Context {E : Env}.
Variable R : St -> St -> Prop.
Hypothesis R_refl : forall s, R s s.
Hypothesis R_trans : forall s1 s2 s3, R s1 s2 -> R s2 s3 -> R s1 s3.
Hypothesis R_call : forall s c w, R s (mkSt (daemon s) w (calls s ++ [c])%list).

Lemma keeps_ret {A} (a : A) : keeps R (ret a).
Proof. intros s. apply R_refl. Qed.

Lemma keeps_raise {A} e : keeps R (@raise E A e).
Proof. intros s. apply R_refl. Qed.

Lemma keeps_lift {A} (x : exc + A) : keeps R (lift x).
Proof. intros s. apply R_refl. Qed.

Lemma keeps_self : keeps R self.
Proof. intros s. apply R_refl. Qed.

Lemma keeps_call c : keeps R (call c).
Proof. intros s. rewrite call_eq. apply R_call. Qed.

Lemma keeps_context_new_page : keeps R context_new_page.
Proof. exact (keeps_call ContextNewPage). Qed.

Lemma keeps_page_title p : keeps R (page_title p).
Proof. exact (keeps_call (PageTitle p)). Qed.

Lemma keeps_page_url p : keeps R (page_url p).
Proof. exact (keeps_call (PageUrl p)). Qed.

Lemma keeps_page_evaluate p script : keeps R (page_evaluate p script).
Proof. exact (keeps_call (PageEvaluate p script)). Qed.

Lemma keeps_path_exists file : keeps R (path_exists file).
Proof. exact (keeps_call (PathExists file)). Qed.

Lemma keeps_read_json file : keeps R (read_json file).
Proof. exact (keeps_call (ReadJson file)). Qed.

Lemma keeps_update f :
  (forall s, R s (mkSt (f (daemon s)) (world s) (calls s))) -> keeps R (update f).
Proof. intros H s. apply H. Qed.

Lemma keeps_bind {A B} (m : M A) (k : A -> M B) :
  keeps R m -> (forall a, keeps R (k a)) -> keeps R (bind m k).
Proof.
  intros Hm Hk s. unfold bind. specialize (Hm s).
  destruct (m s) as [[e | a] s']; simpl in *; [exact Hm | ].
  eapply R_trans; [exact Hm | apply Hk].
Qed.

Lemma keeps_try_except {A} (m : M A) h :
  keeps R m -> (forall e, keeps R (h e)) -> keeps R (try_except m h).
Proof.
  intros Hm Hh s. unfold try_except. specialize (Hm s).
  destruct (m s) as [[e | a] s']; simpl in *; [ | exact Hm].
  eapply R_trans; [exact Hm | apply Hh].
Qed.

End Keeps.

Create HintDb registry.

(** Break a computation into the pieces above. *)
Ltac keeps_step :=
  first
    [ apply keeps_ret | apply keeps_raise | apply keeps_lift | apply keeps_self
    | apply keeps_call | apply keeps_context_new_page | apply keeps_page_title
    | apply keeps_page_url | apply keeps_page_evaluate | apply keeps_path_exists
    | apply keeps_read_json | apply keeps_try_except | apply keeps_bind
    | match goal with
      | |- keeps ?R (call ?c) => refine (keeps_call R _ c)
      | |- keeps _ (if ?b then _ else _) => destruct b
      | |- keeps _ (match ?x with _ => _ end) => destruct x
      | |- keeps _ (let (_, _) := ?x in _) => destruct x
      | |- forall _, _ => intro
      end ].

Section Registry.
Context {E : Env}.

Lemma same_registry_refl d : same_registry d d.
Proof. split; reflexivity. Qed.

Lemma same_refl s : same s s.
Proof. split; reflexivity. Qed.

Lemma same_trans s1 s2 s3 : same s1 s2 -> same s2 s3 -> same s1 s3.
Proof. intros [H1 H2] [H3 H4]. split; congruence. Qed.

Lemma same_call s c w : same s (mkSt (daemon s) w (calls s ++ [c])%list).
Proof. split; reflexivity. Qed.

Ltac same_registry_auto :=
  repeat first
    [ exact same_refl | exact same_trans | exact same_call
    | solve [auto 2 with registry]
    | keeps_step ].

Lemma same_assign f : keeps same (Automation.assign f).
Proof.
  apply keeps_update. intros s. split; reflexivity.
Qed.
Hint Resolve same_assign : registry.

Lemma same_mutate pos f :
  (forall tab, identity (f tab) = identity tab) ->
  keeps same (Daemon.mutate_tab pos f).
Proof.
  intros Hf. apply keeps_update. intros s. split; [ | reflexivity].
  simpl. apply alter_identity. exact Hf.
Qed.
Hint Resolve same_mutate : registry.

Lemma same_this attr : keeps same (Automation.this attr).
Proof. unfold Automation.this. same_registry_auto. Qed.
Hint Resolve same_this : registry.

Lemma same_page_method method : keeps same (Automation.page_method method).
Proof. unfold Automation.page_method. same_registry_auto. Qed.
Hint Resolve same_page_method : registry.

Lemma same_navigate args : keeps same (Daemon.navigate args).
Proof.
  unfold Daemon.navigate, Automation.navigate_to, Automation.failure.
  same_registry_auto.
Qed.

Lemma same_click args : keeps same (Daemon.click args).
Proof.
  unfold Daemon.click, Automation.click_element, Automation.failure.
  same_registry_auto.
Qed.

Lemma same_fill args : keeps same (Daemon.fill args).
Proof.
  unfold Daemon.fill, Automation.fill_form, Automation.failure.
  same_registry_auto.
Qed.

Lemma same_screenshot args : keeps same (Daemon.screenshot args).
Proof.
  unfold Daemon.screenshot, Automation.take_screenshot, Automation.failure.
  same_registry_auto.
Qed.

Lemma same_title : keeps same Daemon.title.
Proof.
  unfold Daemon.title.
  same_registry_auto.
Qed.

Lemma same_wait args : keeps same (Daemon.wait args).
Proof.
  unfold Daemon.wait, Automation.wait_for_element, Automation.failure.
  same_registry_auto.
Qed.

Lemma same_js args : keeps same (Daemon.js args).
Proof.
  unfold Daemon.js, Automation.execute_javascript, Automation.failure.
  same_registry_auto.
Qed.

Lemma same_refresh pos tab : keeps same (Daemon.refresh pos tab).
Proof.
  unfold Daemon.refresh, Daemon.tab_page_method.
  same_registry_auto.
Qed.
Hint Resolve same_refresh : registry.

Lemma same_list_tabs_loop tabs : forall i, keeps same (Daemon.list_tabs_loop i tabs).
Proof.
  induction tabs as [ | tab rest IH]; intros i; simpl.
  - same_registry_auto.
  - unfold Daemon.list_tabs_entry. same_registry_auto.
Qed.
Hint Resolve same_list_tabs_loop : registry.

Lemma same_list_tabs : keeps same Daemon.list_tabs.
Proof.
  unfold Daemon.list_tabs. same_registry_auto.
Qed.

Lemma same_current_tab : keeps same Daemon.current_tab.
Proof.
  unfold Daemon.current_tab. same_registry_auto.
Qed.

Lemma same_stop : keeps same Daemon.stop.
Proof.
  unfold Daemon.stop. same_registry_auto.
Qed.

End Registry.

#[global] Hint Resolve same_assign same_mutate same_this same_page_method same_refresh
  same_list_tabs_loop : registry.

Section RegistrySteps.
Context {E : Env}.

Lemma bind_lift {A B} (x : exc + A) (k : A -> M B) s :
  bind (lift x) k s = match x with inl e => (inl e, s) | inr a => k a s end.
Proof. unfold bind, lift. destruct x; reflexivity. Qed.

Lemma bind_self {B} (k : BrowserDaemon -> M B) s : bind self k s = k (daemon s) s.
Proof. reflexivity. Qed.

Lemma bind_update {B} f (k : unit -> M B) s :
  bind (update f) k s = k tt (mkSt (f (daemon s)) (world s) (calls s)).
Proof. reflexivity. Qed.

Lemma bind_ret {A B} (a : A) (k : A -> M B) s : bind (ret a) k s = k a s.
Proof. reflexivity. Qed.

Lemma switch_tab_step (args : json) (s : St) :
  registry_step (daemon s) (daemon (snd (Daemon.switch_tab args s))).
Proof.
  unfold Daemon.switch_tab. rewrite bind_lift.
  destruct (Py.get args "index" (JInt 0)) as [e | v];
    [apply step_same, same_registry_refl | ].
  rewrite bind_self, bind_lift.
  destruct (Py.int_le 0 v) as [e | lower] eqn:Hle;
    [apply step_same, same_registry_refl | ].
  assert (Hrest : forall (k : unit -> M json),
             keeps same (k tt) ->
             within v (tab_count (daemon s)) ->
             registry_step (daemon s)
               (daemon (snd (bind (update (set_current_page_index v)) k s)))).
  { intros k Hk Hin. rewrite bind_update.
    destruct (Hk (mkSt (set_current_page_index v (daemon s)) (world s) (calls s)))
      as [H1 H2].
    simpl in H1, H2.
    apply step_switch; [exact H1 | rewrite H2; exact Hin]. }
  destruct lower.
  - rewrite bind_lift.
    destruct (Py.lt_int v (Z.of_nat (List.length (pages (daemon s))))) as [e | upper] eqn:Hlt;
      [apply step_same, same_registry_refl | ].
    destruct upper.
    + apply Hrest; [ | apply guard_within; split; assumption].
      repeat first
        [ exact same_refl | exact same_trans | exact same_call
        | solve [auto 2 with registry] | keeps_step ].
    + apply step_same, same_registry_refl.
  - rewrite bind_ret. apply step_same, same_registry_refl.
Qed.

Lemma context_method_state method s :
  snd (Automation.context_method method s) = s.
Proof.
  unfold Automation.context_method, Automation.this. exec.
  destruct (automation (daemon s)) as [a | ]; simpl; [ | reflexivity].
  destruct (context a); reflexivity.
Qed.

Lemma new_tab_step (args : json) (s : St) :
  registry_step (daemon s) (daemon (snd (Daemon.new_tab args s))).
Proof.
  unfold Daemon.new_tab.
  unfold bind at 1. pose proof (context_method_state "new_page" s) as Hctx.
  destruct (Automation.context_method "new_page" s) as [[e | []] s0]; simpl in Hctx;
    subst s0; [apply step_same, same_registry_refl | ].
  unfold bind at 1. unfold context_new_page. rewrite call_eq.
  destruct (respond ContextNewPage (world s)) as [[e | p] w]; simpl;
    [apply step_same, same_registry_refl | ].
  rewrite bind_self, bind_lift. simpl.
  destruct (Py.get args "purpose" (JStr "general")) as [e | purpose];
    [apply step_same, same_registry_refl | ].
  rewrite bind_update, bind_self, bind_update. simpl.
  match goal with
  | |- registry_step _ (daemon (snd (?m ?st))) =>
      assert (Hrest : keeps same m)
  end.
  { repeat first
      [ exact same_refl | exact same_trans | exact same_call
      | solve [auto 2 with registry] | keeps_step ]. }
  match goal with
  | |- registry_step _ (daemon (snd (?m ?st))) => destruct (Hrest st) as [H1 H2]
  end.
  simpl in H1, H2. rewrite map_app in H1. simpl in H1.
  eapply step_append; [exact H1 | reflexivity | ].
  rewrite H2, length_snoc_pred. reflexivity.
Qed.

Lemma try_ret_state {A} (m : M A) (h : exc -> A) s :
  snd (try_except m (fun e => ret (h e)) s) = snd (m s).
Proof. unfold try_except. destruct (m s) as [[e | a] s']; reflexivity. Qed.

Lemma dispatch_step (command_data : json) (s : St) :
  registry_step (daemon s) (daemon (snd (Daemon.dispatch command_data s))).
Proof.
  unfold Daemon.dispatch. rewrite bind_lift.
  destruct (Py.get command_data "type" JNull) as [e | command_type];
    [apply step_same, same_registry_refl | ].
  rewrite bind_lift.
  destruct (Py.get command_data "args" (JObj [])) as [e | args];
    [apply step_same, same_registry_refl | ].
  repeat match goal with
         | |- context [if Py.eq_str command_type ?name then _ else _] =>
             destruct (Py.eq_str command_type name)
         end;
    try apply switch_tab_step; try apply new_tab_step; apply step_same.
  - apply same_navigate.
  - apply same_click.
  - apply same_fill.
  - apply same_screenshot.
  - apply same_title.
  - apply same_wait.
  - apply same_js.
  - apply same_list_tabs.
  - apply same_current_tab.
  - apply same_stop.
  - apply same_registry_refl.
Qed.

Lemma execute_command_step (command_data : json) (s : St) :
  registry_step (daemon s) (daemon (snd (Daemon.execute_command command_data s))).
Proof.
  destruct (automation (daemon s)) as [a | ] eqn:Ha.
  - rewrite (execute_command_started _ _ Ha), try_ret_state. apply dispatch_step.
  - rewrite (execute_command_not_started _ _ Ha). apply step_same, same_registry_refl.
Qed.

Lemma same_length d d' :
  map identity (pages d') = map identity (pages d) -> tab_count d' = tab_count d.
Proof.
  intros H. unfold tab_count. rewrite <- (length_map identity (pages d')), H.
  apply length_map.
Qed.

End RegistrySteps.

Section Invariants.
Context {E : Env}.

Lemma position_invariant_map d :
  position_invariant d <->
  (forall i x, nth_error (map identity (pages d)) i = Some x -> snd (fst x) = Z.of_nat i).
Proof.
  unfold position_invariant. split.
  - intros H i x Hx. rewrite nth_error_map in Hx.
    destruct (nth_error (pages d) i) as [tab | ] eqn:Hnth; simpl in Hx; [ | discriminate].
    injection Hx as <-. simpl. apply (H i tab Hnth).
  - intros H i tab Hnth.
    apply (H i (identity tab)). apply map_nth_error. exact Hnth.
Qed.

Lemma nonempty_count d : pages d <> [] <-> (0 < tab_count d)%nat.
Proof.
  unfold tab_count. destruct (pages d); simpl; split; intros H;
    try lia; try discriminate. contradiction.
Qed.

Lemma step_index_invariant d d' :
  registry_step d d' -> index_invariant d -> index_invariant d'.
Proof.
  intros Hstep Hinv Hne. apply nonempty_count in Hne.
  destruct Hstep as [[Hmap Hcur] | Hmap Hin | tab Hmap Hidx Hcur].
  - rewrite (same_length _ _ Hmap) in *. rewrite Hcur.
    apply Hinv. apply nonempty_count. exact Hne.
  - rewrite (same_length _ _ Hmap). exact Hin.
  - rewrite Hcur. simpl.
    assert (Hlen : tab_count d' = S (tab_count d)).
    { unfold tab_count. rewrite <- (length_map identity (pages d')), Hmap.
      rewrite length_app, length_map. simpl. lia. }
    rewrite Hlen. lia.
Qed.

Lemma step_append_only d d' : registry_step d d' -> append_only d d'.
Proof.
  intros Hstep. destruct Hstep as [[Hmap Hcur] | Hmap Hin | tab Hmap Hidx Hcur].
  - exists []. rewrite app_nil_r. exact Hmap.
  - exists []. rewrite app_nil_r. exact Hmap.
  - exists [identity tab]. exact Hmap.
Qed.

Lemma step_position_invariant d d' :
  registry_step d d' -> position_invariant d -> position_invariant d'.
Proof.
  intros Hstep Hinv0. apply (proj2 (position_invariant_map d')).
  pose proof (proj1 (position_invariant_map d) Hinv0) as Hinv. clear Hinv0.
  destruct Hstep as [[Hmap Hcur] | Hmap Hin | tab Hmap Hidx Hcur]; rewrite Hmap;
    try exact Hinv.
  intros i x Hx.
  destruct (Nat.lt_ge_cases i (List.length (map identity (pages d)))) as [Hlt | Hge].
  - rewrite nth_error_app1 in Hx by exact Hlt. apply Hinv. exact Hx.
  - rewrite nth_error_app2 in Hx by exact Hge.
    rewrite length_map in *. fold (tab_count d) in *.
    destruct (i - tab_count d)%nat as [ | k] eqn:Hk; simpl in Hx.
    + injection Hx as <-. simpl. rewrite Hidx. f_equal. lia.
    + destruct k; discriminate.
Qed.

(** [__init__] leaves a daemon with its automation object, and a registry
    that is empty or holds tab 0 as the current tab. *)
Lemma init_invariants (s : St) :
  automation (daemon (snd (Daemon.init s))) <> None
  /\ running (daemon (snd (Daemon.init s))) = true
  /\ index_invariant (daemon (snd (Daemon.init s)))
  /\ position_invariant (daemon (snd (Daemon.init s))).
Proof.
  unfold Daemon.init, Daemon.start_browser, Automation.start_browser, Daemon.write_result,
    Automation.assign, Automation.this, context_new_page.
  exec.
  repeat (rewrite call_eq; simpl;
          match goal with
          | |- context [respond ?c ?w] => destruct (respond c w) as [[? | ?] ?]; simpl
          end);
    (split; [discriminate | ]); (split; [reflexivity | ]);
    (split; [intros Hne; simpl in *; first [lia | contradiction] | ]);
    intros [ | [ | i]] tab Hnth; simpl in Hnth; try discriminate;
    injection Hnth as <-; reflexivity.
Qed.

End Invariants.

Section CurrentIndex.
Context {E : Env}.

(** [switch_tab] leaves the current index alone or stores the index it was
    given. *)
Lemma switch_tab_current (args : json) (s : St) :
  current_page_index (daemon (snd (Daemon.switch_tab args s)))
  = current_page_index (daemon s)
  \/ Py.get args "index" (JInt 0)
     = inr (current_page_index (daemon (snd (Daemon.switch_tab args s)))).
Proof.
  unfold Daemon.switch_tab. rewrite bind_lift.
  destruct (Py.get args "index" (JInt 0)) as [e | v]; [left; reflexivity | ].
  rewrite bind_self, bind_lift.
  destruct (Py.int_le 0 v) as [e | lower]; [left; reflexivity | ].
  assert (Hrest : forall (k : unit -> M json),
             keeps same (k tt) ->
             current_page_index
               (daemon (snd (bind (update (set_current_page_index v)) k s))) = v).
  { intros k Hk. rewrite bind_update.
    destruct (Hk (mkSt (set_current_page_index v (daemon s)) (world s) (calls s)))
      as [_ H2].
    exact H2. }
  destruct lower.
  - rewrite bind_lift.
    destruct (Py.lt_int v (Z.of_nat (List.length (pages (daemon s))))) as [e | upper];
      [left; reflexivity | ].
    destruct upper; [ | left; reflexivity].
    right. f_equal. symmetry. apply Hrest.
    repeat first
      [ exact same_refl | exact same_trans | exact same_call
      | solve [auto 2 with registry] | keeps_step ].
  - rewrite bind_ret. left. reflexivity.
Qed.

(** [new_tab] leaves the current index alone or makes it the position of
    the tab it appends. *)
Lemma new_tab_current (args : json) (s : St) :
  current_page_index (daemon (snd (Daemon.new_tab args s)))
  = current_page_index (daemon s)
  \/ current_page_index (daemon (snd (Daemon.new_tab args s)))
     = JInt (Z.of_nat (tab_count (daemon s))).
Proof.
  assert (Hrun : forall d', d' = daemon (snd (Daemon.new_tab args s)) ->
                   current_page_index d' = current_page_index (daemon s)
                   \/ current_page_index d' = JInt (Z.of_nat (tab_count (daemon s))));
    [ | exact (Hrun _ eq_refl)].
  intros d'. unfold Daemon.new_tab.
  unfold bind at 1. pose proof (context_method_state "new_page" s) as Hctx.
  destruct (Automation.context_method "new_page" s) as [[e | []] s0]; simpl in Hctx;
    subst s0; [intros ->; left; reflexivity | ].
  unfold bind at 1. unfold context_new_page. rewrite call_eq.
  destruct (respond ContextNewPage (world s)) as [[e | p] w]; simpl;
    [intros ->; left; reflexivity | ].
  rewrite bind_self, bind_lift. simpl.
  destruct (Py.get args "purpose" (JStr "general")) as [e | purpose];
    [intros ->; left; reflexivity | ].
  rewrite bind_update, bind_self, bind_update.
  match goal with
  | |- _ = daemon (snd (?m ?st)) -> _ =>
      assert (Hrest : keeps same m);
      [ repeat first
          [ exact same_refl | exact same_trans | exact same_call
          | solve [auto 2 with registry] | keeps_step ]
      | destruct (Hrest st) as [_ H2]; intros ->; right; rewrite H2;
        cbn [daemon current_page_index set_current_page_index pages set_pages];
        unfold tab_count; f_equal; rewrite length_app; simpl; lia ]
  end.
Qed.

Lemma dispatch_current (command_data : json) (s : St) :
  let d' := daemon (snd (Daemon.dispatch command_data s)) in
  current_page_index d' = current_page_index (daemon s)
  \/ current_page_index d' = JInt (Z.of_nat (tab_count (daemon s)))
  \/ switch_index command_data = Some (current_page_index d').
Proof.
  unfold Daemon.dispatch, switch_index. rewrite bind_lift.
  destruct (Py.get command_data "type" JNull) as [e | command_type];
    [left; reflexivity | ].
  rewrite bind_lift.
  destruct (Py.get command_data "args" (JObj [])) as [e | args];
    [left; reflexivity | ].
  destruct (Py.eq_str command_type "switch_tab") eqn:Hswitch.
  - assert (Hty : command_type = JStr "switch_tab").
    { destruct command_type; try discriminate. simpl in Hswitch.
      apply String.eqb_eq in Hswitch. subst. reflexivity. }
    subst command_type. cbn [Py.eq_str String.eqb Ascii.eqb Bool.eqb]. cbv iota.
    destruct (switch_tab_current args s) as [H | H]; [left; exact H | ].
    right. right. rewrite H. reflexivity.
  - repeat match goal with
           | |- context [if Py.eq_str command_type ?name then _ else _] =>
               destruct (Py.eq_str command_type name) eqn:?
           end;
      try discriminate;
      try (destruct (new_tab_current args s) as [H | H];
           [left; exact H | right; left; exact H]);
      left.
    + apply same_navigate.
    + apply same_click.
    + apply same_fill.
    + apply same_screenshot.
    + apply same_title.
    + apply same_wait.
    + apply same_js.
    + apply same_list_tabs.
    + apply same_current_tab.
    + apply same_stop.
    + reflexivity.
Qed.

Lemma execute_command_current (command_data : json) (s : St) :
  let d' := daemon (snd (Daemon.execute_command command_data s)) in
  current_page_index d' = current_page_index (daemon s)
  \/ current_page_index d' = JInt (Z.of_nat (tab_count (daemon s)))
  \/ switch_index command_data = Some (current_page_index d').
Proof.
  destruct (automation (daemon s)) as [a | ] eqn:Ha.
  - rewrite (execute_command_started _ _ Ha), try_ret_state. apply dispatch_current.
  - rewrite (execute_command_not_started _ _ Ha). left. reflexivity.
Qed.

(** A number the range check lets in is an integer unless it is a float. *)
Lemma within_as_int (v : json) (n : nat) :
  within v n -> (forall f, v <> JFloat f) ->
  exists i, as_int v = Some i /\ 0 <= i < Z.of_nat n.
Proof.
  intros Hin Hint. destruct v as [ | b | z | f | str | l | kv]; simpl in Hin;
    try contradiction.
  - exists (Py.int_of_bool b). split; [reflexivity | exact Hin].
  - exists z. split; [reflexivity | exact Hin].
  - exfalso. exact (Hint f eq_refl).
Qed.

(** An integer inside the list denotes one of its tabs. *)
Lemma getitem_as_int (l : list Tab) (v : json) (i : Z) :
  as_int v = Some i -> 0 <= i < Z.of_nat (List.length l) ->
  exists tab, getitem l v = inr (Z.to_nat i, tab).
Proof.
  intros Hv Hi.
  destruct (getitem_valid l Hi) as [tab [Hitem _]]. exists tab.
  destruct v as [ | b | z | f | str | l' | kv]; simpl in Hv; try discriminate;
    injection Hv as <-; exact Hitem.
Qed.

(** [__init__] establishes the invariant on the current index. *)
Lemma init_current_invariant (s : St) :
  current_invariant (daemon (snd (Daemon.init s))).
Proof.
  unfold Daemon.init, Daemon.start_browser, Automation.start_browser, Daemon.write_result,
    Automation.assign, Automation.this, context_new_page.
  exec.
  repeat (rewrite call_eq; simpl;
          match goal with
          | |- context [respond ?c ?w] => destruct (respond c w) as [[? | ?] ?]; simpl
          end);
    intros Hne; simpl in *; try contradiction;
    exists 0; (split; [reflexivity | unfold tab_count; simpl; lia]).
Qed.

Lemma step_current_invariant (command_data : json) (s : St) :
  integer_index command_data ->
  current_invariant (daemon s) ->
  current_invariant (daemon (snd (Daemon.execute_command command_data s))).
Proof.
  intros Hint Hinv Hne'.
  pose proof (execute_command_step command_data s) as Hstep.
  pose proof (execute_command_current command_data s) as Hcur. cbv zeta in Hcur.
  destruct Hstep as [[Hmap Hsame] | Hmap Hin | tab Hmap Hidx Hnew].
  - rewrite (same_length _ _ Hmap), Hsame. apply Hinv.
    apply nonempty_count. rewrite <- (same_length _ _ Hmap). apply nonempty_count. exact Hne'.
  - rewrite (same_length _ _ Hmap).
    apply within_as_int; [exact Hin | ].
    intros f Hf. destruct Hcur as [H | [H | H]].
    + rewrite Hf in H.
      assert (Hne : pages (daemon s) <> []).
      { apply nonempty_count. rewrite <- (same_length _ _ Hmap). apply nonempty_count.
        exact Hne'. }
      destruct (Hinv Hne) as [i [Hi _]]. rewrite <- H in Hi. discriminate.
    + rewrite Hf in H. discriminate.
    + rewrite Hf in H. exact (Hint f H).
  - rewrite Hnew. exists (Z.of_nat (tab_count (daemon s))). split; [reflexivity | ].
    assert (Hlen : tab_count (daemon (snd (Daemon.execute_command command_data s)))
                   = S (tab_count (daemon s))).
    { unfold tab_count. rewrite <- (length_map identity (pages _)), Hmap.
      rewrite length_app, length_map. simpl. lia. }
    rewrite Hlen. lia.
Qed.

End CurrentIndex.

(** C9 (as amended): every command handed to the dispatcher keeps the tab
    list append-only (the tabs of before are still there, in order, with
    their page, index and purpose; tabs are only added at the end) and every
    tab's stored index equal to its position.  Every command that is not a
    [switch_tab] with a float index preserves the invariant on the current
    index: when the tab list is non-empty, [current_page_index] is an integer
    with [0 <= current_page_index < len(pages)], so that subscripting the
    tab list with it yields exactly one tab. *)
Theorem registry_invariant {E : Env} (command_data : json) (s : St) :
  let d := daemon s in
  let d' := daemon (snd (Daemon.execute_command command_data s)) in
  (integer_index command_data ->
   current_invariant d ->
   current_invariant d'
   /\ (pages d' <> [] ->
       exists pos tab, getitem (pages d') (current_page_index d') = inr (pos, tab)))
  /\ append_only d d'
  /\ (position_invariant d -> position_invariant d').
Proof.
  intros d d'. pose proof (execute_command_step command_data s) as Hstep.
  fold d d' in Hstep.
  split; [ | split; [apply step_append_only; exact Hstep
                    | apply step_position_invariant; exact Hstep]].
  intros Hint Hinv.
  pose proof (step_current_invariant s Hint Hinv) as Hinv'. fold d' in Hinv'.
  split; [exact Hinv' | ].
  intros Hne. destruct (Hinv' Hne) as [i [Hi Hrange]].
  destruct (getitem_as_int (pages d') _ Hi Hrange) as [tab Htab].
  exists (Z.to_nat i), tab. exact Htab.
Qed.

Lemma registry_invariant_witness :
  current_invariant
    (daemon (snd (@Daemon.execute_command scripted
                    (command "switch_tab" [("index", JInt 0)]) (two_tabs [Done]))))
  /\ position_invariant
       (daemon (snd (@Daemon.execute_command scripted
                       (command "switch_tab" [("index", JInt 0)]) (two_tabs [Done])))).
Proof.
  destruct (@registry_invariant scripted (command "switch_tab" [("index", JInt 0)])
              (two_tabs [Done])) as [H1 [_ H3]].
  split.
  - apply H1.
    + intros f. vm_compute. discriminate.
    + intros _. exists 1. split; [reflexivity | vm_compute; split; [discriminate | reflexivity]].
  - apply H3. intros [ | [ | [ | i]]] tab Hnth; vm_compute in Hnth; try discriminate;
      injection Hnth as <-; reflexivity.
Defined.

(** C9, counterexample: on the started daemon (one tab, index 0 current),
    [switch_tab] with index 0.5.  The range check lets 0.5 in
    ([0 <= 0.5 < 1]) and the index is stored before the tab list is
    subscripted with it: afterwards the current index is no integer and
    denotes no tab. *)
Lemma fractional_index_breaks_invariant :
  current_invariant (daemon (started []))
  /\ current_page_index
       (daemon (snd (@Daemon.execute_command scripted
                       (command "switch_tab" [("index", JFloat (Finite (1 # 2)))])
                       (started []))))
     = JFloat (Finite (1 # 2))
  /\ ~ current_invariant
         (daemon (snd (@Daemon.execute_command scripted
                         (command "switch_tab" [("index", JFloat (Finite (1 # 2)))])
                         (started []))))
  /\ getitem
       (pages (daemon (snd (@Daemon.execute_command scripted
                              (command "switch_tab" [("index", JFloat (Finite (1 # 2)))])
                              (started [])))))
       (JFloat (Finite (1 # 2)))
     = inl "list indices must be integers or slices, not float".
Proof.
  split; [ | split; [ | split]].
  - intros _. exists 0. split; [reflexivity | vm_compute; split; [discriminate | reflexivity]].
  - reflexivity.
  - intros H. destruct H as [i [Hi _]]; [vm_compute; discriminate | ].
    vm_compute in Hi. discriminate.
  - reflexivity.
Qed.

(** ** The log of calls only grows *)

Create HintDb log.
Create HintDb constructed.

Section Log.
Context {E : Env}.

Lemma grows_refl s : grows s s.
Proof. exists []. rewrite app_nil_r. reflexivity. Qed.

Lemma grows_trans s1 s2 s3 : grows s1 s2 -> grows s2 s3 -> grows s1 s3.
Proof.
  intros [l1 H1] [l2 H2]. exists (l1 ++ l2)%list. rewrite H2, H1, app_assoc. reflexivity.
Qed.

Lemma grows_call s c w : grows s (mkSt (daemon s) w (calls s ++ [c])%list).
Proof. exists [c]. reflexivity. Qed.

Lemma grows_update f : keeps grows (update f).
Proof.
  apply keeps_update. intros s. exists []. simpl. rewrite app_nil_r. reflexivity.
Qed.

Ltac grows_auto :=
  repeat first
    [ exact grows_refl | exact grows_trans | exact grows_call
    | apply grows_update
    | solve [auto 2 with log]
    | keeps_step ].

Lemma grows_list_tabs_loop tabs : forall i, keeps grows (Daemon.list_tabs_loop i tabs).
Proof.
  induction tabs as [ | tab rest IH]; intros i; simpl.
  - grows_auto.
  - unfold Daemon.list_tabs_entry, Daemon.refresh, Daemon.tab_page_method,
      Daemon.mutate_tab.
    grows_auto.
Qed.
Hint Resolve grows_list_tabs_loop : log.

Lemma grows_execute_command command_data : keeps grows (Daemon.execute_command command_data).
Proof.
  unfold Daemon.execute_command, Daemon.dispatch.
  grows_auto;
    unfold Daemon.navigate, Daemon.click, Daemon.fill, Daemon.screenshot, Daemon.title,
      Daemon.wait, Daemon.js, Daemon.new_tab, Daemon.switch_tab, Daemon.list_tabs,
      Daemon.current_tab, Daemon.stop, Daemon.refresh, Daemon.tab_page_method,
      Daemon.mutate_tab, Automation.assign;
    grows_auto.
Qed.

Lemma grows_write_result result : keeps grows (Daemon.write_result result).
Proof. unfold Daemon.write_result. grows_auto. Qed.

Lemma grows_close_browser : keeps grows Automation.close_browser.
Proof. unfold Automation.close_browser. grows_auto. Qed.

Lemma try_except_bind {A B} (m : M A) (k : A -> M B) h s :
  try_except (bind m k) h s
  = match m s with
    | (inl e, s') => h e s'
    | (inr a, s') => try_except (k a) h s'
    end.
Proof. unfold try_except, bind. destruct (m s) as [[e | a] s']; reflexivity. Qed.

Lemma grows_after {A B} (m : M A) (k : A -> M B) s pre :
  calls (snd (m s)) = pre ->
  (forall a, keeps grows (k a)) ->
  exists l, calls (snd (bind m k s)) = (pre ++ l)%list.
Proof.
  intros Hpre Hk. unfold bind. destruct (m s) as [[e | a] s']; simpl in *.
  - exists []. rewrite app_nil_r. exact Hpre.
  - destruct (Hk a s') as [l Hl]. exists l. rewrite Hl, Hpre. reflexivity.
Qed.

(** A pass through the loop body starts by looking for the command file. *)
Lemma poll_first (h : exc -> M bool) (s : St) :
  (forall e, keeps grows (h e)) ->
  exists rest, calls (snd (try_except Daemon.poll h s))
               = (calls s ++ PathExists (command_file (daemon s)) :: rest)%list.
Proof.
  intros Hh. unfold Daemon.poll. rewrite try_except_bind. simpl.
  rewrite try_except_bind. unfold path_exists. rewrite call_eq.
  destruct (respond (PathExists (command_file (daemon s))) (world s)) as [[e | found] w];
    simpl.
  - destruct (Hh e (mkSt (daemon s) w (calls s ++ [PathExists (command_file (daemon s))])))
      as [l Hl].
    exists l. rewrite Hl. simpl. rewrite <- app_assoc. reflexivity.
  - match goal with
    | |- context [try_except ?m h ?st] =>
        assert (Hm : keeps grows (try_except m h))
    end.
    { apply keeps_try_except;
        [exact grows_trans | | exact Hh].
      destruct found;
        repeat first
          [ exact grows_refl | exact grows_trans | exact grows_call
          | apply grows_update | apply grows_execute_command | apply grows_write_result
          | keeps_step ]. }
    match goal with
    | |- context [try_except ?m h ?st] => destruct (Hm st) as [l Hl]
    end.
    exists l. rewrite Hl. simpl. rewrite <- app_assoc. reflexivity.
Qed.

Lemma grows_poll_handled :
  keeps grows (try_except Daemon.poll (fun _ => call (Sleep 1000) ;; ret false)).
Proof.
  intros s.
  destruct (@poll_first (fun _ => call (Sleep 1000) ;; ret false) s) as [rest H].
  - intros e.
    repeat first [exact grows_refl | exact grows_trans | exact grows_call | keeps_step].
  - eexists. exact H.
Qed.

Lemma grows_loop fuel : keeps grows (Daemon.loop fuel).
Proof.
  induction fuel as [ | fuel IH]; simpl.
  - apply keeps_ret. exact grows_refl.
  - apply keeps_bind; [exact grows_trans | apply keeps_self; exact grows_refl | ].
    intros d. destruct (running d); [ | apply keeps_ret; exact grows_refl].
    apply keeps_bind; [exact grows_trans | exact grows_poll_handled | ].
    intros [ | ]; [apply keeps_ret; exact grows_refl | exact IH].
Qed.

(** While [running] is set, [run] begins by polling for the command file. *)
Lemma run_polls (fuel : nat) (s : St) :
  running (daemon s) = true ->
  exists rest, calls (snd (Daemon.run (S fuel) s))
               = (calls s ++ PathExists (command_file (daemon s)) :: rest)%list.
Proof.
  intros Hrun.
  destruct (@poll_first (fun _ => call (Sleep 1000) ;; ret false) s) as [rest1 H1].
  { intros e.
    repeat first [exact grows_refl | exact grows_trans | exact grows_call | keeps_step]. }
  assert (Hloop : exists l, calls (snd (Daemon.loop (S fuel) s))
                            = ((calls s ++ PathExists (command_file (daemon s)) :: rest1)
                                 ++ l)%list).
  { simpl. rewrite bind_self, Hrun.
    apply grows_after; [exact H1 | ].
    intros [ | ]; [apply keeps_ret; exact grows_refl | apply grows_loop]. }
  destruct Hloop as [l2 H2].
  destruct (@grows_after _ _ (Daemon.loop (S fuel))
              (fun ended : bool =>
                 if ended
                 then d <- self ;;
                      match automation d with
                      | Some _ => Automation.close_browser
                      | None => ret tt
                      end ;;
                      ret true
                 else ret false) s _ H2) as [l3 H3].
  { intros [ | ];
      repeat first
        [ exact grows_refl | exact grows_trans | exact grows_call
        | apply grows_close_browser | keeps_step ]. }
  exists ((rest1 ++ l2) ++ l3)%list.
  unfold Daemon.run. rewrite H3.
  rewrite <- !app_assoc. reflexivity.
Qed.

End Log.

(** ** The automation object stays *)

Section Constructed.
Context {E : Env}.

Lemma constructed_refl s : constructed s s.
Proof. intros H. exact H. Qed.

Lemma constructed_trans s1 s2 s3 : constructed s1 s2 -> constructed s2 s3 -> constructed s1 s3.
Proof. intros H1 H2 H. apply H2, H1, H. Qed.

Lemma constructed_call s c w : constructed s (mkSt (daemon s) w (calls s ++ [c])%list).
Proof. intros H. exact H. Qed.

Ltac constructed_update :=
  apply keeps_update;
  let s := fresh "s" in
  let H := fresh "H" in
  intros s H; simpl in *;
  first [ exact H
        | destruct (automation (daemon s)); simpl; [discriminate | contradiction] ].

Ltac constructed_auto :=
  repeat first
    [ exact constructed_refl | exact constructed_trans | exact constructed_call
    | constructed_update
    | solve [auto 2 with constructed]
    | keeps_step ].

Lemma constructed_list_tabs_loop tabs :
  forall i, keeps constructed (Daemon.list_tabs_loop i tabs).
Proof.
  induction tabs as [ | tab rest IH]; intros i; simpl.
  - constructed_auto.
  - unfold Daemon.list_tabs_entry, Daemon.refresh, Daemon.tab_page_method,
      Daemon.mutate_tab.
    constructed_auto.
Qed.
Hint Resolve constructed_list_tabs_loop : constructed.

(** No command takes the automation object away. *)
Lemma execute_command_constructed command_data :
  keeps constructed (Daemon.execute_command command_data).
Proof.
  unfold Daemon.execute_command, Daemon.dispatch.
  constructed_auto;
    unfold Daemon.navigate, Daemon.click, Daemon.fill, Daemon.screenshot, Daemon.title,
      Daemon.wait, Daemon.js, Daemon.new_tab, Daemon.switch_tab, Daemon.list_tabs,
      Daemon.current_tab, Daemon.stop, Daemon.refresh, Daemon.tab_page_method,
      Daemon.mutate_tab, Automation.assign;
    constructed_auto.
Qed.

End Constructed.

Section Reachable.
Context {E : Env}.

(** In every state the process can be in, the daemon has its automation
    object and the registry invariants hold. *)
Lemma reachable_invariants (s : St) :
  reachable s ->
  automation (daemon s) <> None
  /\ index_invariant (daemon s)
  /\ position_invariant (daemon s).
Proof.
  induction 1 as [s | command_data s Hs [Ha [Hi Hp]] | s w l Hs IH].
  - destruct (init_invariants s) as [Ha [_ [Hi Hp]]]. repeat split; assumption.
  - pose proof (execute_command_step command_data s) as Hstep.
    split; [exact (execute_command_constructed command_data s Ha) | ].
    split.
    + exact (step_index_invariant Hstep Hi).
    + exact (step_position_invariant Hstep Hp).
  - exact IH.
Qed.

End Reachable.

Section Startup.
Context {E : Env}.

Lemma init_files (s : St) :
  command_file (daemon (snd (Daemon.init s))) = "browser_command.json"
  /\ result_file (daemon (snd (Daemon.init s))) = "browser_result.json".
Proof.
  unfold Daemon.init, Daemon.start_browser, Automation.start_browser, Daemon.write_result,
    Automation.assign, Automation.this, context_new_page.
  exec.
  repeat (rewrite call_eq; simpl;
          match goal with
          | |- context [respond ?c ?w] => destruct (respond c w) as [[? | ?] ?]; simpl
          end);
    split; reflexivity.
Qed.

(** When the browser cannot be acquired, [__init__] registers no tab and
    its last act is to write the error Result. *)
Lemma init_failure (w : World) (e : exc) :
  fst (Automation.start_browser (constructing w)) = inl e ->
  pages (daemon (snd (Daemon.init (boot w)))) = []
  /\ exists l, calls (snd (Daemon.init (boot w)))
               = (l ++ [WriteJson "browser_result.json" (Daemon.error e)])%list.
Proof.
  unfold Daemon.init, Daemon.start_browser, Automation.start_browser, Daemon.write_result,
    Automation.assign, Automation.this, context_new_page, constructing, boot.
  intros H.
  cbv beta iota zeta delta [bind ret lift self update raise try_except] in H.
  simpl in H. exec.
  repeat (rewrite call_eq in H; simpl in H; rewrite call_eq; simpl;
          match goal with
          | |- context [respond ?c ?w] =>
              destruct (respond c w) as [[? | ?] ?]; simpl in H; simpl
          end;
          try discriminate);
    try (injection H as <-);
    try (rewrite call_eq; simpl;
         match goal with
         | |- context [respond ?c ?w] => destruct (respond c w) as [[? | ?] ?]; simpl
         end);
    (split; [reflexivity | ]);
    match goal with
    | |- exists l, ?full = (l ++ [_])%list => exists (removelast full); reflexivity
    end.
Qed.

End Startup.

(** C2 (as amended): the daemon enters the poll/dispatch/respond loop after
    the STARTING phase whether or not it succeeded.  [__init__] always leaves
    [running] set, so [run] begins by polling for the command file; and if
    acquiring the browser fails during startup, the daemon registers no tab
    and records the error (its last act is to write the error Result) before
    it polls. *)
Theorem startup_failure_still_polls {E : Env} (w : World) (fuel : nat) :
  let s1 := snd (Daemon.init (boot w)) in
  running (daemon s1) = true
  /\ (exists rest, calls (snd (Daemon.run (S fuel) s1))
                   = (calls s1 ++ PathExists "browser_command.json" :: rest)%list)
  /\ (forall e, fst (Automation.start_browser (constructing w)) = inl e ->
        pages (daemon s1) = []
        /\ exists l, calls s1 = (l ++ [WriteJson "browser_result.json" (Daemon.error e)])%list).
Proof.
  intros s1. subst s1.
  destruct (init_invariants (boot w)) as [_ [Hrun _]].
  destruct (init_files (boot w)) as [Hcmd _].
  split; [exact Hrun | ]. split.
  - destruct (run_polls fuel _ Hrun) as [rest H]. rewrite Hcmd in H.
    exists rest. exact H.
  - intros e He. apply init_failure. exact He.
Qed.

Lemma startup_failure_still_polls_witness :
  pages (daemon (snd (@Daemon.init scripted (@boot scripted no_browser)))) = []
  /\ exists l, calls (snd (@Daemon.init scripted (@boot scripted no_browser)))
               = (l ++ [WriteJson "browser_result.json"
                          (Daemon.error "Executable doesn't exist")])%list.
Proof.
  destruct (@startup_failure_still_polls scripted no_browser 0) as [_ [_ H]].
  apply H. reflexivity.
Defined.

(** C2, counterexample: the launch of the browser fails during startup; the
    daemon writes the error Result and then, instead of stopping, polls the
    command file, reads the command left there, dispatches it and answers. *)
Lemma failed_startup_is_polled :
  calls (snd (@Daemon.main scripted 1 (@boot scripted no_browser)))
  = [SyncPlaywrightStart; ChromiumLaunch false;
     WriteJson "browser_result.json" (Daemon.error "Executable doesn't exist");
     PathExists "browser_command.json";
     ReadJson "browser_command.json";
     WriteJson "browser_result.json" (Daemon.error "No tabs available");
     Remove "browser_command.json";
     Sleep 100]
  /\ running (daemon (snd (@Daemon.main scripted 1 (@boot scripted no_browser)))) = true.
Proof. split; reflexivity. Qed.

(** ** What the dispatcher answers *)

Section Answers.
Context {E : Env}.

Lemma answers_ret {A} (P : A -> Prop) a : P a -> answers P (ret a).
Proof. intros H s a' s' Heq. injection Heq as <- _. exact H. Qed.

Lemma answers_raise {A} (P : A -> Prop) e : answers P (raise e).
Proof. intros s a s' Heq. discriminate. Qed.

Lemma answers_bind {A B} (P : B -> Prop) (m : M A) (k : A -> M B) :
  (forall a, answers P (k a)) -> answers P (bind m k).
Proof.
  intros Hk s b s' Heq. unfold bind in Heq.
  destruct (m s) as [[e | a] s1]; [discriminate | ].
  exact (Hk a s1 b s' Heq).
Qed.

Lemma dispatch_answers command_data : answers is_result (Daemon.dispatch command_data).
Proof.
  unfold Daemon.dispatch.
  repeat first
    [ apply answers_ret; first [left; reflexivity | right; reflexivity]
    | apply answers_raise
    | apply answers_bind; intro
    | match goal with
      | |- answers _ (if ?b then _ else _) => destruct b
      | |- answers _ (match ?x with _ => _ end) => destruct x
      | |- answers _ (let (_, _) := ?x in _) => destruct x
      end ].
Qed.

(** No exception leaves [execute_command], and what it returns is a Result. *)
Lemma execute_command_contained command_data s :
  exists r, fst (Daemon.execute_command command_data s) = inr r /\ is_result r.
Proof.
  destruct (automation (daemon s)) as [a | ] eqn:Ha.
  - rewrite (execute_command_started _ _ Ha). unfold try_except.
    destruct (Daemon.dispatch command_data s) as [[e | r] s'] eqn:Hrun.
    + exists (Daemon.error e). split; [reflexivity | right; reflexivity].
    + exists r. split; [reflexivity | ]. eapply dispatch_answers. exact Hrun.
  - rewrite (execute_command_not_started _ _ Ha).
    eexists. split; [reflexivity | right; reflexivity].
Qed.

Lemma execute_command_converts command_data s e :
  automation (daemon s) <> None ->
  fst (Daemon.dispatch command_data s) = inl e ->
  fst (Daemon.execute_command command_data s) = inr (Daemon.error e).
Proof.
  intros Ha Hrun. destruct (automation (daemon s)) as [a | ] eqn:Hauto; [ | contradiction].
  rewrite (execute_command_started _ _ Hauto). unfold try_except.
  destruct (Daemon.dispatch command_data s) as [[e' | r] s']; simpl in *.
  - injection Hrun as <-. reflexivity.
  - discriminate.
Qed.

Lemma get_argument kv key default :
  Py.get (JObj kv) key default = inr (argument kv key default).
Proof. reflexivity. Qed.

End Answers.

(** Run a handler whose page call raises. *)
Ltac wrapped Ha Hp Hcall :=
  exec; repeat (first [rewrite Ha | rewrite Hp]; exec);
  rewrite call_eq, Hcall; exec; repeat (first [rewrite Ha | rewrite Hp]; exec);
  reflexivity.

Section Wrapped.
Context {E : Env}.
Variables (args : list (string * json)) (s : St) (a : BrowserAutomation) (p : handle).
Hypothesis Ha : automation (daemon s) = Some a.
Hypothesis Hp : page a = Some p.

Local Arguments Daemon.normalize_url : simpl never.

Lemma title_raises e w :
  respond (PageTitle p) (world s) = (inl e, w) ->
  fst (Daemon.execute_command (command "title" args) s) = inr (Daemon.error e).
Proof.
  intros Hcall. rewrite (execute_command_started _ _ Ha), dispatch_title.
  unfold Daemon.title, Automation.page_method, Automation.this, page_title.
  wrapped Ha Hp Hcall.
Qed.

Lemma navigate_absorbed u target e w :
  argument args "url" JNull = JStr u ->
  Daemon.normalize_url (JStr u) = inr target ->
  respond (PageGoto p target (Some "networkidle")) (world s) = (inl e, w) ->
  fst (Daemon.execute_command (command "navigate" args) s)
  = inr (Daemon.success ("Navigated to " ++ target) (failed e)).
Proof.
  intros Hu Htarget Hcall. rewrite (execute_command_started _ _ Ha), dispatch_navigate.
  unfold Daemon.navigate. rewrite get_argument.
  unfold Automation.navigate_to, Automation.failure, Automation.page_method,
    Automation.this, page_title.
  exec. rewrite Hu, Htarget. wrapped Ha Hp Hcall.
Qed.

Lemma click_absorbed e w :
  respond (PageClick p (argument args "selector" JNull)) (world s) = (inl e, w) ->
  fst (Daemon.execute_command (command "click" args) s)
  = inr (Daemon.success ("Clicked " ++ py_str (argument args "selector" JNull)) (failed e)).
Proof.
  intros Hcall. rewrite (execute_command_started _ _ Ha).
  change (Daemon.dispatch (command "click" args)) with (Daemon.click (JObj args)).
  unfold Daemon.click. rewrite get_argument.
  unfold Automation.click_element, Automation.failure, Automation.page_method,
    Automation.this.
  wrapped Ha Hp Hcall.
Qed.

Lemma fill_absorbed e w :
  respond (PageFill p (argument args "selector" JNull) (argument args "text" JNull))
    (world s) = (inl e, w) ->
  fst (Daemon.execute_command (command "fill" args) s)
  = inr (Daemon.success
           ("Filled " ++ py_str (argument args "selector" JNull) ++ " with '"
              ++ py_str (argument args "text" JNull) ++ "'")
           (failed e)).
Proof.
  intros Hcall. rewrite (execute_command_started _ _ Ha).
  change (Daemon.dispatch (command "fill" args)) with (Daemon.fill (JObj args)).
  unfold Daemon.fill. rewrite !get_argument.
  unfold Automation.fill_form, Automation.failure, Automation.page_method,
    Automation.this.
  wrapped Ha Hp Hcall.
Qed.

Lemma screenshot_absorbed e w :
  respond (PageScreenshot p (argument args "filename" (JStr "screenshot.png")) true)
    (world s) = (inl e, w) ->
  fst (Daemon.execute_command (command "screenshot" args) s)
  = inr (Daemon.success
           ("Screenshot saved as "
              ++ py_str (argument args "filename" (JStr "screenshot.png")))
           (failed e)).
Proof.
  intros Hcall. rewrite (execute_command_started _ _ Ha).
  change (Daemon.dispatch (command "screenshot" args)) with (Daemon.screenshot (JObj args)).
  unfold Daemon.screenshot. rewrite get_argument.
  unfold Automation.take_screenshot, Automation.failure, Automation.page_method,
    Automation.this.
  wrapped Ha Hp Hcall.
Qed.

Lemma wait_absorbed e w :
  respond (PageWaitForSelector p (argument args "selector" JNull) 30000)
    (world s) = (inl e, w) ->
  fst (Daemon.execute_command (command "wait" args) s)
  = inr (Daemon.success ("Waited for " ++ py_str (argument args "selector" JNull))
           (failed e)).
Proof.
  intros Hcall. rewrite (execute_command_started _ _ Ha).
  change (Daemon.dispatch (command "wait" args)) with (Daemon.wait (JObj args)).
  unfold Daemon.wait. rewrite get_argument.
  unfold Automation.wait_for_element, Automation.failure, Automation.page_method,
    Automation.this.
  wrapped Ha Hp Hcall.
Qed.

Lemma js_absorbed e w :
  respond (PageEvaluate p (argument args "script" JNull)) (world s) = (inl e, w) ->
  fst (Daemon.execute_command (command "js" args) s)
  = inr (Daemon.success "JavaScript executed" (failed e)).
Proof.
  intros Hcall. rewrite (execute_command_started _ _ Ha).
  change (Daemon.dispatch (command "js" args)) with (Daemon.js (JObj args)).
  unfold Daemon.js. rewrite get_argument.
  unfold Automation.execute_javascript, Automation.failure, Automation.page_method,
    Automation.this, page_evaluate.
  wrapped Ha Hp Hcall.
Qed.

End Wrapped.

(** C1 (as amended): no exception leaves [execute_command]: for every command
    and every state it returns a Result, with status "success" or "error".
    Whatever raises inside the dispatcher's [try] block (the [title] call, for
    one) becomes a Result with status "error" carrying the failure's message.
    But a failing navigate, click, fill, screenshot, wait or js call does not
    raise there: the [BrowserAutomation] method absorbs it, and the dispatcher
    answers with status "success" and the data
    [{"success": false, "error": <the failure's message>}]. *)
Theorem dispatch_failures {E : Env} :
  (forall command_data s,
     exists r, fst (Daemon.execute_command command_data s) = inr r /\ is_result r)
  /\ (forall command_data s e,
        automation (daemon s) <> None ->
        fst (Daemon.dispatch command_data s) = inl e ->
        fst (Daemon.execute_command command_data s) = inr (Daemon.error e))
  /\ (forall args s a p,
        automation (daemon s) = Some a ->
        page a = Some p ->
        (forall e w,
           respond (PageTitle p) (world s) = (inl e, w) ->
           fst (Daemon.execute_command (command "title" args) s) = inr (Daemon.error e))
        /\ (forall u target e w,
              argument args "url" JNull = JStr u ->
              Daemon.normalize_url (JStr u) = inr target ->
              respond (PageGoto p target (Some "networkidle")) (world s) = (inl e, w) ->
              fst (Daemon.execute_command (command "navigate" args) s)
              = inr (Daemon.success ("Navigated to " ++ target) (failed e)))
        /\ (forall e w,
              respond (PageClick p (argument args "selector" JNull)) (world s) = (inl e, w) ->
              fst (Daemon.execute_command (command "click" args) s)
              = inr (Daemon.success ("Clicked " ++ py_str (argument args "selector" JNull))
                       (failed e)))
        /\ (forall e w,
              respond (PageFill p (argument args "selector" JNull) (argument args "text" JNull))
                (world s) = (inl e, w) ->
              fst (Daemon.execute_command (command "fill" args) s)
              = inr (Daemon.success
                       ("Filled " ++ py_str (argument args "selector" JNull) ++ " with '"
                          ++ py_str (argument args "text" JNull) ++ "'")
                       (failed e)))
        /\ (forall e w,
              respond (PageScreenshot p (argument args "filename" (JStr "screenshot.png")) true)
                (world s) = (inl e, w) ->
              fst (Daemon.execute_command (command "screenshot" args) s)
              = inr (Daemon.success
                       ("Screenshot saved as "
                          ++ py_str (argument args "filename" (JStr "screenshot.png")))
                       (failed e)))
        /\ (forall e w,
              respond (PageWaitForSelector p (argument args "selector" JNull) 30000)
                (world s) = (inl e, w) ->
              fst (Daemon.execute_command (command "wait" args) s)
              = inr (Daemon.success ("Waited for " ++ py_str (argument args "selector" JNull))
                       (failed e)))
        /\ (forall e w,
              respond (PageEvaluate p (argument args "script" JNull)) (world s) = (inl e, w) ->
              fst (Daemon.execute_command (command "js" args) s)
              = inr (Daemon.success "JavaScript executed" (failed e)))).
Proof.
  split; [exact execute_command_contained | ].
  split; [exact execute_command_converts | ].
  intros args s a p Ha Hp.
  split; [intros e w; apply (title_raises args s Ha Hp) | ].
  split; [intros u target e w; apply (navigate_absorbed args s Ha Hp) | ].
  split; [intros e w; apply (click_absorbed args s Ha Hp) | ].
  split; [intros e w; apply (fill_absorbed args s Ha Hp) | ].
  split; [intros e w; apply (screenshot_absorbed args s Ha Hp) | ].
  split; [intros e w; apply (wait_absorbed args s Ha Hp) | ].
  intros e w; apply (js_absorbed args s Ha Hp).
Qed.

Lemma dispatch_failures_witness :
  fst (@Daemon.execute_command scripted (command "title" [])
         (started [Raises "Target page, context or browser has been closed"]))
  = inr (Daemon.error "Target page, context or browser has been closed").
Proof.
  destruct (@dispatch_failures scripted) as [_ [_ H]].
  destruct (H [] (started [Raises "Target page, context or browser has been closed"])
              (mkAutomation false true true true (Some 7%nat)) 7%nat eq_refl eq_refl)
    as [Htitle _].
  apply (Htitle "Target page, context or browser has been closed" []). reflexivity.
Defined.

(** C1, counterexample: [navigate] to a host that does not resolve.  The
    [goto] call fails, yet the Result has status "success" (not "error"); the
    failure's message travels inside [data]. *)
Lemma navigate_failure_reports_success :
  fst (@Daemon.execute_command scripted (command "navigate" [("url", JStr "no.such.host")])
         (started [Raises "net::ERR_NAME_NOT_RESOLVED"]))
  = inr (JObj [("status", JStr "success");
               ("message", JStr "Navigated to https://no.such.host");
               ("data", JObj [("success", JBool false);
                              ("error", JStr "net::ERR_NAME_NOT_RESOLVED")])])
  /\ Some (JStr "success") <> Some (JStr "error").
Proof. split; [reflexivity | discriminate]. Qed.

Lemma list_tabs_total_witness :
  exists infos,
    fst (@Daemon.execute_command scripted (command "list_tabs" [])
           (two_tabs [Raises "Target page, context or browser has been closed";
                      Text "Bing"; Text "https://www.bing.com/"]))
    = inr (Daemon.success
             ("Found " ++ Py.str_of_Z (Z.of_nat (List.length infos)) ++ " tabs")
             (JObj [("tabs", JArr infos); ("current_tab", JInt 1)]))
    /\ nth_error infos 0
       = Some (JObj [("index", JInt 0);
                     ("title", JStr "Closed Tab");
                     ("url", JStr "about:blank");
                     ("purpose", JStr "general");
                     ("active", JBool false)]).
Proof.
  destruct (@list_tabs_total scripted []
              (two_tabs [Raises "Target page, context or browser has been closed";
                         Text "Bing"; Text "https://www.bing.com/"]))
    as [infos [H1 [_ H3]]].
  - simpl. discriminate.
  - exists infos. split; [exact H1 | ].
    apply (H3 0%nat (mkTab (Some 7%nat) "New Tab" "about:blank" 0 None)
              "Target page, context or browser has been closed"); reflexivity.
Defined.

(** * Further properties of the dispatcher *)

Section Unknown.
Context {E : Env}.

Lemma untouched_refl s : untouched s s.
Proof. reflexivity. Qed.

Lemma untouched_trans s1 s2 s3 : untouched s1 s2 -> untouched s2 s3 -> untouched s1 s3.
Proof. unfold untouched. intros H1 H2. congruence. Qed.

Lemma untouched_call s c w : untouched s (mkSt (daemon s) w (calls s ++ [c])%list).
Proof. reflexivity. Qed.

Lemma dispatch_unknown (command_data ty : json) (s : St) :
  Py.get command_data "type" JNull = inr ty ->
  (forall name, In name known_commands -> Py.eq_str ty name = false) ->
  Daemon.dispatch command_data s
  = (inr (Daemon.error ("Unknown command: " ++ py_str ty)), s).
Proof.
  intros Hty Hnot. unfold Daemon.dispatch. rewrite bind_lift, Hty, bind_lift.
  destruct command_data as [ | b | z | f | str | l | kv]; try discriminate.
  simpl Py.get. cbv iota beta.
  repeat match goal with
         | |- context [Py.eq_str ty ?name] =>
             rewrite (Hnot name) by (simpl; tauto)
         end.
  reflexivity.
Qed.

End Unknown.

(** X1: a command whose type is none of the twelve known ones (a missing
    type included, which reads as [None]) is answered with the error Result
    "Unknown command: <type>", and nothing happens: no call is made and the
    state, registry included, is unchanged. *)
Theorem unknown_command_rejected {E : Env} (command_data ty : json) (s : St) :
  automation (daemon s) <> None ->
  Py.get command_data "type" JNull = inr ty ->
  (forall name, In name known_commands -> Py.eq_str ty name = false) ->
  Daemon.execute_command command_data s
  = (inr (Daemon.error ("Unknown command: " ++ py_str ty)), s).
Proof.
  intros Ha Hty Hnot.
  destruct (automation (daemon s)) as [a | ] eqn:Hauto; [clear Ha | contradiction].
  rewrite (execute_command_started _ _ Hauto).
  erewrite try_except_inr by (apply dispatch_unknown; eassumption).
  reflexivity.
Qed.

Lemma unknown_command_rejected_witness :
  @Daemon.execute_command scripted (JObj [("args", JObj [])]) (started [])
  = (inr (Daemon.error "Unknown command: None"), started []).
Proof.
  apply (@unknown_command_rejected scripted (JObj [("args", JObj [])]) JNull (started [])).
  - vm_compute. discriminate.
  - reflexivity.
  - intros name _. reflexivity.
Defined.

Section Untouched.
Context {E : Env}.

Ltac untouched_auto :=
  repeat first
    [ exact untouched_refl | exact untouched_trans | exact untouched_call | keeps_step ].

Lemma untouched_navigate args : keeps untouched (Daemon.navigate args).
Proof.
  unfold Daemon.navigate, Automation.navigate_to, Automation.failure,
    Automation.page_method, Automation.this.
  untouched_auto.
Qed.

Lemma untouched_click args : keeps untouched (Daemon.click args).
Proof.
  unfold Daemon.click, Automation.click_element, Automation.failure,
    Automation.page_method, Automation.this.
  untouched_auto.
Qed.

Lemma untouched_fill args : keeps untouched (Daemon.fill args).
Proof.
  unfold Daemon.fill, Automation.fill_form, Automation.failure,
    Automation.page_method, Automation.this.
  untouched_auto.
Qed.

Lemma untouched_screenshot args : keeps untouched (Daemon.screenshot args).
Proof.
  unfold Daemon.screenshot, Automation.take_screenshot, Automation.failure,
    Automation.page_method, Automation.this.
  untouched_auto.
Qed.

Lemma untouched_title : keeps untouched Daemon.title.
Proof.
  unfold Daemon.title, Automation.page_method, Automation.this.
  untouched_auto.
Qed.

Lemma untouched_wait args : keeps untouched (Daemon.wait args).
Proof.
  unfold Daemon.wait, Automation.wait_for_element, Automation.failure,
    Automation.page_method, Automation.this.
  untouched_auto.
Qed.

Lemma untouched_js args : keeps untouched (Daemon.js args).
Proof.
  unfold Daemon.js, Automation.execute_javascript, Automation.failure,
    Automation.page_method, Automation.this.
  untouched_auto.
Qed.

Lemma untouched_dispatch (command_data ty : json) (s : St) :
  Py.get command_data "type" JNull = inr ty ->
  (forall name, In name stateful_commands -> Py.eq_str ty name = false) ->
  untouched s (snd (Daemon.dispatch command_data s)).
Proof.
  intros Hty Hnot. unfold Daemon.dispatch. rewrite bind_lift, Hty, bind_lift.
  destruct (Py.get command_data "args" (JObj [])) as [e | args]; [reflexivity | ].
  rewrite (Hnot "new_tab"), (Hnot "switch_tab"), (Hnot "list_tabs"),
    (Hnot "current_tab"), (Hnot "stop") by (simpl; tauto).
  repeat match goal with
         | |- context [if Py.eq_str ty ?name then _ else _] =>
             destruct (Py.eq_str ty name)
         end.
  - apply untouched_navigate.
  - apply untouched_click.
  - apply untouched_fill.
  - apply untouched_screenshot.
  - apply untouched_title.
  - apply untouched_wait.
  - apply untouched_js.
  - reflexivity.
Qed.

End Untouched.

(** X2: only [new_tab], [switch_tab], [list_tabs], [current_tab] and [stop]
    ever change the daemon object.  Any other command ([navigate], [click],
    [fill], [screenshot], [title], [wait], [js], or an unknown one) leaves
    the tab registry with its cached titles and urls, the current index, the
    automation page and the [running] flag exactly as they were, whether the
    command succeeds or fails. *)
Theorem other_commands_keep_daemon {E : Env} (command_data ty : json) (s : St) :
  Py.get command_data "type" JNull = inr ty ->
  (forall name, In name stateful_commands -> Py.eq_str ty name = false) ->
  daemon (snd (Daemon.execute_command command_data s)) = daemon s.
Proof.
  intros Hty Hnot.
  destruct (automation (daemon s)) as [a | ] eqn:Ha.
  - rewrite (execute_command_started _ _ Ha), try_ret_state.
    exact (untouched_dispatch command_data s Hty Hnot).
  - rewrite (execute_command_not_started _ _ Ha). reflexivity.
Qed.

Lemma other_commands_keep_daemon_witness :
  daemon (snd (@Daemon.execute_command scripted
                 (command "navigate" [("url", JStr "example.com")])
                 (two_tabs [Done; Text "Example Domain"])))
  = daemon (two_tabs [Done; Text "Example Domain"]).
Proof.
  apply (@other_commands_keep_daemon scripted
           (command "navigate" [("url", JStr "example.com")]) (JStr "navigate")).
  - reflexivity.
  - intros name Hin. simpl in Hin.
    repeat (destruct Hin as [<- | Hin]; [reflexivity | ]). contradiction.
Defined.

(** * Further properties of [BrowserAutomation] *)

Section Contained.
Context {E : Env}.

(** A [try] block of a wrapper method: get the page, make one call on it,
    build the dict. *)
Lemma contained_wrapper {A} (method : string) (c : handle -> M A) (k : A -> json) :
  (forall p, keeps untouched (c p)) ->
  (forall a, field "success" (k a) = Some (JBool true)) ->
  contained (try_except (p <- Automation.page_method method ;; a <- c p ;; ret (k a))
               Automation.failure).
Proof.
  intros Hc Hk s.
  unfold Automation.page_method, Automation.this, Automation.failure.
  exec. destruct (automation (daemon s)) as [a | ]; simpl.
  - destruct (page a) as [p | ]; simpl.
    + pose proof (Hc p s) as Hd. unfold untouched in Hd.
      destruct (c p s) as [[e | x] s']; simpl in *.
      * eexists. split; [reflexivity | ]. split; [right; eexists; reflexivity | exact Hd].
      * eexists. split; [reflexivity | ]. split; [left; apply Hk | exact Hd].
    + eexists. split; [reflexivity | ]. split; [right; eexists; reflexivity | reflexivity].
  - eexists. split; [reflexivity | ]. split; [right; eexists; reflexivity | reflexivity].
Qed.

End Contained.

(** X3: [navigate_to], [take_screenshot], [click_element], [fill_form],
    [wait_for_element] and [execute_javascript] never raise, whatever the
    page does and even when there is no page: each returns a dict whose
    ["success"] is [True], or [{"success": False, "error": str(e)}]; and none
    of them changes the daemon object. *)
Theorem automation_methods_never_raise {E : Env}
    (url : string) (filename selector text script : json) :
  contained (Automation.navigate_to url)
  /\ contained (Automation.take_screenshot filename)
  /\ contained (Automation.click_element selector)
  /\ contained (Automation.fill_form selector text)
  /\ contained (Automation.wait_for_element selector)
  /\ contained (Automation.execute_javascript script).
Proof.
  repeat split.
  - intros s. unfold Automation.navigate_to, Automation.page_method, Automation.this,
      Automation.failure, page_title.
    exec. destruct (automation (daemon s)) as [a | ] eqn:Ha; simpl;
      [ | eexists; split; [reflexivity | split; [right; eexists; reflexivity | reflexivity]]].
    destruct (page a) as [p | ] eqn:Hp; simpl;
      [ | eexists; split; [reflexivity | split; [right; eexists; reflexivity | reflexivity]]].
    try rewrite call_eq; simpl.
    destruct (respond (PageGoto p url (Some "networkidle")) (world s)) as [[e | []] w]; simpl;
      [eexists; split; [reflexivity | split; [right; eexists; reflexivity | reflexivity]] | ].
    rewrite Ha; simpl. rewrite Hp; simpl.
    try rewrite call_eq; simpl.
    destruct (respond (PageTitle p) w) as [[e | t] w']; simpl;
      eexists; (split; [reflexivity | split; [ | reflexivity]]);
      [right; eexists; reflexivity | left; reflexivity].
  - apply (contained_wrapper "screenshot"
             (fun p => call (PageScreenshot p filename true))
             (fun _ => JObj [("success", JBool true); ("filename", filename)])).
    + intros p s. rewrite call_eq. reflexivity.
    + reflexivity.
  - apply (contained_wrapper "click"
             (fun p => call (PageClick p selector))
             (fun _ => JObj [("success", JBool true); ("selector", selector)])).
    + intros p s. rewrite call_eq. reflexivity.
    + reflexivity.
  - apply (contained_wrapper "fill"
             (fun p => call (PageFill p selector text))
             (fun _ => JObj [("success", JBool true); ("selector", selector)])).
    + intros p s. rewrite call_eq. reflexivity.
    + reflexivity.
  - apply (contained_wrapper "wait_for_selector"
             (fun p => call (PageWaitForSelector p selector 30000))
             (fun _ => JObj [("success", JBool true); ("selector", selector)])).
    + intros p s. rewrite call_eq. reflexivity.
    + reflexivity.
  - apply (contained_wrapper "evaluate"
             (fun p => page_evaluate p script)
             (fun result => JObj [("success", JBool true); ("result", result)])).
    + intros p s. unfold page_evaluate. rewrite call_eq. reflexivity.
    + reflexivity.
Qed.

(** X4: [navigate] without a ['url'] argument, or with one that is not a
    string, is answered with the error Result of the [AttributeError] that
    [url.startswith] raises; the page is never called and the state is
    unchanged. *)
Theorem navigate_without_url {E : Env} (args : list (string * json)) (s : St) :
  automation (daemon s) <> None ->
  (forall u, url_arg args <> JStr u) ->
  Daemon.execute_command (command "navigate" args) s
  = (inr (Daemon.error (Py.attribute_error (url_arg args) "startswith")), s).
Proof.
  intros Ha Hurl.
  destruct (automation (daemon s)) as [a | ] eqn:Hauto; [clear Ha | contradiction].
  rewrite (execute_command_started _ _ Hauto), dispatch_navigate.
  unfold try_except, Daemon.navigate. rewrite bind_lift.
  change (Py.get (JObj args) "url" JNull) with (@inr exc json (url_arg args)).
  cbv iota beta. rewrite bind_lift.
  destruct (url_arg args) as [ | b | z | f | u | l | kv]; try reflexivity.
  exfalso. exact (Hurl u eq_refl).
Qed.

Lemma navigate_without_url_witness :
  @Daemon.execute_command scripted (command "navigate" []) (started [])
  = (inr (Daemon.error "'NoneType' object has no attribute 'startswith'"), started []).
Proof.
  apply (@navigate_without_url scripted [] (started [])).
  - vm_compute. discriminate.
  - intros u. simpl. discriminate.
Defined.

(** * Further properties of the tab commands *)

Section SwitchTabRun.
Context {E : Env}.

Lemma nth_error_in_range (l : list Tab) (i : Z) tab :
  0 <= i -> nth_error l (Z.to_nat i) = Some tab -> 0 <= i < Z.of_nat (List.length l).
Proof.
  intros Hi Hnth. split; [exact Hi | ].
  assert (Z.to_nat i < List.length l)%nat
    by (apply nth_error_Some; rewrite Hnth; discriminate).
  lia.
Qed.

(** [switch_tab] with an integer inside the registry, on a tab that has a
    page: one call, [bring_to_front], made after the index and the automation
    page have been assigned. *)
Lemma switch_tab_run (args : json) (i : Z) (s : St) a tab p :
  automation (daemon s) = Some a ->
  Py.get args "index" (JInt 0) = inr (JInt i) ->
  0 <= i ->
  nth_error (pages (daemon s)) (Z.to_nat i) = Some tab ->
  tab_page tab = Some p ->
  Daemon.switch_tab args s
  = (match fst (respond (PageBringToFront p) (world s)) with
     | inl e => inl e
     | inr _ => inr (switch_tab_result (JInt i) (JInt (i + 1)) tab)
     end,
     mkSt (switched (daemon s) a (JInt i) tab)
       (snd (respond (PageBringToFront p) (world s)))
       (calls s ++ [PageBringToFront p])).
Proof.
  intros Ha Hget Hi Hnth Hp.
  pose proof (nth_error_in_range _ Hi Hnth) as Hrange.
  destruct (getitem_valid (pages (daemon s)) Hrange) as [tab' [Hitem Hnth']].
  assert (tab' = tab) by congruence. subst tab'.
  unfold switched, switch_tab_result.
  unfold Daemon.switch_tab, bind, lift, self. rewrite Hget. simpl.
  replace (0 <=? i)%Z with true by (symmetry; apply Z.leb_le; lia).
  replace (i <? Z.of_nat (List.length (pages (daemon s))))%Z with true
    by (symmetry; apply Z.ltb_lt; lia).
  rewrite Hitem. simpl. rewrite Ha. simpl.
  unfold Automation.page_method, Automation.this, bind, self. simpl.
  rewrite Hp. unfold ret at 1 2. rewrite call_eq. simpl.
  destruct (respond (PageBringToFront p) (world s)) as [[e | []] w]; reflexivity.
Qed.

End SwitchTabRun.

(** X5: [switch_tab] to a valid integer index whose tab has a page, when
    [bring_to_front] succeeds: the Result is "Switched to Tab i+1" with the
    title, url and purpose cached in the registry (they are not refreshed);
    the index becomes current, the tab's page becomes the automation page,
    the registry is untouched and [bring_to_front] is the only call made. *)
Theorem switch_tab_reports_cache {E : Env} (args : list (string * json)) (i : Z) (s : St)
    a tab p w :
  automation (daemon s) = Some a ->
  Py.get (JObj args) "index" (JInt 0) = inr (JInt i) ->
  0 <= i ->
  nth_error (pages (daemon s)) (Z.to_nat i) = Some tab ->
  tab_page tab = Some p ->
  respond (PageBringToFront p) (world s) = (inr tt, w) ->
  Daemon.execute_command (command "switch_tab" args) s
  = (inr (switch_tab_result (JInt i) (JInt (i + 1)) tab),
     mkSt (switched (daemon s) a (JInt i) tab) w (calls s ++ [PageBringToFront p])).
Proof.
  intros Ha Hget Hi Hnth Hp Hfront.
  rewrite (execute_command_started _ _ Ha), dispatch_switch_tab.
  unfold try_except. rewrite (switch_tab_run _ s Ha Hget Hi Hnth Hp), Hfront.
  reflexivity.
Qed.

Lemma switch_tab_reports_cache_witness :
  @Daemon.execute_command scripted (command "switch_tab" [("index", JInt 1)])
    (two_tabs [Done])
  = (inr (Daemon.success "Switched to Tab 2"
            (JObj [("tab_index", JInt 1); ("title", JStr "Bing");
                   ("url", JStr "https://bing.com"); ("purpose", JStr "search")])),
     @mkSt scripted (daemon (two_tabs [Done])) (@nil Answer)
       (calls (two_tabs [Done]) ++ [PageBringToFront 8%nat])).
Proof.
  apply (@switch_tab_reports_cache scripted [("index", JInt 1)] 1 (two_tabs [Done])
           (mkAutomation false true true true (Some 8%nat))
           (mkTab (Some 8%nat) "Bing" "https://bing.com" 1 (Some (JStr "search")))
           8%nat (@nil Answer)); try reflexivity.
  lia.
Defined.

(** X6: [switch_tab] is not atomic.  When [bring_to_front] raises [e] the
    Result is the error [e], yet the switch has happened: the index is
    current and the tab's page is the automation page, exactly as after a
    successful switch. *)
Theorem switch_tab_failure_still_switches {E : Env} (args : list (string * json)) (i : Z)
    (s : St) a tab p e w :
  automation (daemon s) = Some a ->
  Py.get (JObj args) "index" (JInt 0) = inr (JInt i) ->
  0 <= i ->
  nth_error (pages (daemon s)) (Z.to_nat i) = Some tab ->
  tab_page tab = Some p ->
  respond (PageBringToFront p) (world s) = (inl e, w) ->
  Daemon.execute_command (command "switch_tab" args) s
  = (inr (Daemon.error e),
     mkSt (switched (daemon s) a (JInt i) tab) w (calls s ++ [PageBringToFront p])).
Proof.
  intros Ha Hget Hi Hnth Hp Hfront.
  rewrite (execute_command_started _ _ Ha), dispatch_switch_tab.
  unfold try_except. rewrite (switch_tab_run _ s Ha Hget Hi Hnth Hp), Hfront.
  reflexivity.
Qed.

Lemma switch_tab_failure_still_switches_witness :
  @Daemon.execute_command scripted (command "switch_tab" [])
    (two_tabs [Raises "Target page, context or browser has been closed"])
  = (inr (Daemon.error "Target page, context or browser has been closed"),
     @mkSt scripted (mkDaemon (Some (mkAutomation false true true true (Some 7%nat)))
             "browser_command.json" "browser_result.json" true
             [mkTab (Some 7%nat) "New Tab" "about:blank" 0 None;
              mkTab (Some 8%nat) "Bing" "https://bing.com" 1 (Some (JStr "search"))]
             (JInt 0))
       (@nil Answer)
       (calls (two_tabs [Raises "Target page, context or browser has been closed"])
          ++ [PageBringToFront 7%nat])).
Proof.
  apply (@switch_tab_failure_still_switches scripted [] 0
           (two_tabs [Raises "Target page, context or browser has been closed"])
           (mkAutomation false true true true (Some 8%nat))
           (mkTab (Some 7%nat) "New Tab" "about:blank" 0 None)
           7%nat "Target page, context or browser has been closed" (@nil Answer));
    reflexivity.
Defined.

Section Fractional.
Context {E : Env}.

Lemma within_nonempty (v : json) (l : list Tab) : within v (List.length l) -> l <> [].
Proof.
  intros H Hnil. subst l. simpl in H.
  destruct v as [ | b | z | [q | | | ] | str | l | kv]; simpl in H; try contradiction;
    try lia.
  destruct H as [H1 H2]. apply (Qlt_irrefl q). eapply Qlt_le_trans; eassumption.
Qed.

End Fractional.

(** X7: a fractional index that passes the range check (such as 0.5 with
    one tab open) is stored as the current index before the registry is
    subscripted with it.  The [TypeError] of the subscript becomes the error
    Result, no call is made, and from then on [current_tab] fails with the
    same error. *)
Theorem switch_tab_fractional_index {E : Env} (args : list (string * json)) (f : pyfloat)
    (s : St) :
  automation (daemon s) <> None ->
  Py.get (JObj args) "index" (JInt 0) = inr (JFloat f) ->
  within (JFloat f) (tab_count (daemon s)) ->
  let after := mkSt (set_current_page_index (JFloat f) (daemon s)) (world s) (calls s) in
  Daemon.execute_command (command "switch_tab" args) s
  = (inr (Daemon.error "list indices must be integers or slices, not float"), after)
  /\ forall args',
       Daemon.execute_command (command "current_tab" args') after
       = (inr (Daemon.error "list indices must be integers or slices, not float"), after).
Proof.
  intros Ha Hget Hin after.
  destruct (automation (daemon s)) as [a | ] eqn:Hauto; [clear Ha | contradiction].
  unfold tab_count in Hin. pose proof (@within_nonempty _ _ Hin) as Hne.
  apply guard_within in Hin. destruct Hin as [Hle Hlt].
  split.
  - rewrite (execute_command_started _ _ Hauto), dispatch_switch_tab.
    unfold try_except, Daemon.switch_tab.
    rewrite bind_lift, Hget, bind_self, bind_lift, Hle, bind_lift, Hlt.
    rewrite bind_update, bind_lift. reflexivity.
  - intros args'.
    assert (Hauto' : automation (daemon after) = Some a) by exact Hauto.
    rewrite (execute_command_started _ _ Hauto'), dispatch_current_tab.
    unfold try_except, Daemon.current_tab. rewrite bind_self.
    change (pages (daemon after)) with (pages (daemon s)).
    destruct (pages (daemon s)) as [ | x l]; [contradiction | ].
    rewrite bind_lift. reflexivity.
Qed.

Lemma switch_tab_fractional_index_witness :
  @Daemon.execute_command scripted
    (command "switch_tab" [("index", JFloat (Finite (1 # 2)))]) (started [])
  = (inr (Daemon.error "list indices must be integers or slices, not float"),
     @mkSt scripted (set_current_page_index (JFloat (Finite (1 # 2))) (daemon (started [])))
       (@nil Answer) (calls (started []))).
Proof.
  apply (@switch_tab_fractional_index scripted [("index", JFloat (Finite (1 # 2)))]
           (Finite (1 # 2)) (started [])).
  - vm_compute. discriminate.
  - reflexivity.
  - simpl. unfold Qle, Qlt. simpl. split; lia.
Defined.

(** X8: [new_tab] creates the browser page before it reads its arguments.
    When ['args'] is not an object, the page has been created by the time
    [args.get] raises: the Result is the error of the [AttributeError], one
    page more is open in the browser, and the daemon has registered nothing
    (registry, current index and automation page are unchanged). *)
Theorem new_tab_with_bad_args_leaks_page {E : Env} (command_data args : json) (s : St)
    a p w :
  automation (daemon s) = Some a ->
  context a = true ->
  Py.get command_data "type" JNull = inr (JStr "new_tab") ->
  Py.get command_data "args" (JObj []) = inr args ->
  (forall kv, args <> JObj kv) ->
  respond ContextNewPage (world s) = (inr p, w) ->
  Daemon.execute_command command_data s
  = (inr (Daemon.error (Py.attribute_error args "get")),
     mkSt (daemon s) w (calls s ++ [ContextNewPage])).
Proof.
  intros Ha Hc Hty Hargs Hshape Hpage.
  assert (Hget : forall key default,
             Py.get args key default = inl (Py.attribute_error args "get")).
  { intros key default. destruct args; try reflexivity.
    exfalso. eapply Hshape. reflexivity. }
  rewrite (execute_command_started _ _ Ha).
  unfold try_except, Daemon.dispatch. rewrite bind_lift, Hty, bind_lift, Hargs.
  cbn [Py.eq_str String.eqb Ascii.eqb Bool.eqb]. cbv iota beta.
  unfold Daemon.new_tab, Automation.context_method, Automation.this, context_new_page.
  exec. rewrite Ha. simpl. rewrite Hc. simpl.
  rewrite call_eq, Hpage. cbn [fst snd]. rewrite Hget. reflexivity.
Qed.

Lemma new_tab_with_bad_args_leaks_page_witness :
  @Daemon.execute_command scripted
    (JObj [("type", JStr "new_tab"); ("args", JArr [JStr "search"])])
    (started [Page 8%nat])
  = (inr (Daemon.error "'list' object has no attribute 'get'"),
     @mkSt scripted (daemon (started [])) (@nil Answer)
       (calls (started []) ++ [ContextNewPage])).
Proof.
  apply (@new_tab_with_bad_args_leaks_page scripted
           (JObj [("type", JStr "new_tab"); ("args", JArr [JStr "search"])])
           (JArr [JStr "search"]) (started [Page 8%nat])
           (mkAutomation false true true true (Some 7%nat)) 8%nat (@nil Answer));
    try reflexivity.
  intros kv. discriminate.
Defined.

(** * Further properties of the daemon loop *)

Section Stop.
Context {E : Env}.


Lemma bind_eq {A B} (m : M A) (k : A -> M B) s :
  bind m k s = match m s with
               | (inr a, s') => k a s'
               | (inl e, s') => (inl e, s')
               end.
Proof. reflexivity. Qed.



End Stop.



Section Round.
Context {E : Env}.

Lemma loop_round fuel s :
  Daemon.loop (S fuel) s
  = (if running (daemon s)
     then broke <- round ;; if broke : bool then ret true else Daemon.loop fuel
     else ret true) s.
Proof. simpl. rewrite bind_self. destruct (running (daemon s)); reflexivity. Qed.

End Round.

Ltac only_sleeps :=
  let c := fresh "c" in
  let Hin := fresh "Hin" in
  intros c Hin; simpl in Hin;
  repeat (destruct Hin as [<- | Hin]; [eexists; reflexivity | ]);
  contradiction.

(** X10: the order of the file protocol.  When the command file exists and
    can be read, the daemon executes the command, then writes its Result to
    the result file, then removes the command file, in this order; the
    removal is attempted even when the write failed, and after it the pass
    only sleeps.  The daemon object is as the command left it. *)
Theorem result_written_before_command_removed {E : Env} (command_data : json) (s : St)
    w1 w2 :
  respond (PathExists (command_file (daemon s))) (world s) = (inr true, w1) ->
  respond (ReadJson (command_file (daemon s))) w1 = (inr command_data, w2) ->
  let s2 := mkSt (daemon s) w2
              ((calls s ++ [PathExists (command_file (daemon s))])
                 ++ [ReadJson (command_file (daemon s))]) in
  let s3 := snd (Daemon.execute_command command_data s2) in
  exists r rest,
    fst (Daemon.execute_command command_data s2) = inr r
    /\ calls (snd (round s))
       = (calls s3 ++ [WriteJson (result_file (daemon s3)) r;
                       Remove (command_file (daemon s))] ++ rest)%list
    /\ (forall c, In c rest -> exists ms, c = Sleep ms)
    /\ daemon (snd (round s)) = daemon s3.
Proof.
  intros Hfound Hread s2 s3. subst s3.
  destruct (execute_command_contained command_data s2) as [r [Hr _]].
  exists r.
  unfold round, Daemon.poll, path_exists, read_json, Daemon.write_result.
  exec.
  rewrite call_eq, Hfound. cbn [fst snd].
  rewrite call_eq. cbn [world daemon calls]. rewrite Hread. cbn [fst snd].
  fold s2.
  destruct (Daemon.execute_command command_data s2) as [[e | r'] s3]; simpl in Hr;
    [discriminate | ].
  injection Hr as ->. cbn [fst snd].
  rewrite call_eq. cbn [fst snd world daemon calls].
  destruct (respond (WriteJson (result_file (daemon s3)) r) (world s3)) as [[e | []] w3];
    cbn [fst snd];
    rewrite call_eq; cbn [fst snd world daemon calls];
    destruct (respond (Remove (command_file (daemon s))) w3) as [[e' | []] w4];
    cbn [fst snd];
    repeat match goal with
      | |- context [match Py.get ?v ?k ?d with _ => _ end] => destruct (Py.get v k d)
      | |- context [if Py.eq_str ?v ?n then _ else _] => destruct (Py.eq_str v n)
      | |- context [call (Sleep ?ms) ?st] =>
          rewrite (call_eq (Sleep ms) st); cbn [fst snd world daemon calls];
          let e := fresh "e" in
          let w := fresh "w" in
          match goal with
          | |- context [respond (Sleep ms) ?w0] =>
              destruct (respond (Sleep ms) w0) as [[e | []] w]
          end;
          cbn [fst snd]
      end;
    eexists; (split; [reflexivity | ]);
    (split; [cbn [calls snd]; rewrite <- !app_assoc; simpl; reflexivity | ]);
    (split; [only_sleeps | reflexivity]).
Qed.

Lemma result_written_before_command_removed_witness :
  exists r rest,
    calls (snd (@round scripted
                  (started [Flag true; Value (command "title" []); Text "Home";
                            Raises "[Errno 28] No space left on device"; Done; Done])))
    = (calls (started []) ++
       [PathExists "browser_command.json"; ReadJson "browser_command.json";
        PageTitle 7%nat;
        WriteJson "browser_result.json" r; Remove "browser_command.json"] ++ rest)%list
    /\ r = Daemon.success "Page title: Home" (JStr "Home").
Proof.
  destruct (@result_written_before_command_removed scripted (command "title" [])
              (started [Flag true; Value (command "title" []); Text "Home";
                        Raises "[Errno 28] No space left on device"; Done; Done])
              [Value (command "title" []); Text "Home";
               Raises "[Errno 28] No space left on device"; Done; Done]
              [Text "Home"; Raises "[Errno 28] No space left on device"; Done; Done]
              eq_refl eq_refl)
    as [r [rest [Hr [Hcalls _]]]].
  exists r, rest. split.
  - rewrite Hcalls. vm_compute in Hr. injection Hr as <-. reflexivity.
  - vm_compute in Hr. injection Hr as <-. reflexivity.
Defined.

Section Unreadable.
Context {E : Env}.

Lemma idle_round (s : St) :
  (forall w, exists e w', respond (ReadJson (command_file (daemon s))) w = (inl e, w')) ->
  daemon (snd (round s)) = daemon s
  /\ fst (round s) <> inr true
  /\ exists l, calls (snd (round s)) = (calls s ++ l)%list /\ Forall idle_call l.
Proof.
  intros Hbad.
  unfold round, Daemon.poll, path_exists, read_json.
  exec. rewrite call_eq. cbn [fst snd].
  destruct (respond (PathExists (command_file (daemon s))) (world s)) as [[e | [ | ]] w1];
    cbn [fst snd].
  - rewrite call_eq. cbn [fst snd world daemon calls].
    destruct (respond (Sleep 1000) w1) as [[e1 | []] w2]; cbn [fst snd];
      (split; [reflexivity | ]); (split; [discriminate | ]);
      eexists; (split; [cbn [calls]; rewrite <- !app_assoc; reflexivity | ]);
      repeat constructor.
  - rewrite call_eq. cbn [fst snd world daemon calls].
    destruct (Hbad w1) as [e [w2 Hread]]. rewrite Hread. cbn [fst snd].
    rewrite call_eq. cbn [fst snd world daemon calls].
    destruct (respond (Sleep 1000) w2) as [[e1 | []] w3]; cbn [fst snd];
      (split; [reflexivity | ]); (split; [discriminate | ]);
      eexists; (split; [cbn [calls]; rewrite <- !app_assoc; reflexivity | ]);
      repeat constructor.
  - rewrite call_eq. cbn [fst snd world daemon calls].
    destruct (respond (Sleep 100) w1) as [[e1 | []] w2]; cbn [fst snd].
    + rewrite call_eq. cbn [fst snd world daemon calls].
      destruct (respond (Sleep 1000) w2) as [[e2 | []] w3]; cbn [fst snd];
        (split; [reflexivity | ]); (split; [discriminate | ]);
        eexists; (split; [cbn [calls]; rewrite <- !app_assoc; reflexivity | ]);
        repeat constructor.
    + split; [reflexivity | ]. split; [discriminate | ].
      eexists. split; [cbn [calls]; rewrite <- !app_assoc; reflexivity | ].
      repeat constructor.
Qed.

End Unreadable.

(** X11: a command file that cannot be read (truncated or invalid JSON) is
    never answered and never removed.  However long the loop runs, it only
    looks for the file, tries to read it and sleeps: it writes no Result,
    removes nothing, calls no page, and the daemon object does not change. *)
Theorem unreadable_command_is_never_answered {E : Env} (fuel : nat) (s : St) :
  (forall w, exists e w', respond (ReadJson (command_file (daemon s))) w = (inl e, w')) ->
  daemon (snd (Daemon.loop fuel s)) = daemon s
  /\ exists l, calls (snd (Daemon.loop fuel s)) = (calls s ++ l)%list /\ Forall idle_call l.
Proof.
  revert s. induction fuel as [ | fuel IH]; intros s Hbad.
  - split; [reflexivity | ]. exists []. split; [symmetry; apply app_nil_r | constructor].
  - rewrite loop_round.
    destruct (running (daemon s));
      [ | split; [reflexivity | ]; exists [];
          split; [symmetry; apply app_nil_r | constructor]].
    destruct (idle_round s Hbad) as [Hd [Hgo [l [Hl Hidle]]]].
    unfold bind.
    destruct (round s) as [[e | [ | ]] s1]; cbn [fst snd] in *.
    + split; [exact Hd | ]. exists l. split; assumption.
    + exfalso. apply Hgo. reflexivity.
    + rewrite <- Hd in Hbad. destruct (IH s1 Hbad) as [Hd1 [l1 [Hl1 Hidle1]]].
      split; [congruence | ].
      exists (l ++ l1)%list. split.
      * rewrite Hl1, Hl, app_assoc. reflexivity.
      * apply Forall_app. split; assumption.
Qed.

Lemma unreadable_command_is_never_answered_witness :
  daemon (snd (@Daemon.loop corrupt 3 (snd (@Daemon.init corrupt (@boot corrupt tt)))))
  = daemon (snd (@Daemon.init corrupt (@boot corrupt tt))).
Proof.
  apply (@unreadable_command_is_never_answered corrupt 3
           (snd (@Daemon.init corrupt (@boot corrupt tt)))).
  intros w. exists "Expecting value: line 1 column 1 (char 0)", w. reflexivity.
Defined.

(** X12: a command file that holds valid JSON which is not an object (a
    list, a string, a number) is answered and removed: the daemon writes the
    error Result of the [AttributeError] ("'list' object has no attribute
    'get'"), removes the file, and then sleeps one second, because the
    [print] that follows raises the same error inside the loop's [try].  The
    daemon object does not change. *)
Theorem malformed_command_is_answered {E : Env} (command_data : json) (s : St) w1 w2 :
  automation (daemon s) <> None ->
  respond (PathExists (command_file (daemon s))) (world s) = (inr true, w1) ->
  respond (ReadJson (command_file (daemon s))) w1 = (inr command_data, w2) ->
  (forall kv, command_data <> JObj kv) ->
  calls (snd (round s))
  = (calls s ++ [PathExists (command_file (daemon s));
                 ReadJson (command_file (daemon s));
                 WriteJson (result_file (daemon s))
                   (Daemon.error (Py.attribute_error command_data "get"));
                 Remove (command_file (daemon s));
                 Sleep 1000])%list
  /\ daemon (snd (round s)) = daemon s.
Proof.
  intros Ha Hfound Hread Hshape.
  destruct (automation (daemon s)) as [a | ] eqn:Hauto; [clear Ha | contradiction].
  assert (Hget : forall key default,
             Py.get command_data key default = inl (Py.attribute_error command_data "get")).
  { intros key default. destruct command_data; try reflexivity.
    exfalso. eapply Hshape. reflexivity. }
  unfold round, Daemon.poll, path_exists, read_json, Daemon.write_result.
  exec.
  rewrite call_eq, Hfound. cbn [fst snd].
  rewrite call_eq. cbn [world]. rewrite Hread. cbn [fst snd].
  erewrite execute_command_started by exact Hauto.
  unfold try_except, Daemon.dispatch. rewrite bind_lift, Hget. exec.
  rewrite call_eq. cbn [fst snd world daemon calls].
  destruct (respond (WriteJson (result_file (daemon s))
              (Daemon.error (Py.attribute_error command_data "get"))) w2)
    as [[e | []] w3]; cbn [fst snd];
    rewrite call_eq; cbn [fst snd world daemon calls];
    destruct (respond (Remove (command_file (daemon s))) w3) as [[e' | []] w4];
    cbn [fst snd]; try rewrite Hget;
    rewrite call_eq; cbn [fst snd world daemon calls];
    destruct (respond (Sleep 1000) w4) as [[e'' | []] w5]; cbn [fst snd calls daemon];
    (split; [rewrite <- !app_assoc; reflexivity | reflexivity]).
Qed.

Lemma malformed_command_is_answered_witness :
  calls (snd (@round scripted (started [Flag true; Value (JArr []); Done; Done; Done])))
  = (calls (started []) ++
     [PathExists "browser_command.json"; ReadJson "browser_command.json";
      WriteJson "browser_result.json"
        (Daemon.error "'list' object has no attribute 'get'");
      Remove "browser_command.json"; Sleep 1000])%list.
Proof.
  apply (@malformed_command_is_answered scripted (JArr [])
           (started [Flag true; Value (JArr []); Done; Done; Done])
           [Value (JArr []); Done; Done; Done] [Done; Done; Done]).
  - vm_compute. discriminate.
  - reflexivity.
  - reflexivity.
  - intros kv. discriminate.
Defined.

(** * Further properties of startup and shutdown *)

(** X13: when playwright, chromium, the context and the first page are all
    obtained, [__init__] leaves a daemon that is running, with a headed
    browser, with exactly one tab registered (index 0, 'New Tab',
    'about:blank', no purpose) whose page is the automation page, and with
    index 0 current; its last act is to write the "started" Result, and a
    failure of that write changes nothing. *)
Theorem startup_registers_first_tab {E : Env} (w w1 w2 w3 w4 : World) (p : handle) :
  respond SyncPlaywrightStart w = (inr tt, w1) ->
  respond (ChromiumLaunch false) w1 = (inr tt, w2) ->
  respond BrowserNewContext w2 = (inr tt, w3) ->
  respond ContextNewPage w3 = (inr p, w4) ->
  let s := snd (Daemon.init (boot w)) in
  daemon s = mkDaemon (Some (mkAutomation false true true true (Some p)))
               "browser_command.json" "browser_result.json" true
               [mkTab (Some p) "New Tab" "about:blank" 0 None] (JInt 0)
  /\ calls s = [SyncPlaywrightStart; ChromiumLaunch false; BrowserNewContext;
                ContextNewPage;
                WriteJson "browser_result.json"
                  (JObj [("status", JStr "started");
                         ("message", JStr "Browser daemon ready")])].
Proof.
  intros H1 H2 H3 H4 s. subst s.
  unfold Daemon.init, Daemon.start_browser, Automation.start_browser, Daemon.write_result,
    Automation.assign, Automation.this, context_new_page, boot.
  exec.
  rewrite call_eq; cbn [fst snd world daemon calls]; rewrite H1; simpl.
  rewrite call_eq; cbn [fst snd world daemon calls]; rewrite H2; simpl.
  rewrite call_eq; cbn [fst snd world daemon calls]; rewrite H3; simpl.
  rewrite call_eq; cbn [fst snd world daemon calls]; rewrite H4; simpl.
  rewrite call_eq; cbn [fst snd world daemon calls].
  match goal with
  | |- context [respond ?c ?w0] => destruct (respond c w0) as [[e | []] w5]
  end; simpl; split; reflexivity.
Qed.

Lemma startup_registers_first_tab_witness :
  pages (daemon (started []))
  = [mkTab (Some 7%nat) "New Tab" "about:blank" 0 None].
Proof.
  destruct (@startup_registers_first_tab scripted starts
              [Done; Done; Page 7%nat; Done] [Done; Page 7%nat; Done] [Page 7%nat; Done]
              [Done] 7%nat eq_refl eq_refl eq_refl eq_refl) as [Hd _].
  exact (f_equal pages Hd).
Defined.

Section CloseBrowser.
Context {E : Env}.

Lemma close_browser_run (s : St) a :
  automation (daemon s) = Some a ->
  Automation.close_browser s
  = ((if browser a
      then Automation.context_method "close" ;; call ContextClose
      else ret tt) ;;
     (if playwright a then call PlaywrightStop else ret tt)) s.
Proof.
  intros Ha. unfold Automation.close_browser, Automation.this.
  rewrite bind_eq, bind_self, Ha. reflexivity.
Qed.

End CloseBrowser.

(** X14: [close_browser] on a browser that started closes the context and
    then stops playwright, in this order and with no other call; when
    closing the context raises, the exception propagates and playwright is
    not stopped. *)
Theorem close_browser_order {E : Env} (s : St) (a : BrowserAutomation) :
  automation (daemon s) = Some a ->
  browser a = true -> context a = true -> playwright a = true ->
  (forall w, respond ContextClose (world s) = (inr tt, w) ->
     calls (snd (Automation.close_browser s)) = (calls s ++ [ContextClose; PlaywrightStop])%list)
  /\ (forall e w, respond ContextClose (world s) = (inl e, w) ->
        Automation.close_browser s
        = (inl e, mkSt (daemon s) w (calls s ++ [ContextClose]))).
Proof.
  intros Ha Hb Hc Hp. rewrite (close_browser_run s Ha), Hb, Hp.
  unfold Automation.context_method, Automation.this.
  split.
  - intros w Hclose. exec. rewrite Ha. simpl. rewrite Hc. simpl.
    rewrite call_eq, Hclose. cbn [fst snd]. rewrite call_eq. cbn [fst snd world calls].
    destruct (respond PlaywrightStop w) as [[e | []] w']; cbn [snd calls];
      rewrite <- app_assoc; reflexivity.
  - intros e w Hclose. exec. rewrite Ha. simpl. rewrite Hc. simpl.
    rewrite call_eq, Hclose. reflexivity.
Qed.

Lemma close_browser_order_witness :
  calls (snd (@Automation.close_browser scripted (started [Done; Done])))
  = (calls (started [Done; Done]) ++ [ContextClose; PlaywrightStop])%list.
Proof.
  destruct (@close_browser_order scripted (started [Done; Done])
              (mkAutomation false true true true (Some 7%nat))
              eq_refl eq_refl eq_refl eq_refl) as [H _].
  apply (H [Done]). reflexivity.
Defined.

(** X15: when chromium launches and [new_context] then raises during
    startup, the automation object has a browser and no [context] attribute.
    From then on [close_browser] raises [AttributeError] before making any
    call, so playwright is never stopped; this holds in whatever world the
    shutdown happens. *)
Theorem shutdown_after_failed_context {E : Env} (w w1 w2 w3 : World) (e : exc) :
  respond SyncPlaywrightStart w = (inr tt, w1) ->
  respond (ChromiumLaunch false) w1 = (inr tt, w2) ->
  respond BrowserNewContext w2 = (inl e, w3) ->
  let d := daemon (snd (Daemon.init (boot w))) in
  automation d = Some (mkAutomation false true true false None)
  /\ forall w' l,
       Automation.close_browser (mkSt d w' l)
       = (inl "'BrowserAutomation' object has no attribute 'context'", mkSt d w' l).
Proof.
  intros H1 H2 H3 d.
  assert (Hd : automation d = Some (mkAutomation false true true false None)).
  { subst d.
    unfold Daemon.init, Daemon.start_browser, Automation.start_browser,
      Daemon.write_result, Automation.assign, Automation.this, context_new_page, boot.
    exec.
    rewrite call_eq; cbn [fst snd world daemon calls]; rewrite H1; simpl.
    rewrite call_eq; cbn [fst snd world daemon calls]; rewrite H2; simpl.
    rewrite call_eq; cbn [fst snd world daemon calls]; rewrite H3; simpl.
    rewrite call_eq; cbn [fst snd world daemon calls].
    match goal with
    | |- context [respond ?c ?w0] => destruct (respond c w0) as [[e' | []] w5]
    end; reflexivity. }
  split; [exact Hd | ].
  intros w' l.
  rewrite (@close_browser_run E (mkSt d w' l) _ Hd).
  unfold Automation.context_method, Automation.this. exec. rewrite Hd. reflexivity.
Qed.

Lemma shutdown_after_failed_context_witness :
  @Automation.close_browser scripted
    (snd (@Daemon.init scripted
            (@boot scripted [Done; Done; Raises "Target closed"; Done])))
  = (inl "'BrowserAutomation' object has no attribute 'context'",
     snd (@Daemon.init scripted
            (@boot scripted [Done; Done; Raises "Target closed"; Done]))).
Proof.
  destruct (@shutdown_after_failed_context scripted
              [Done; Done; Raises "Target closed"; Done]
              [Done; Raises "Target closed"; Done] [Raises "Target closed"; Done] [Done]
              "Target closed" eq_refl eq_refl eq_refl) as [_ H].
  apply (H (@nil Answer)).
Defined.

(** * Further properties of the registry cache *)

Section Live.
Context {E : Env}.

Lemma getitem_nonempty (l : list Tab) v pos tab : getitem l v = inr (pos, tab) -> l <> [].
Proof.
  intros Hget Hnil. apply getitem_nth in Hget. rewrite Hnil in Hget.
  destruct pos; discriminate.
Qed.

(** When the refresh succeeds the entry carries what it read, and is active
    exactly when its position is the current index. *)
Lemma list_tabs_entry_live (i : nat) (tab : Tab) (s : St) t u s' :
  Daemon.refresh i tab s = (inr (t, u), s') ->
  Daemon.list_tabs_entry i tab s
  = (inr (Daemon.tab_entry i t u (purpose_of tab)
            (JBool (Py.int_eq (Z.of_nat i) (current_page_index (daemon s))))), s').
Proof.
  intros Hrun. unfold Daemon.list_tabs_entry. rewrite try_except_bind, Hrun.
  pose proof (same_refresh i tab s) as [_ Hcur]. rewrite Hrun in Hcur. simpl in Hcur.
  unfold try_except. rewrite bind_self, Hcur. reflexivity.
Qed.

Lemma list_tabs_loop_live (tabs : list Tab) :
  forall (i : nat) (s : St) infos s',
    Daemon.list_tabs_loop i tabs s = (inr infos, s') ->
    forall k tab t u,
      nth_error tabs k = Some tab ->
      fst (Daemon.refresh (i + k) tab
             (snd (Daemon.list_tabs_loop i (firstn k tabs) s))) = inr (t, u) ->
      nth_error infos k
      = Some (Daemon.tab_entry (i + k) t u (purpose_of tab)
                (JBool (Py.int_eq (Z.of_nat (i + k)) (current_page_index (daemon s))))).
Proof.
  induction tabs as [ | tab rest IH]; intros i s infos s' Hloop k tab' t u Hnth Hlive.
  - destruct k; discriminate.
  - destruct (list_tabs_entry_total i tab s) as [info [s1 [H1 [_ [Hc1 _]]]]].
    destruct (list_tabs_loop_total rest (S i) s1) as [infos' [s2 [H2 _]]].
    pose proof (@list_tabs_loop_cons E i tab rest s info s1 infos' s2 H1 H2) as Hall.
    rewrite Hall in Hloop. injection Hloop as <- <-.
    destruct k as [ | k].
    + simpl in Hnth. injection Hnth as <-. simpl in Hlive.
      rewrite Nat.add_0_r in *. simpl. f_equal.
      destruct (Daemon.refresh i tab s) as [[e | [t' u']] s3] eqn:Hrun; simpl in Hlive;
        [discriminate | ].
      injection Hlive as -> ->.
      rewrite (@list_tabs_entry_live i tab s t u s3 Hrun) in H1. injection H1 as <- _. reflexivity.
    + simpl in Hnth. simpl nth_error.
      replace (i + S k)%nat with (S i + k)%nat in * by lia.
      rewrite <- Hc1.
      apply (IH (S i) s1 infos' s2 H2 k tab' t u Hnth).
      simpl firstn in Hlive.
      assert (Hstate : snd (Daemon.list_tabs_loop i (tab :: firstn k rest) s)
                       = snd (Daemon.list_tabs_loop (S i) (firstn k rest) s1)).
      { simpl. erewrite bind_inr by exact H1.
        unfold bind. destruct (Daemon.list_tabs_loop (S i) (firstn k rest) s1) as [[e' | l] s3];
          reflexivity. }
      rewrite Hstate in Hlive. exact Hlive.
Qed.

End Live.

(** X16: in the list [list_tabs] returns, the entry of a tab whose refresh
    succeeds (when the loop reaches it) carries the title and url just read
    from the page, the tab's purpose ('general' when it has none), and is
    marked active exactly when its position equals the current index. *)
Theorem list_tabs_live_entries {E : Env} (args : list (string * json)) (s : St) :
  automation (daemon s) <> None ->
  exists infos,
    fst (Daemon.execute_command (command "list_tabs" args) s)
    = inr (Daemon.success
             ("Found " ++ Py.str_of_Z (Z.of_nat (List.length infos)) ++ " tabs")
             (JObj [("tabs", JArr infos);
                    ("current_tab", current_page_index (daemon s))]))
    /\ (forall k tab t u,
          nth_error (pages (daemon s)) k = Some tab ->
          fst (Daemon.refresh k tab
                 (snd (Daemon.list_tabs_loop 0 (firstn k (pages (daemon s))) s)))
          = inr (t, u) ->
          nth_error infos k
          = Some (JObj [("index", JInt (Z.of_nat k));
                        ("title", JStr t);
                        ("url", JStr u);
                        ("purpose", purpose_of tab);
                        ("active", JBool (Py.int_eq (Z.of_nat k)
                                            (current_page_index (daemon s))))])).
Proof.
  intros Ha. destruct (automation (daemon s)) as [a | ] eqn:Hauto; [clear Ha | contradiction].
  rewrite (execute_command_started _ _ Hauto), dispatch_list_tabs.
  destruct (list_tabs_loop_total (pages (daemon s)) 0 s)
    as [infos [s' [Hrun [_ [Hcur _]]]]].
  exists infos. split.
  - unfold try_except, Daemon.list_tabs, bind at 1, self.
    erewrite bind_inr by exact Hrun.
    exec. rewrite Hcur. reflexivity.
  - intros k tab t u Hnth Hlive.
    exact (@list_tabs_loop_live E (pages (daemon s)) 0%nat s infos s' Hrun k tab t u Hnth Hlive).
Qed.

Lemma list_tabs_live_entries_witness :
  exists infos,
    nth_error infos 0
    = Some (JObj [("index", JInt 0); ("title", JStr "Example Domain");
                  ("url", JStr "https://example.com/");
                  ("purpose", JStr "general"); ("active", JBool false)])
    /\ nth_error infos 1
       = Some (JObj [("index", JInt 1); ("title", JStr "Bing");
                     ("url", JStr "https://www.bing.com/");
                     ("purpose", JStr "search"); ("active", JBool true)]).
Proof.
  destruct (@list_tabs_live_entries scripted []
              (two_tabs [Text "Example Domain"; Text "https://example.com/";
                         Text "Bing"; Text "https://www.bing.com/"]))
    as [infos [_ Hlive]].
  - vm_compute. discriminate.
  - exists infos. split.
    + apply (Hlive 0%nat (mkTab (Some 7%nat) "New Tab" "about:blank" 0 None)); reflexivity.
    + apply (Hlive 1%nat
               (mkTab (Some 8%nat) "Bing" "https://bing.com" 1 (Some (JStr "search"))));
        reflexivity.
Defined.

(** X17: when the current tab's page answers both [title()] and [url],
    [current_tab] returns them and stores them in the tab dict; the purpose
    and the position are what the registry holds, and these two reads are
    the only calls made. *)
Theorem current_tab_refreshes_cache {E : Env} (args : list (string * json)) (s : St)
    pos tab p t w u w' :
  automation (daemon s) <> None ->
  getitem (pages (daemon s)) (current_page_index (daemon s)) = inr (pos, tab) ->
  tab_page tab = Some p ->
  respond (PageTitle p) (world s) = (inr t, w) ->
  respond (PageUrl p) w = (inr u, w') ->
  Daemon.execute_command (command "current_tab" args) s
  = (inr (current_tab_result (daemon s) (set_url u (set_title t tab))),
     mkSt (set_pages (alter (set_url u) pos (alter (set_title t) pos (pages (daemon s))))
             (daemon s))
       w' ((calls s ++ [PageTitle p]) ++ [PageUrl p])).
Proof.
  intros Ha Hget Hp Ht Hu.
  destruct (automation (daemon s)) as [a | ] eqn:Hauto; [clear Ha | contradiction].
  rewrite (execute_command_started _ _ Hauto), dispatch_current_tab.
  destruct (@current_tab_nonempty E s pos tab (@getitem_nonempty _ _ _ _ Hget) Hget) as [s' [Hs' Hrun]].
  erewrite try_except_inr by exact Hrun.
  destruct Hs' as [Hnone | p' e' w1 Hp' Ht' | p' t' w1 e' w2 Hp' Ht' Hu' | p' t' w1 u' w2 Hp' Ht' Hu'];
    try congruence; rewrite Hp in Hp'; injection Hp' as <-;
    rewrite Ht in Ht'; try discriminate; injection Ht' as <- <-;
    rewrite Hu in Hu'; try discriminate; injection Hu' as <- <-.
  simpl. erewrite nth_of_nth_error
    by (apply alter_nth_same, alter_nth_same; eapply getitem_nth; exact Hget).
  reflexivity.
Qed.

Lemma current_tab_refreshes_cache_witness :
  fst (@Daemon.execute_command scripted (command "current_tab" [])
         (two_tabs [Text "Bing - Search"; Text "https://www.bing.com/search"]))
  = inr (Daemon.success "Current tab info"
           (JObj [("tab_index", JInt 1);
                  ("title", JStr "Bing - Search");
                  ("url", JStr "https://www.bing.com/search");
                  ("purpose", JStr "search")])).
Proof.
  assert (H := @current_tab_refreshes_cache scripted []
                 (two_tabs [Text "Bing - Search"; Text "https://www.bing.com/search"])
                 1%nat (mkTab (Some 8%nat) "Bing" "https://bing.com" 1 (Some (JStr "search")))
                 8%nat "Bing - Search" [Text "https://www.bing.com/search"]
                 "https://www.bing.com/search" (@nil Answer)).
  rewrite H; try reflexivity.
  vm_compute. discriminate.
Defined.

(** * Commands after a failed startup *)

Ltac without_page Ha Hp :=
  unfold Automation.navigate_to, Automation.click_element, Automation.fill_form,
    Automation.take_screenshot, Automation.wait_for_element,
    Automation.execute_javascript, Automation.failure, Automation.page_method,
    Automation.this, no_page;
  exec; repeat (first [rewrite Ha | rewrite Hp]; exec);
  reflexivity.

(** X18: a daemon whose browser failed to start still has its automation
    object, so the "Browser not started" guard lets every command through;
    only the page is missing.  No page command then makes a call or changes
    the state: [title] is answered with the error Result of the
    [AttributeError], and the six commands that go through a
    [BrowserAutomation] method are answered with status "success" around a
    failure dict. *)
Theorem commands_without_page {E : Env} (args : list (string * json)) (s : St)
    (a : BrowserAutomation) :
  automation (daemon s) = Some a ->
  page a = None ->
  Daemon.execute_command (command "title" args) s
  = (inr (Daemon.error "'NoneType' object has no attribute 'title'"), s)
  /\ (forall u target,
        url_arg args = JStr u ->
        Daemon.normalize_url (JStr u) = inr target ->
        Daemon.execute_command (command "navigate" args) s
        = (inr (Daemon.success ("Navigated to " ++ target) (no_page "goto")), s))
  /\ Daemon.execute_command (command "click" args) s
     = (inr (Daemon.success ("Clicked " ++ py_str (argument args "selector" JNull))
               (no_page "click")), s)
  /\ Daemon.execute_command (command "fill" args) s
     = (inr (Daemon.success
               ("Filled " ++ py_str (argument args "selector" JNull) ++ " with '"
                  ++ py_str (argument args "text" JNull) ++ "'")
               (no_page "fill")), s)
  /\ Daemon.execute_command (command "screenshot" args) s
     = (inr (Daemon.success
               ("Screenshot saved as "
                  ++ py_str (argument args "filename" (JStr "screenshot.png")))
               (no_page "screenshot")), s)
  /\ Daemon.execute_command (command "wait" args) s
     = (inr (Daemon.success ("Waited for " ++ py_str (argument args "selector" JNull))
               (no_page "wait_for_selector")), s)
  /\ Daemon.execute_command (command "js" args) s
     = (inr (Daemon.success "JavaScript executed" (no_page "evaluate")), s).
Proof.
  intros Ha Hp. repeat split.
  - rewrite (execute_command_started _ _ Ha), dispatch_title.
    unfold Daemon.title, Automation.page_method, Automation.this.
    exec. rewrite Ha. exec. rewrite Hp. reflexivity.
  - intros u target Hu Htarget.
    rewrite (execute_command_started _ _ Ha), dispatch_navigate.
    unfold try_except at 1, Daemon.navigate. rewrite bind_lift.
    change (Py.get (JObj args) "url" JNull) with (@inr exc json (url_arg args)).
    cbv iota beta. rewrite Hu, bind_lift, Htarget.
    unfold Automation.navigate_to, Automation.failure, Automation.page_method,
      Automation.this, no_page.
    exec. repeat (first [rewrite Ha | rewrite Hp]; exec). reflexivity.
  - rewrite (execute_command_started _ _ Ha).
    change (Daemon.dispatch (command "click" args)) with (Daemon.click (JObj args)).
    unfold Daemon.click. rewrite get_argument. without_page Ha Hp.
  - rewrite (execute_command_started _ _ Ha).
    change (Daemon.dispatch (command "fill" args)) with (Daemon.fill (JObj args)).
    unfold Daemon.fill. rewrite !get_argument. without_page Ha Hp.
  - rewrite (execute_command_started _ _ Ha).
    change (Daemon.dispatch (command "screenshot" args)) with (Daemon.screenshot (JObj args)).
    unfold Daemon.screenshot. rewrite get_argument. without_page Ha Hp.
  - rewrite (execute_command_started _ _ Ha).
    change (Daemon.dispatch (command "wait" args)) with (Daemon.wait (JObj args)).
    unfold Daemon.wait. rewrite get_argument. without_page Ha Hp.
  - rewrite (execute_command_started _ _ Ha).
    change (Daemon.dispatch (command "js" args)) with (Daemon.js (JObj args)).
    unfold Daemon.js. rewrite get_argument. without_page Ha Hp.
Qed.

Lemma commands_without_page_witness :
  @Daemon.execute_command scripted (command "title" [])
    (snd (@Daemon.init scripted
            (@boot scripted [Done; Raises "Executable doesn't exist"; Done])))
  = (inr (Daemon.error "'NoneType' object has no attribute 'title'"),
     snd (@Daemon.init scripted
            (@boot scripted [Done; Raises "Executable doesn't exist"; Done]))).
Proof.
  apply (@commands_without_page scripted []
           (snd (@Daemon.init scripted
                   (@boot scripted [Done; Raises "Executable doesn't exist"; Done])))
           (mkAutomation false true false false None)); reflexivity.
Defined.

(** * The file protocol between [send_command] and the daemon *)

Create HintDb disk.

Section DiskFrame.
Context {E0 : Env}.

Lemma disk_refl (s : @St (with_files E0)) : disk_frame s s.
Proof. repeat split. Qed.

Lemma disk_trans (s1 s2 s3 : @St (with_files E0)) :
  disk_frame s1 s2 -> disk_frame s2 s3 -> disk_frame s1 s3.
Proof. intros [H1 [H2 H3]] [H4 [H5 H6]]. repeat split; congruence. Qed.

Lemma to_below_files (c : Call) (w : Disk E0) : files (snd (to_below c w)) = files w.
Proof. unfold to_below. destruct (respond c (below w)). reflexivity. Qed.

(** A call that leaves the files alone. *)
Lemma disk_call (c : Call) :
  (forall w : Disk E0, files (snd (@respond (with_files E0) c w)) = files w) ->
  @keeps (with_files E0) disk_frame _ (call c).
Proof. intros H s. rewrite call_eq. split; [apply H | split; reflexivity]. Qed.

End DiskFrame.

Ltac disk_auto :=
  repeat first
    [ exact disk_refl | exact disk_trans
    | apply keeps_ret | apply keeps_raise | apply keeps_lift | apply keeps_self
    | apply keeps_try_except | apply keeps_bind
    | apply keeps_update; intros ?; repeat split
    | match goal with
      | |- keeps _ (call ?c) =>
          refine (@disk_call _ c _); intros ?;
          first [ exact (to_below_files c _) | reflexivity ]
      end
    | solve [auto 2 with disk]
    | match goal with
      | |- keeps _ (if ?b then _ else _) => destruct b
      | |- keeps _ (match ?x with _ => _ end) => destruct x
      | |- keeps _ (let (_, _) := ?x in _) => destruct x
      | |- forall _, _ => intro
      end ].

Section DiskCommands.
Context {E0 : Env}.

Lemma disk_list_tabs_loop tabs :
  forall i, @keeps (with_files E0) disk_frame _ (Daemon.list_tabs_loop i tabs).
Proof.
  induction tabs as [ | tab rest IH]; intros i; simpl.
  - disk_auto.
  - unfold Daemon.list_tabs_entry, Daemon.refresh, Daemon.tab_page_method,
      Daemon.mutate_tab, page_title, page_url.
    disk_auto.
Qed.
Hint Resolve disk_list_tabs_loop : disk.

(** No command touches a file or renames the two files. *)
Lemma disk_execute_command command_data :
  @keeps (with_files E0) disk_frame _ (Daemon.execute_command command_data).
Proof.
  unfold Daemon.execute_command, Daemon.dispatch.
  disk_auto;
    unfold Daemon.navigate, Daemon.click, Daemon.fill, Daemon.screenshot, Daemon.title,
      Daemon.wait, Daemon.js, Daemon.new_tab, Daemon.switch_tab, Daemon.list_tabs,
      Daemon.current_tab, Daemon.stop, Daemon.refresh, Daemon.tab_page_method,
      Daemon.mutate_tab, Automation.assign, Automation.navigate_to,
      Automation.click_element, Automation.fill_form, Automation.take_screenshot,
      Automation.wait_for_element, Automation.execute_javascript, Automation.failure,
      Automation.page_method, Automation.context_method, Automation.this,
      page_title, page_url, page_evaluate, context_new_page;
    disk_auto.
Qed.

Lemma assoc_remove_key k l : Py.assoc k (remove_key k l) = None.
Proof.
  induction l as [ | [k' v] l IH]; simpl; [reflexivity | ].
  destruct (k =? k')%string eqn:Hk; [exact IH | ].
  simpl. rewrite Hk. exact IH.
Qed.

Lemma present_remove_key k l : present k (remove_key k l) = false.
Proof. unfold present. rewrite assoc_remove_key. reflexivity. Qed.

End DiskCommands.

#[global] Hint Resolve disk_list_tabs_loop : disk.

Section Protocol.
Context {E0 : Env} {C : Clock (with_files E0)}.

(** [submit] on a working file system: the command file holds the command,
    no result file is left, and the call does not raise. *)
Lemma submit_files (ty : string) (args : list (string * json)) (s : @St (with_files E0)) :
  exists start s1,
    Client.submit ty args s = (inr start, s1)
    /\ Py.assoc Client.command_file (files (world s1)) = Some (command ty args)
    /\ present Client.result_file (files (world s1)) = false
    /\ daemon s1 = daemon s.
Proof.
  unfold Client.submit, Client.now, path_exists. exec.
  destruct (present Client.result_file (files (world s))) eqn:Hold; simpl.
  - unfold call. simpl. rewrite Hold. simpl.
    do 2 eexists. split; [reflexivity | ]. simpl. split; [reflexivity | ].
    split; [ | reflexivity].
    unfold present. simpl. apply present_remove_key.
  - do 2 eexists. split; [reflexivity | ]. simpl. split; [reflexivity | ].
    split; [ | reflexivity].
    unfold present. simpl. exact Hold.
Qed.


End Protocol.


Section RoundTrip.
Context {E0 : Env} {C : Clock (with_files E0)}.

Lemma result_is_dict (r : json) : is_result r -> exists kv, r = JObj kv.
Proof.
  intros [H | H]; destruct r; try discriminate; eexists; reflexivity.
Qed.

Lemma present_behind k k' v l :
  (k =? k')%string = false -> present k ((k', v) :: l) = present k l.
Proof. intros H. unfold present. simpl. rewrite H. reflexivity. Qed.

Local Arguments Daemon.execute_command : simpl never.
Local Arguments remove_key : simpl never.
Local Arguments present : simpl never.
Local Arguments Py.assoc : simpl never.

(** The daemon's pass over a command file that is there, on a working file
    system: the command is executed, its Result is written to the result
    file and the command file is removed; the pass does not raise. *)
Lemma round_answers (command_data : json) (s1 : @St (with_files E0)) :
  command_file (daemon s1) = Client.command_file ->
  result_file (daemon s1) = Client.result_file ->
  Py.assoc Client.command_file (files (world s1)) = Some command_data ->
  exists r s3 b s2,
    Daemon.execute_command command_data
      (mkSt (daemon s1) (world s1)
         ((calls s1 ++ [PathExists Client.command_file])
            ++ [ReadJson Client.command_file]))
    = (inr r, s3)
    /\ round s1 = (b, s2)
    /\ files (world s2)
       = remove_key Client.command_file ((Client.result_file, r) :: files (world s1))
    /\ daemon s2 = daemon s3.
Proof.
  intros Hcf Hrf Hsent.
  match goal with
  | |- context [Daemon.execute_command command_data ?st] => set (polled := st)
  end.
  destruct (execute_command_contained command_data polled) as [r [Hr Hres]].
  destruct (result_is_dict Hres) as [kv ->].
  pose proof (disk_execute_command command_data polled) as [Hfiles [_ Hrfile]].
  assert (Hpresent : present Client.command_file (files (world s1)) = true)
    by (unfold present; rewrite Hsent; reflexivity).
  unfold round, Daemon.poll, path_exists, read_json, Daemon.write_result.
  exec. rewrite Hcf, Hpresent. simpl. rewrite Hsent. simpl.
  fold polled.
  destruct (Daemon.execute_command command_data polled) as [[e | r'] s3];
    simpl in Hr, Hfiles, Hrfile; [discriminate | ].
  injection Hr as ->.
  exists (JObj kv), s3.
  unfold call. simpl. rewrite Hrfile, Hrf, Hfiles.
  rewrite present_behind by reflexivity. rewrite Hpresent. simpl.
  destruct (Py.get command_data "type" JNull) as [e | ty]; simpl.
  - do 2 eexists. split; [reflexivity | ]. split; [reflexivity | ].
    split; reflexivity.
  - destruct (Py.eq_str ty "stop"); simpl;
      do 2 eexists; (split; [reflexivity | ]); (split; [reflexivity | ]);
      split; reflexivity.
Qed.

End RoundTrip.

(** X20: the round trip of a command.  On a working file system shared by
    the two processes, when the daemon makes one pass after [send_command]
    has written its command, [send_command] returns exactly the Result
    [execute_command] produced for that command, at its first look for the
    result file; the command file is gone, and the daemon object is as the
    command left it.  A result file left over from before (the "started"
    Result of the daemon's startup, say) does not get in the way. *)
Theorem command_round_trip {E0 : Env} {C : Clock (with_files E0)}
    (fuel : nat) (ty : string) (args : list (string * json)) (s : @St (with_files E0)) :
  command_file (daemon s) = Client.command_file ->
  result_file (daemon s) = Client.result_file ->
  let s1 := snd (Client.submit ty args s) in
  let polled := mkSt (daemon s1) (world s1)
                  ((calls s1 ++ [PathExists Client.command_file])
                     ++ [ReadJson Client.command_file]) in
  let s2 := snd (round s1) in
  exists r,
    fst (Daemon.execute_command (command ty args) polled) = inr r
    /\ (forall start, fst (Client.wait_for_result (S fuel) start s2) = inr (Some r))
    /\ present Client.command_file (files (world s2)) = false
    /\ daemon s2 = daemon (snd (Daemon.execute_command (command ty args) polled)).
Proof.
  intros Hcf Hrf s1 polled s2. subst s1 polled s2.
  destruct (submit_files ty args s) as [start0 [s1 [Hsubmit [Hcommand [Hresult Hd]]]]].
  rewrite Hsubmit. cbn [snd].
  rewrite <- Hd in Hcf, Hrf.
  destruct (@round_answers E0 (command ty args) s1 Hcf Hrf Hcommand)
    as [r [s3 [b [s2 [Hrun [Hround [Hfiles Hd2]]]]]]].
  rewrite Hrun, Hround. cbn [fst snd].
  exists r. split; [reflexivity | ].
  assert (Hthere : Py.assoc Client.result_file (files (world s2)) = Some r)
    by (rewrite Hfiles; reflexivity).
  split; [ | split; [ | exact Hd2]].
  - intros start. simpl. unfold path_exists, read_json. exec.
    unfold present. rewrite Hthere. simpl. rewrite Hthere. reflexivity.
  - rewrite Hfiles. simpl. apply present_remove_key.
Qed.

Lemma command_round_trip_witness :
  exists s2,
    fst (@Client.wait_for_result (with_files scripted) (late (with_files scripted)) 1 tt s2)
    = inr (Some (Daemon.success "Page title: Home" (JStr "Home")))
    /\ present Client.command_file (files (world s2)) = false.
Proof.
  pose (s0 := snd (@Daemon.init (with_files scripted)
                     (@boot (with_files scripted)
                        (@mkDisk scripted [] [Done; Done; Done; Page 7%nat; Text "Home"])))).
  destruct (@command_round_trip scripted (late (with_files scripted)) 0 "title" [] s0
              eq_refl eq_refl) as [r [Hr [Hwait [Hgone _]]]].
  eexists. split; [ | exact Hgone].
  rewrite (Hwait tt). vm_compute in Hr. injection Hr as <-. reflexivity.
Defined.
